(** * AIDEV-GitHub: the document conversion core

    A shallow embedding of the text-processing core of the converter
    (Core/CrossReferenceProcessor.py, Core/MetadataExtractor.py,
    Core/DocumentProcessor.py and Utils/PathManager.py) and the proofs
    of its specified properties.

    Conventions of the embedding.
    - A Python [str] is a [string]: the bytes of its UTF-8 encoding.  The
      section sign of the section-reference grammar is the two bytes
      194 167.  Every delimiter the program looks for is ASCII, so matching
      on bytes and matching on code points agree on well-formed text.
    - [str.strip] takes off the white space of [str.isspace], the
      characters outside ASCII included.  The classes of the patterns are
      classes of bytes: [\d] is 0-9 and [\s] the ASCII white space, and
      [str.lower] maps A-Z to a-z.  Python's [\d], [\s] and [str.lower]
      also take characters outside ASCII; a statement whose truth depends
      on one of them says of which text it speaks: [Py.isascii], or the
      wider [below_0660] for [\d] and [narrow_spaces] for [\s].
    - A regular expression is a value of type [regex]; [rmatch] is a
      backtracking matcher with Python's priorities (leftmost alternative
      first, greedy or lazy repetition as written).
    - A dictionary read in insertion order (the document registry) is an
      association list; the metadata dictionary is a [gmap].
    - A Python call that may raise returns an [outcome]. *)

From Stdlib Require Import Ascii String ZArith Lia Bool.
From stdpp Require Import base option list sorting gmap strings.
From Equations Require Import Equations.

#[local] Arguments String.append !_ _ / : simpl nomatch.

(** * Part I: the program *)

(** ** Python string primitives *)

Module Py.

Fixpoint len (s : string) : nat :=
  match s with
  | EmptyString => 0
  | String _ s' => S (len s')
  end.

(** [s.startswith(p)] *)
Fixpoint startswith (s p : string) : bool :=
  match p, s with
  | EmptyString, _ => true
  | String a p', String b s' => Ascii.eqb a b && startswith s' p'
  | String _ _, EmptyString => false
  end.

(** [s[n:]] and [s[:n]] *)
Fixpoint drop_str (n : nat) (s : string) : string :=
  match n, s with
  | O, _ => s
  | S n', String _ s' => drop_str n' s'
  | S _, EmptyString => EmptyString
  end.

Fixpoint take_str (n : nat) (s : string) : string :=
  match n, s with
  | S n', String c s' => String c (take_str n' s')
  | _, _ => EmptyString
  end.

(** [c in s] for a single character, and [sub in s]. *)
Fixpoint has_char (c : ascii) (s : string) : bool :=
  match s with
  | EmptyString => false
  | String a s' => Ascii.eqb a c || has_char c s'
  end.

Fixpoint contains (s sub : string) : bool :=
  startswith s sub ||
  match s with
  | EmptyString => false
  | String _ s' => contains s' sub
  end.

(** A byte of ASCII white space: tab, newline, vertical tab, form feed,
    carriage return, the separators 28-31 and the space. *)
Definition isspace (c : ascii) : bool :=
  let n := nat_of_ascii c in
  ((9 <=? n) && (n <=? 13)) || ((28 <=? n) && (n <=? 32)).

(** A byte that is a digit 0-9, an upper-case letter A-Z, a lower-case
    letter a-z. *)
Definition isdigit (c : ascii) : bool :=
  let n := nat_of_ascii c in (48 <=? n) && (n <=? 57).

Definition isupper (c : ascii) : bool :=
  let n := nat_of_ascii c in (65 <=? n) && (n <=? 90).

Definition islower (c : ascii) : bool :=
  let n := nat_of_ascii c in (97 <=? n) && (n <=? 122).

Definition lower_char (c : ascii) : ascii :=
  if isupper c then ascii_of_nat (nat_of_ascii c + 32) else c.

Definition upper_char (c : ascii) : ascii :=
  if islower c then ascii_of_nat (nat_of_ascii c - 32) else c.

(** [s.lower()] and [s.upper()] on the letters of ASCII; a character
    outside ASCII is left as it is. *)
Fixpoint lower (s : string) : string :=
  match s with
  | EmptyString => EmptyString
  | String c s' => String (lower_char c) (lower s')
  end.

Fixpoint upper (s : string) : string :=
  match s with
  | EmptyString => EmptyString
  | String c s' => String (upper_char c) (upper s')
  end.

(** [s.isascii()] *)
Fixpoint isascii (s : string) : bool :=
  match s with
  | EmptyString => true
  | String c s' => (nat_of_ascii c <? 128) && isascii s'
  end.

(** The white space of [str.isspace], which [str.strip] takes off: the
    ASCII white space and U+0085, U+00A0, U+1680, U+2000 to U+200A, U+2028,
    U+2029, U+202F, U+205F and U+3000, as UTF-8 writes them.
    [space_width s] is the number of bytes of the white-space character
    that [s] starts with, 0 when it starts with none. *)
Definition byte (c : ascii) (n : nat) : bool := nat_of_ascii c =? n.

Definition space_width (s : string) : nat :=
  match s with
  | EmptyString => 0
  | String c EmptyString => if isspace c then 1 else 0
  | String c (String d s2) =>
      if isspace c then 1
      else if byte c 194 && (byte d 133 || byte d 160) then 2
      else
        match s2 with
        | EmptyString => 0
        | String e _ =>
            if byte c 225 && byte d 154 && byte e 128 then 3
            else if byte c 226 && byte d 128 &&
                    (((128 <=? nat_of_ascii e) && (nat_of_ascii e <=? 138)) ||
                     byte e 168 || byte e 169 || byte e 175) then 3
            else if byte c 226 && byte d 129 && byte e 159 then 3
            else if byte c 227 && byte d 128 && byte e 128 then 3
            else 0
        end
  end.

(** [s.lstrip()]; [skip] counts the bytes of a white-space character
    still to be passed over. *)
Fixpoint lstrip_from (skip : nat) (s : string) : string :=
  match s with
  | EmptyString => EmptyString
  | String c s' =>
      match skip with
      | S k => lstrip_from k s'
      | O =>
          match space_width s with
          | O => s
          | S k => lstrip_from k s'
          end
      end
  end.

Definition lstrip (s : string) : string := lstrip_from 0 s.

(** The text is white space from end to end: [s.strip() == ''] *)
Fixpoint blank_from (skip : nat) (s : string) : bool :=
  match s with
  | EmptyString => true
  | String c s' =>
      match skip with
      | S k => blank_from k s'
      | O =>
          match space_width s with
          | O => false
          | S k => blank_from k s'
          end
      end
  end.

Definition blank (s : string) : bool := blank_from 0 s.

(** [s.rstrip()]: the text up to where the rest is white space. *)
Fixpoint rstrip (s : string) : string :=
  match s with
  | EmptyString => EmptyString
  | String c s' => if blank s then EmptyString else String c (rstrip s')
  end.

Definition strip (s : string) : string := rstrip (lstrip s).

(** [s.split('\n')]: never empty, one more piece than there are newlines. *)
Fixpoint split_lines (s : string) : list string :=
  match s with
  | EmptyString => [EmptyString]
  | String c s' =>
      if Ascii.eqb c "010"%char then EmptyString :: split_lines s'
      else match split_lines s' with
           | l :: ls => String c l :: ls
           | [] => [String c EmptyString]
           end
  end.

(** ['\n'.join(ls)] *)
Fixpoint join_lines (ls : list string) : string :=
  match ls with
  | [] => EmptyString
  | [l] => l
  | l :: ls' => l +:+ String "010"%char (join_lines ls')
  end.

(** [s.replace(old, new)] for a non-empty [old]: the occurrences are taken
    left to right and do not overlap; the replacement text is not
    rescanned.  [skip] counts the characters of an occurrence still to be
    passed over. *)
Fixpoint replace_from (old new : string) (skip : nat) (s : string) : string :=
  match s with
  | EmptyString => EmptyString
  | String c s' =>
      match skip with
      | S k => replace_from old new k s'
      | O => if startswith s old
             then new +:+ replace_from old new (len old - 1) s'
             else String c (replace_from old new 0 s')
      end
  end.

Definition replace (s old new : string) : string := replace_from old new 0 s.

(** [int(s)] on a string of decimal digits. *)
Definition digit_val (c : ascii) : Z := Z.of_nat (nat_of_ascii c) - 48.

Fixpoint int_acc (acc : Z) (s : string) : Z :=
  match s with
  | EmptyString => acc
  | String c s' => int_acc (10 * acc + digit_val c) s'
  end.

Definition int (s : string) : Z := int_acc 0 s.

(** [s.split(sep)] for a non-empty [sep]: the pieces between the
    occurrences of [sep], taken left to right without overlap; never empty.
    [skip] counts the characters of an occurrence still to be passed over. *)
Fixpoint split_from (sep : string) (skip : nat) (s : string) : list string :=
  match s with
  | EmptyString => [EmptyString]
  | String c s' =>
      match skip with
      | S k => split_from sep k s'
      | O =>
          if startswith s sep then EmptyString :: split_from sep (len sep - 1) s'
          else match split_from sep 0 s' with
               | l :: ls => String c l :: ls
               | [] => [String c EmptyString]
               end
      end
  end.

Definition split (s sep : string) : list string := split_from sep 0 s.

(** [s.strip(chars)] *)
Fixpoint lstrip_chars (chars s : string) : string :=
  match s with
  | EmptyString => EmptyString
  | String c s' => if has_char c chars then lstrip_chars chars s' else s
  end.

Fixpoint rstrip_chars (chars s : string) : string :=
  match s with
  | EmptyString => EmptyString
  | String c s' =>
      match rstrip_chars chars s' with
      | EmptyString => if has_char c chars then EmptyString else String c EmptyString
      | r => String c r
      end
  end.

Definition strip_chars (s chars : string) : string := rstrip_chars chars (lstrip_chars chars s).

(** [sep.join(ls)] *)
Fixpoint join (sep : string) (ls : list string) : string :=
  match ls with
  | [] => EmptyString
  | [l] => l
  | l :: ls' => l +:+ sep +:+ join sep ls'
  end.

(** [s[:n]] counts code points: a byte 128-191 continues the code point
    before it. *)
Definition is_continuation (c : ascii) : bool :=
  let n := nat_of_ascii c in (128 <=? n) && (n <=? 191).

Fixpoint take_chars (n : nat) (s : string) : string :=
  match s with
  | EmptyString => EmptyString
  | String c s' =>
      if is_continuation c then String c (take_chars n s')
      else match n with
           | O => EmptyString
           | S n' => String c (take_chars n' s')
           end
  end.

(** [sorted(l)] on a list of strings: code point order is the order of the
    UTF-8 bytes. *)
Definition sorted (l : list string) : list string := merge_sort String.le l.

(** [s.endswith(p)] *)
Definition endswith (s p : string) : bool :=
  (len p <=? len s) && String.eqb (drop_str (len s - len p) s) p.


(** [s.count(c)] for a single character [c] *)
Fixpoint count_char (c : ascii) (s : string) : nat :=
  match s with
  | EmptyString => 0
  | String a s' => (if Ascii.eqb a c then 1 else 0) + count_char c s'
  end.
End Py.

(** Outcome of a Python call: a value, or an exception (the message is not
    modelled, the class is). *)
Inductive exn := ValueError | KeyError | TypeError | OtherError.

Inductive outcome (A : Type) :=
| Returns (a : A)
| Raises (e : exn).

Arguments Returns {A} a.
Arguments Raises {A} e.

(** ** Regular expressions *)

Module Re.

Inductive regex : Type :=
| Eps                                     (* empty pattern *)
| Chr (c : ascii)                         (* a literal character *)
| Cls (p : ascii -> bool)                 (* one character of a class *)
| Seq (r1 r2 : regex)
| Alt (r1 r2 : regex)                     (* r1|r2 *)
| Opt (r : regex)                         (* r? *)
| Rep (greedy : bool) (lo : nat) (hi : option nat) (p : ascii -> bool)
                                          (* class{lo,hi}, class+, class+? *)
| Grp (n : nat) (r : regex)               (* capturing group number n *)
| Bos                                     (* ^ *)
| Eos                                     (* $ : at the end, or before a final newline *)
| Bol                                     (* ^ under re.MULTILINE *)
| Eol.                                    (* $ under re.MULTILINE *)

(** A literal string. *)
Fixpoint Lit (s : string) : regex :=
  match s with
  | EmptyString => Eps
  | String c EmptyString => Chr c
  | String c s' => Seq (Chr c) (Lit s')
  end.

Definition captures := list (nat * string).

Record Match := { group0 : string; groups : captures }.

Fixpoint assoc (n : nat) (cs : captures) : option string :=
  match cs with
  | [] => None
  | (k, v) :: cs' => if Nat.eqb k n then Some v else assoc n cs'
  end.

(** [m.group(n)]: [None] when the group took no part in the match. *)
Definition group (m : Match) (n : nat) : option string :=
  match n with
  | O => Some (group0 m)
  | _ => assoc n (groups m)
  end.

Section Matcher.
Context {A : Type}.

(** A continuation receives the character before the cursor, the rest of
    the text and the groups closed so far. *)
Definition cont := option ascii -> string -> captures -> option A.

Definition orelse (x y : option A) : option A :=
  match x with Some _ => x | None => y end.

Definition more (hi : option nat) : bool :=
  match hi with Some O => false | _ => true end.

Definition dec (hi : option nat) : option nat :=
  match hi with Some n => Some (Nat.pred n) | None => None end.

Fixpoint rep_greedy (p : ascii -> bool) (lo : nat) (hi : option nat)
    (prev : option ascii) (s : string) (cs : captures) (k : cont) : option A :=
  let stop := match lo with O => k prev s cs | S _ => None end in
  match s with
  | String c s' =>
      if more hi && p c
      then orelse (rep_greedy p (Nat.pred lo) (dec hi) (Some c) s' cs k) stop
      else stop
  | EmptyString => stop
  end.

Fixpoint rep_lazy (p : ascii -> bool) (lo : nat) (hi : option nat)
    (prev : option ascii) (s : string) (cs : captures) (k : cont) : option A :=
  let step :=
    match s with
    | String c s' =>
        if more hi && p c
        then rep_lazy p (Nat.pred lo) (dec hi) (Some c) s' cs k
        else None
    | EmptyString => None
    end in
  match lo with
  | O => orelse (k prev s cs) step
  | S _ => step
  end.

Fixpoint rmatch (r : regex) (prev : option ascii) (s : string)
    (cs : captures) (k : cont) : option A :=
  match r with
  | Eps => k prev s cs
  | Chr c =>
      match s with
      | String c' s' => if Ascii.eqb c c' then k (Some c') s' cs else None
      | EmptyString => None
      end
  | Cls p =>
      match s with
      | String c' s' => if p c' then k (Some c') s' cs else None
      | EmptyString => None
      end
  | Seq r1 r2 =>
      rmatch r1 prev s cs (fun prev' s' cs' => rmatch r2 prev' s' cs' k)
  | Alt r1 r2 => orelse (rmatch r1 prev s cs k) (rmatch r2 prev s cs k)
  | Opt r' => orelse (rmatch r' prev s cs k) (k prev s cs)
  | Rep true lo hi p => rep_greedy p lo hi prev s cs k
  | Rep false lo hi p => rep_lazy p lo hi prev s cs k
  | Grp n r' =>
      rmatch r' prev s cs
        (fun prev' s' cs' =>
           k prev' s' ((n, Py.take_str (Py.len s - Py.len s') s) :: cs'))
  | Bos => match prev with None => k prev s cs | Some _ => None end
  | Eos =>
      match s with
      | EmptyString => k prev s cs
      | String c EmptyString => if Ascii.eqb c "010"%char then k prev s cs else None
      | _ => None
      end
  | Bol =>
      match prev with
      | None => k prev s cs
      | Some c => if Ascii.eqb c "010"%char then k prev s cs else None
      end
  | Eol =>
      match s with
      | EmptyString => k prev s cs
      | String c _ => if Ascii.eqb c "010"%char then k prev s cs else None
      end
  end.
End Matcher.

(** The match of [r] that starts at the cursor, if there is one. *)
Definition match_at (r : regex) (prev : option ascii) (s : string) : option Match :=
  rmatch r prev s []
    (fun _ s' cs =>
       Some {| group0 := Py.take_str (Py.len s - Py.len s') s; groups := cs |}).

(** [re.match(r, s)] *)
Definition re_match (r : regex) (s : string) : option Match := match_at r None s.

(** [re.search(r, s)]: the match at the leftmost position that has one. *)
Fixpoint search_from (r : regex) (prev : option ascii) (s : string) : option Match :=
  match match_at r prev s with
  | Some m => Some m
  | None =>
      match s with
      | EmptyString => None
      | String c s' => search_from r (Some c) s'
      end
  end.

Definition re_search (r : regex) (s : string) : option Match := search_from r None s.

(** [re.finditer(r, s)] and [re.sub(r, repl, s)] for a pattern that consumes
    at least one character whenever it matches (every pattern this program
    passes to them starts with a literal bracket): matches are taken left
    to right and do not overlap.  [skip] counts the characters of the
    current match still to be passed over. *)
Fixpoint finditer_from (r : regex) (prev : option ascii) (skip : nat) (s : string)
    : list Match :=
  match s with
  | EmptyString => []
  | String c s' =>
      match skip with
      | S k => finditer_from r (Some c) k s'
      | O =>
          match match_at r prev s with
          | Some m => m :: finditer_from r (Some c) (Py.len (group0 m) - 1) s'
          | None => finditer_from r (Some c) 0 s'
          end
      end
  end.

Definition re_finditer (r : regex) (s : string) : list Match := finditer_from r None 0 s.

Fixpoint sub_from (r : regex) (repl : Match -> string) (prev : option ascii)
    (skip : nat) (s : string) : string :=
  match s with
  | EmptyString => EmptyString
  | String c s' =>
      match skip with
      | S k => sub_from r repl (Some c) k s'
      | O =>
          match match_at r prev s with
          | Some m => repl m +:+ sub_from r repl (Some c) (Py.len (group0 m) - 1) s'
          | None => String c (sub_from r repl (Some c) 0 s')
          end
      end
  end.

Definition re_sub (r : regex) (repl : Match -> string) (s : string) : string :=
  sub_from r repl None 0 s.

(** Character classes of the patterns. *)
Definition digit : ascii -> bool := Py.isdigit.
Definition dot (c : ascii) : bool := negb (Ascii.eqb c "010"%char).
Definition space : ascii -> bool := Py.isspace.
Definition none_of (bad : string) (c : ascii) : bool := negb (Py.has_char c bad).
Definition one_of (good : string) (c : ascii) : bool := Py.has_char c good.

(** [\d{n}], [c+], [c+?], [c*] *)
Definition Times (n : nat) (p : ascii -> bool) : regex := Rep true n (Some n) p.
Definition Plus (p : ascii -> bool) : regex := Rep true 1 None p.
Definition LazyPlus (p : ascii -> bool) : regex := Rep false 1 None p.
Definition Star (p : ascii -> bool) : regex := Rep true 0 None p.

End Re.

Notation "r1 >>> r2" := (Re.Seq r1 r2) (at level 60, right associativity).

Import Re.

(** ** Core/CrossReferenceProcessor.py *)

(** A registry entry: the dictionary stored by the registry builder.  Only
    its ["title"] and ["url"] keys are read by the resolver, each through
    [dict.get] with a default, so either may be absent. *)
Record DocInfo := { info_title : option string; info_url : option string }.

(** The document registry, in insertion order.  The keys of a dictionary
    are distinct; nothing below depends on it. *)
Definition Registry := list (string * DocInfo).

(** [DocumentRegistry[DocID]] when [DocID in DocumentRegistry]. *)
Fixpoint registry_get (R : Registry) (DocID : string) : option DocInfo :=
  match R with
  | [] => None
  | (k, v) :: R' => if String.eqb k DocID then Some v else registry_get R' DocID
  end.

(** [Match.group(n)] where the group always takes part in the match. *)
Definition group_str (m : Match) (n : nat) : string := default "" (group m n).

(** [\d{2}-\d{2}], the shape of a document identifier. *)
Definition DocIDShape : regex := Times 2 digit >>> Chr "-" >>> Times 2 digit.

(** [r'\[(\d{2}-\d{2})\]'] *)
Definition DocRefPattern : regex := Chr "[" >>> Grp 1 DocIDShape >>> Chr "]".

(** [r'\[(\d{2}-\d{2}) §(\d+\.\d+)\]'] *)
Definition SectionRefPattern : regex :=
  Chr "[" >>> Grp 1 DocIDShape >>> Lit " §" >>>
  Grp 2 (Plus digit >>> Chr "." >>> Plus digit) >>> Chr "]".

(** [r'\[(DECISION-\d{8}-\d+)\]'] *)
Definition DecisionRefPattern : regex :=
  Chr "[" >>> Grp 1 (Lit "DECISION-" >>> Times 8 digit >>> Chr "-" >>> Plus digit) >>>
  Chr "]".

(** The three replacement functions.  [ReplaceDocRef] also reads the title
    of the entry, which it does not use. *)
Definition ReplaceDocRef (DocumentRegistry : Registry) (m : Match) : string :=
  let DocID := group_str m 1 in
  match registry_get DocumentRegistry DocID with
  | Some DocInfo =>
      let URL := default "" (info_url DocInfo) in
      "[" +:+ DocID +:+ "](" +:+ URL +:+ ")"
  | None => group_str m 0
  end.

Definition ReplaceSectionRef (DocumentRegistry : Registry) (m : Match) : string :=
  let DocID := group_str m 1 in
  let Section := group_str m 2 in
  match registry_get DocumentRegistry DocID with
  | Some DocInfo =>
      let URL := default "" (info_url DocInfo) in
      let Anchor := Py.replace (Py.lower Section) "." "" in
      "[" +:+ DocID +:+ " §" +:+ Section +:+ "](" +:+ URL +:+ "#" +:+ Anchor +:+ ")"
  | None => group_str m 0
  end.

(** The loop over [DocumentRegistry.items()]: the first entry whose title
    starts with DECISION and contains the decision identifier. *)
Fixpoint find_decision (R : Registry) (DecisionID : string) : option DocInfo :=
  match R with
  | [] => None
  | (_, DocInfo) :: R' =>
      let Title := default "" (info_title DocInfo) in
      if Py.startswith Title "DECISION" && Py.contains Title DecisionID
      then Some DocInfo
      else find_decision R' DecisionID
  end.

Definition ReplaceDecisionRef (DocumentRegistry : Registry) (m : Match) : string :=
  let DecisionID := group_str m 1 in
  match find_decision DocumentRegistry DecisionID with
  | Some DocInfo =>
      let URL := default "" (info_url DocInfo) in
      let Anchor := Py.lower DecisionID in
      "[" +:+ DecisionID +:+ "](" +:+ URL +:+ "#" +:+ Anchor +:+ ")"
  | None =>
      "[" +:+ DecisionID +:+ "]({{ site.baseurl }}/docs/governance/decisions/#" +:+
      Py.lower DecisionID +:+ ")"
  end.

Definition ProcessCrossReferences (Content : string) (DocumentRegistry : Registry)
    : string :=
  let Content := re_sub DocRefPattern (ReplaceDocRef DocumentRegistry) Content in
  let Content := re_sub SectionRefPattern (ReplaceSectionRef DocumentRegistry) Content in
  let Content := re_sub DecisionRefPattern (ReplaceDecisionRef DocumentRegistry) Content in
  Content.

(** ** Core/DocumentProcessor.py *)

(** [Lines[i]] for an index in range. *)
Definition line_at (Lines : list string) (i : nat) : string := nth i Lines "".

(** [while StartIndex < len(Lines) and P(Lines[StartIndex]): StartIndex += 1] *)
Equations? skip_lines (P : string -> bool) (Lines : list string) (StartIndex : nat)
    : nat by wf (length Lines - StartIndex) lt :=
  skip_lines P Lines StartIndex with decide (StartIndex < length Lines) := {
    | left _ with P (line_at Lines StartIndex) := {
        | true => skip_lines P Lines (S StartIndex)
        | false => StartIndex }
    | right _ => StartIndex }.
Proof. lia. Qed.

Definition is_timestamp_line (Line : string) : bool :=
  Py.startswith Line "**Created:" || Py.startswith Line "**Last Modified:" ||
  String.eqb (Py.strip Line) "".

Definition is_tag_line (Line : string) : bool :=
  (Py.startswith Line "[" && Py.has_char "]"%char Line) ||
  String.eqb (Py.strip Line) "".

Definition RemoveMetadataHeader (Content : string) : string :=
  let Lines := Py.split_lines Content in
  let StartIndex := 0 in
  let StartIndex :=
    match Lines with
    | Line0 :: _ => if Py.startswith Line0 "# " then 1 else StartIndex
    | [] => StartIndex
    end in
  let StartIndex := skip_lines is_timestamp_line Lines StartIndex in
  let StartIndex := skip_lines is_tag_line Lines StartIndex in
  Py.join_lines (drop StartIndex Lines).

(** The double quote character, for the replacement texts below. *)
Definition dq : string := String "034"%char EmptyString.

Definition ProcessJekyllIncompatibleContent (Content : string) : string :=
  let Content := Py.replace Content "{% " ("{{ " +:+ dq +:+ "{% " +:+ dq +:+ " }}") in
  let Content := Py.replace Content "{{ " ("{{ " +:+ dq +:+ "{{ " +:+ dq +:+ " }}") in
  let Content := Py.replace Content " }}" (" {{ " +:+ dq +:+ "}}" +:+ dq +:+ " }}") in
  let Content := Py.replace Content " %}" (" {{ " +:+ dq +:+ "%}" +:+ dq +:+ " }}") in
  let Content := Py.replace Content "{{{" "&#123;&#123;&#123;" in
  let Content := Py.replace Content "}}}" "&#125;&#125;&#125;" in
  Content.

(** ** Utils/PathManager.py *)

(** The three patterns of [GetDocumentID], in the order of the list:
    [r'^(\d{2}-\d{2})[- _]'], [r'^(\d{2}-\d{2})\.md$'] and
    [r'-(\d{2}-\d{2})\.md$']. *)
Definition PrefixPattern : regex := Bos >>> Grp 1 DocIDShape >>> Cls (one_of "- _").

Definition StemPattern : regex := Bos >>> Grp 1 DocIDShape >>> Lit ".md" >>> Eos.

Definition SuffixPattern : regex := Chr "-" >>> Grp 1 DocIDShape >>> Lit ".md" >>> Eos.

Definition Patterns : list regex := [PrefixPattern; StemPattern; SuffixPattern].

(** [for Pattern in Patterns: Match = re.search(Pattern, Filename); if Match:
    return Match.group(1)], then [return ""]. *)
Fixpoint first_search (Patterns : list regex) (Filename : string) : string :=
  match Patterns with
  | [] => ""
  | Pattern :: Patterns' =>
      match re_search Pattern Filename with
      | Some m => group_str m 1
      | None => first_search Patterns' Filename
      end
  end.

Definition GetDocumentID (Filename : string) : string := first_search Patterns Filename.

(** ** [datetime] of the Python library *)

Record datetime := { year : Z; month : Z; day : Z; hour : Z; minute : Z }.

Definition is_leap (y : Z) : bool :=
  ((y mod 4 =? 0) && negb (y mod 100 =? 0) || (y mod 400 =? 0))%Z.

Definition days_in_month (y m : Z) : Z :=
  (if (m =? 2) then (if is_leap y then 29 else 28)
   else if (m =? 4) || (m =? 6) || (m =? 9) || (m =? 11) then 30 else 31)%Z.

(** [datetime(Year, Month, Day, Hour, Minute)]: [ValueError] when a
    component is out of range. *)
Definition datetime_new (Y M D h mi : Z) : outcome datetime :=
  if ((1 <=? Y) && (Y <=? 9999) && (1 <=? M) && (M <=? 12) &&
      (1 <=? D) && (D <=? days_in_month Y M) &&
      (0 <=? h) && (h <=? 23) && (0 <=? mi) && (mi <=? 59))%Z
  then Returns {| year := Y; month := M; day := D; hour := h; minute := mi |}
  else Raises ValueError.

Definition digit_char (n : Z) : ascii := ascii_of_nat (48 + Z.to_nat (n mod 10)).

Definition pad2 (n : Z) : string :=
  String (digit_char (n / 10)) (String (digit_char n) "").

Definition pad4 (n : Z) : string :=
  String (digit_char (n / 1000)) (String (digit_char (n / 100)) (pad2 n)).

(** [dt.strftime("%Y-%m-%d")] as the C library of Linux writes it: the
    year without leading zeros, the month and the day with two digits. *)
Definition year_text (y : Z) : string :=
  (if y <? 10 then String (digit_char y) ""
   else if y <? 100 then pad2 y
   else if y <? 1000 then String (digit_char (y / 100)) (pad2 y)
   else pad4 y)%Z.

Definition strftime_date (dt : datetime) : string :=
  year_text (year dt) +:+ "-" +:+ pad2 (month dt) +:+ "-" +:+ pad2 (day dt).

(** *** [datetime.strptime], after Lib/_strptime.py, for the directives that
    the formats of [ParseTimestamp] use *)

Definition month_names : list string :=
  ["january"; "february"; "march"; "april"; "may"; "june"; "july"; "august";
   "september"; "october"; "november"; "december"].

Definition am_pm : list string := ["am"; "pm"].

(** A character and a literal matched without regard to case
    ([re.IGNORECASE]). *)
Definition same_letter (c x : ascii) : bool :=
  Ascii.eqb (Py.lower_char x) (Py.lower_char c).

Fixpoint LitI (s : string) : regex :=
  match s with
  | EmptyString => Eps
  | String c s' => Cls (same_letter c) >>> LitI s'
  end.

(** [sorted(to_convert, key=len, reverse=True)]: a stable insertion sort,
    longest first. *)
Fixpoint insert_by_len (x : string) (l : list string) : list string :=
  match l with
  | [] => [x]
  | y :: l' => if Py.len y <=? Py.len x then x :: l else y :: insert_by_len x l'
  end.

Definition sort_by_len (l : list string) : list string :=
  foldr insert_by_len [] l.

Fixpoint alternatives (l : list string) : regex :=
  match l with
  | [] => Eps
  | [x] => LitI x
  | x :: l' => Alt (LitI x) (alternatives l')
  end.

(** The group of a directive is numbered by the code of its letter. *)
Definition key (d : ascii) : nat := nat_of_ascii d.

Definition seqToRE (to_convert : list string) (d : ascii) : regex :=
  Grp (key d) (alternatives (sort_by_len to_convert)).

Definition range (lo hi : string) (c : ascii) : bool :=
  match lo, hi with
  | String a _, String b _ =>
      (nat_of_ascii a <=? nat_of_ascii c) && (nat_of_ascii c <=? nat_of_ascii b)
  | _, _ => false
  end.

Definition directive (d : ascii) : option regex :=
  if Ascii.eqb d "d" then
    (* 3[0-1]|[1-2]\d|0[1-9]|[1-9]| [1-9] *)
    Some (Grp (key d)
            (Alt (Chr "3" >>> Cls (range "0" "1"))
            (Alt (Cls (range "1" "2") >>> Cls digit)
            (Alt (Chr "0" >>> Cls (range "1" "9"))
            (Alt (Cls (range "1" "9"))
                 (Chr " " >>> Cls (range "1" "9")))))))
  else if Ascii.eqb d "H" then
    (* 2[0-3]|[0-1]\d|\d *)
    Some (Grp (key d)
            (Alt (Chr "2" >>> Cls (range "0" "3"))
            (Alt (Cls (range "0" "1") >>> Cls digit)
                 (Cls digit))))
  else if Ascii.eqb d "I" || Ascii.eqb d "m" then
    (* 1[0-2]|0[1-9]|[1-9] *)
    Some (Grp (key d)
            (Alt (Chr "1" >>> Cls (range "0" "2"))
            (Alt (Chr "0" >>> Cls (range "1" "9"))
                 (Cls (range "1" "9")))))
  else if Ascii.eqb d "M" then
    (* [0-5]\d|\d *)
    Some (Grp (key d) (Alt (Cls (range "0" "5") >>> Cls digit) (Cls digit)))
  else if Ascii.eqb d "Y" then
    (* \d\d\d\d *)
    Some (Grp (key d) (Cls digit >>> Cls digit >>> Cls digit >>> Cls digit))
  else if Ascii.eqb d "B" then Some (seqToRE month_names d)
  else if Ascii.eqb d "p" then Some (seqToRE am_pm d)
  else None.

(** [TimeRE.pattern]: a run of white space of the format stands for
    [\s+], a directive for its expression, any other character for
    itself.  [in_ws] tells that the run of white space has begun. *)
Fixpoint TimeRE_pattern (in_ws : bool) (format : string) : option regex :=
  match format with
  | EmptyString => Some Eps
  | String c format' =>
      if Py.isspace c then
        if in_ws then TimeRE_pattern true format'
        else r ← TimeRE_pattern true format'; Some (Plus space >>> r)
      else if Ascii.eqb c "%" then
        match format' with
        | String d format'' =>
            rd ← directive d; r ← TimeRE_pattern false format''; Some (rd >>> r)
        | EmptyString => None
        end
      else r ← TimeRE_pattern false format'; Some (Cls (same_letter c) >>> r)
  end.

(** [list.index] *)
Fixpoint index_of (x : string) (l : list string) : option nat :=
  match l with
  | [] => None
  | y :: l' => if String.eqb y x then Some 0 else S <$> index_of x l'
  end.

Definition strptime (data_string format : string) : outcome datetime :=
  match TimeRE_pattern false format with
  | None => Raises ValueError                      (* bad directive *)
  | Some format_regex =>
      match re_match format_regex data_string with
      | None => Raises ValueError                  (* does not match format *)
      | Some found =>
          if negb (Py.len data_string =? Py.len (group0 found))
          then Raises ValueError                   (* unconverted data remains *)
          else
            let get d := group found (key d) in
            let month :=
              match get "B"%char, get "m"%char with
              | Some B, _ =>
                  match index_of (Py.lower B) month_names with
                  | Some i => Z.of_nat (S i)
                  | None => 1%Z
                  end
              | None, Some m => Py.int m
              | None, None => 1%Z
              end in
            let day := match get "d"%char with Some d => Py.int (Py.strip d) | None => 1%Z end in
            let hour :=
              match get "I"%char, get "H"%char with
              | Some I', _ =>
                  let hour := Py.int I' in
                  let ampm := Py.lower (default "" (get "p"%char)) in
                  if String.eqb ampm "" || String.eqb ampm "am"
                  then (if (hour =? 12)%Z then 0%Z else hour)
                  else if String.eqb ampm "pm"
                  then (if negb (hour =? 12)%Z then (hour + 12)%Z else hour)
                  else hour
              | None, Some H => Py.int H
              | None, None => 0%Z
              end in
            let minute := match get "M"%char with Some M => Py.int M | None => 0%Z end in
            let year :=
              match get "Y"%char with
              | Some Y => Py.int Y
              | None => if ((month =? 2) && (day =? 29))%Z then 1904%Z else 1900%Z
              end in
            datetime_new year month day hour minute
      end
  end.

(** ** Core/MetadataExtractor.py *)

Definition Formats : list string :=
  [ "%B %d, %Y %I:%M %p";
    "%B %d, %Y  %I:%M%p";
    "%B %d, %Y  %I:%M %p";
    "%Y-%m-%d %H:%M";
    "%Y-%m-%d" ].

(** [for Format in Formats: try: return strptime(...) except ValueError:
    continue] *)
Fixpoint try_formats (TimestampStr : string) (Formats : list string)
    : option (outcome datetime) :=
  match Formats with
  | [] => None
  | Format :: Formats' =>
      match strptime TimestampStr Format with
      | Returns dt => Some (Returns dt)
      | Raises ValueError => try_formats TimestampStr Formats'
      | Raises e => Some (Raises e)
      end
  end.

(** [r'([A-Z][a-z]+)\s+(\d{1,2}),?\s+(\d{4})\s+(\d{1,2}):(\d{2})\s*([AP]M)?'] *)
Definition FlexiblePattern : regex :=
  Grp 1 (Cls Py.isupper >>> Plus Py.islower) >>> Plus space >>>
  Grp 2 (Rep true 1 (Some 2) digit) >>> Opt (Chr ",") >>> Plus space >>>
  Grp 3 (Times 4 digit) >>> Plus space >>>
  Grp 4 (Rep true 1 (Some 2) digit) >>> Chr ":" >>> Grp 5 (Times 2 digit) >>>
  Star space >>> Opt (Grp 6 (Cls (one_of "AP") >>> Chr "M")).

Definition MonthNum (Month : string) : option Z :=
  Z.of_nat ∘ S <$>
  index_of Month ["January"; "February"; "March"; "April"; "May"; "June"; "July";
                  "August"; "September"; "October"; "November"; "December"].

(** The branches on [AMPM] of the flexible parser. *)
Definition flexible_hour (AMPM : option string) (Hour : Z) : Z :=
  match AMPM with
  | Some AMPM =>
      if negb (String.eqb AMPM "") && String.eqb (Py.upper AMPM) "PM" && (Hour <? 12)%Z
      then (Hour + 12)%Z
      else if negb (String.eqb AMPM "") && String.eqb (Py.upper AMPM) "AM" && (Hour =? 12)%Z
      then 0%Z
      else Hour
  | None => Hour
  end.

Definition ParseTimestamp (TimestampStr : string) : outcome datetime :=
  match try_formats TimestampStr Formats with
  | Some result => result
  | None =>
      match re_match FlexiblePattern TimestampStr with
      | Some m =>
          let Month := group_str m 1 in
          let Day := group_str m 2 in
          let Year := group_str m 3 in
          let Hour := group_str m 4 in
          let Minute := group_str m 5 in
          let AMPM := group m 6 in
          match MonthNum Month with
          | None => Raises ValueError              (* Invalid month *)
          | Some MonthNum =>
              let Year := Py.int Year in
              let Day := Py.int Day in
              let Hour := Py.int Hour in
              let Minute := Py.int Minute in
              let Hour := flexible_hour AMPM Hour in
              match datetime_new Year MonthNum Day Hour Minute with
              | Returns dt => Returns dt
              | Raises _ => Raises ValueError      (* Invalid timestamp components *)
              end
          end
      | None => Raises ValueError                  (* Could not parse timestamp *)
      end
  end.

(** The metadata dictionary, and the statements of [ExtractMetadata] as
    computations on it.  The dictionary is updated in place, so what was
    stored before an exception is still there when the exception is caught. *)
Abbreviation Metadata := (gmap string string).

Definition M (A : Type) : Type := Metadata -> outcome A * Metadata.

#[export] Instance M_ret : MRet M := fun A a md => (Returns a, md).

#[export] Instance M_bind : MBind M := fun A B f m md =>
  match m md with
  | (Returns a, md') => f a md'
  | (Raises e, md') => (Raises e, md')
  end.

(** [Metadata[Key] = Value] *)
Definition setitem (Key Value : string) : M unit :=
  fun md => (Returns tt, <[Key := Value]> md).

(** [Metadata[Key]] *)
Definition getitem (Key : string) : M string :=
  fun md => match md !! Key with
            | Some v => (Returns v, md)
            | None => (Raises KeyError, md)
            end.

(** The result of a call that may raise. *)
Definition call {A : Type} (o : outcome A) : M A := fun md => (o, md).

(** [try: body except: pass] *)
Definition try_pass (body : M unit) : M unit :=
  fun md => match body md with
            | (Returns _, md') => (Returns tt, md')
            | (Raises _, md') => (Returns tt, md')
            end.

(** [for x in l: body(x)] *)
Fixpoint for_each {A : Type} (l : list A) (body : A -> M unit) : M unit :=
  match l with
  | [] => mret tt
  | x :: l' => body x ;; for_each l' body
  end.

(** [r'^# (.+?)$'] under [re.MULTILINE] *)
Definition TitlePattern : regex := Bol >>> Lit "# " >>> Grp 1 (LazyPlus dot) >>> Eol.

(** [r'\*\*Created: (.+?)\*\*'] and [r'\*\*Last Modified: (.+?)\*\*'] *)
Definition CreatedPattern : regex := Lit "**Created: " >>> Grp 1 (LazyPlus dot) >>> Lit "**".

Definition ModifiedPattern : regex :=
  Lit "**Last Modified: " >>> Grp 1 (LazyPlus dot) >>> Lit "**".

(** [r'\[([^:\]]+): ([^\]]+)\]'] *)
Definition ContextPattern : regex :=
  Chr "[" >>> Grp 1 (Plus (none_of ":]")) >>> Lit ": " >>> Grp 2 (Plus (none_of "]")) >>>
  Chr "]".

(** [r'(\d{2}-\d{2})'] *)
Definition BareDocIDPattern : regex := Grp 1 DocIDShape.

(** The statements of the [try] block, one definition for each commented
    part of it. *)
Definition extract_title (Content : string) : M unit :=
  match re_search TitlePattern Content with
  | Some TitleMatch => setitem "title" (Py.strip (group_str TitleMatch 1))
  | None => mret tt
  end.

Definition extract_created (Content : string) : M unit :=
  match re_search CreatedPattern Content with
  | Some CreatedMatch =>
      setitem "created_at" (Py.strip (group_str CreatedMatch 1)) ;;
      try_pass (created_at ← getitem "created_at";
                CreatedDate ← call (ParseTimestamp created_at);
                setitem "created_date" (strftime_date CreatedDate))
  | None => mret tt
  end.

Definition extract_modified (Content : string) : M unit :=
  match re_search ModifiedPattern Content with
  | Some ModifiedMatch =>
      setitem "modified_at" (Py.strip (group_str ModifiedMatch 1)) ;;
      try_pass (modified_at ← getitem "modified_at";
                ModifiedDate ← call (ParseTimestamp modified_at);
                setitem "modified_date" (strftime_date ModifiedDate))
  | None => mret tt
  end.

Definition extract_context (Content : string) : M unit :=
  for_each (re_finditer ContextPattern Content)
    (fun m =>
       let Key := Py.lower (group_str m 1) in
       let Value := Py.strip (group_str m 2) in
       setitem Key Value).

Definition extract_doc_number (Content : string) : M unit :=
  match re_search BareDocIDPattern Content with
  | Some DocIDMatch => setitem "doc_number" (group_str DocIDMatch 1)
  | None => mret tt
  end.

Definition ExtractMetadata_body (Content : string) : M unit :=
  extract_title Content ;;
  extract_created Content ;;
  extract_modified Content ;;
  extract_context Content ;;
  extract_doc_number Content.

(** [Metadata = {}; try: body except Exception: Logger.warning(...)] and
    [return Metadata]: whatever the body does, the dictionary is returned. *)
Definition guarded (body : M unit) : outcome Metadata :=
  let Metadata : gmap string string := ∅ in
  match body Metadata with
  | (Returns _, Metadata) => Returns Metadata
  | (Raises _, Metadata) => Returns Metadata
  end.

Definition ExtractMetadata (Content : string) : outcome Metadata :=
  guarded (ExtractMetadata_body Content).

(** * Part II: the vocabulary of the specification *)

(** ** Bracketed references and their grammars *)

(** A body between brackets, and the match object of a pattern that
    matched it: group 0 is the bracketed text, [caps] gives the groups. *)
Definition bracket (body : string) : string := String "["%char (body +:+ "]").

Definition bracket_match (caps : string -> captures) (body : string) : Match :=
  {| group0 := bracket body; groups := caps body |}.

(** Every character of [w] is in the class [p]. *)
Fixpoint all_in (p : ascii -> bool) (w : string) : bool :=
  match w with
  | EmptyString => true
  | String c w' => p c && all_in p w'
  end.

(** The character before the cursor once [w] has been read. *)
Fixpoint last_char (prev : option ascii) (w : string) : option ascii :=
  match w with
  | EmptyString => prev
  | String c w' => last_char (Some c) w'
  end.

(** [n] repetitions are within the upper bound [hi]. *)
Definition bounded (hi : option nat) (n : nat) : Prop :=
  match hi with Some h => n <= h | None => True end.

(** The repetition cannot take one more character. *)
Definition stops (p : ascii -> bool) (hi : option nat) (n : nat) (rest : string) : Prop :=
  hi = Some n \/ match rest with String c _ => p c = false | EmptyString => True end.

(** [\d{n}] and [\d+] *)
Definition digits (n : nat) (w : string) : Prop := Py.len w = n /\ all_in digit w = true.

Definition digits1 (w : string) : Prop := 1 <= Py.len w /\ all_in digit w = true.

(** The texts of the grammars: [DD-DD], [N.N], [DD-DD §N.N] and
    [DECISION-YYYYMMDD-N]. *)
Definition is_docid (id : string) : Prop :=
  exists a b, id = a +:+ "-" +:+ b /\ digits 2 a /\ digits 2 b.

Definition is_section (sec : string) : Prop :=
  exists a b, sec = a +:+ "." +:+ b /\ digits1 a /\ digits1 b.

Definition is_section_body (body : string) : Prop :=
  exists id sec, body = id +:+ " §" +:+ sec /\ is_docid id /\ is_section sec.

Definition is_decision (body : string) : Prop :=
  exists d n, body = "DECISION-" +:+ d +:+ "-" +:+ n /\ digits 8 d /\ digits1 n.

(** ** The shapes of a file name that holds an identifier *)

(** The three shapes the patterns of [GetDocumentID] take: the identifier
    and a separator at the start of the name, the identifier and [.md] as
    the whole name, and a hyphen, the identifier and [.md] at its end. *)
Definition has_prefix_shape (Filename id : string) : Prop :=
  is_docid id /\
  exists sep rest, one_of "- _" sep = true /\ Filename = id +:+ String sep rest.

Definition has_stem_shape (Filename id : string) : Prop :=
  is_docid id /\ Filename = id +:+ ".md".

Definition has_suffix_shape (Filename id : string) : Prop :=
  is_docid id /\ exists stem, Filename = stem +:+ "-" +:+ id +:+ ".md".

(** The second and the third shape in the words of the specification: the
    identifier is the entire stem, or a suffix of the stem, the stem being
    the name without its last extension. *)
Fixpoint stem_of (Filename : string) : string :=
  match Filename with
  | EmptyString => EmptyString
  | String c s' =>
      if Py.has_char "."%char s' then String c (stem_of s')
      else if Ascii.eqb c "." then EmptyString
      else String c (stem_of s')
  end.

Definition spec_stem_shape (Filename id : string) : Prop :=
  is_docid id /\ stem_of Filename = id.

Definition spec_suffix_shape (Filename id : string) : Prop :=
  is_docid id /\ exists pre, stem_of Filename = pre +:+ id.

(** ** Texts on which the classes of bytes are the classes of Python *)

(** Every character of the text stands before U+0660, the first decimal
    digit of Unicode after 0-9 (in UTF-8: no byte from 218 on, and no
    byte 217 before a byte from 160 on).  In such a text [\d] matches 0-9
    and nothing else. *)
Fixpoint below_0660 (s : string) : bool :=
  match s with
  | EmptyString => true
  | String c s' =>
      let n := nat_of_ascii c in
      ((n <? 217) ||
       ((n =? 217) &&
        match s' with String d _ => nat_of_ascii d <? 160 | EmptyString => true end)) &&
      below_0660 s'
  end.

(** No white-space character outside ASCII stands in the text.  In such a
    text [\s] matches the ASCII white space and nothing else. *)
Fixpoint narrow_spaces (s : string) : bool :=
  match s with
  | EmptyString => true
  | String c s' => (Py.space_width s <=? 1) && narrow_spaces s'
  end.

(** The groups of the patterns, from the body: the body itself for the
    document and the decision pattern, the identifier and the section
    number for the section pattern. *)
Definition doc_caps (body : string) : captures := [(1, body)].

Definition section_caps (body : string) : captures :=
  [(2, Py.drop_str 8 body); (1, Py.take_str 5 body)].

(** The three passes of the resolver as instances of the bracketed scheme. *)
Definition doc_pass (R : Registry) : string -> string :=
  re_sub DocRefPattern (ReplaceDocRef R).

Definition section_pass (R : Registry) : string -> string :=
  re_sub SectionRefPattern (ReplaceSectionRef R).

Definition decision_pass (R : Registry) : string -> string :=
  re_sub DecisionRefPattern (ReplaceDecisionRef R).

(** The test the decision loop applies to a registry entry. *)
Definition names_decision (DecisionID : string) (DocInfo : DocInfo) : bool :=
  Py.startswith (default "" (info_title DocInfo)) "DECISION" &&
  Py.contains (default "" (info_title DocInfo)) DecisionID.

(** ** The header removal in the words of the specification *)

(** The header removal as the specification words it: after the title
    line, one run of lines each of which is a timestamp marker, a tag line
    or blank. *)
Fixpoint drop_header_run (Lines : list string) : list string :=
  match Lines with
  | l :: Lines' =>
      if is_timestamp_line l || is_tag_line l then drop_header_run Lines' else Lines
  | [] => []
  end.

Definition RemoveMetadataHeader_one_run (Content : string) : string :=
  let Lines := Py.split_lines Content in
  let Lines :=
    match Lines with
    | Line0 :: Lines' => if Py.startswith Line0 "# " then Lines' else Lines
    | [] => Lines
    end in
  Py.join_lines (drop_header_run Lines).

(** ** What the metadata extractor leaves in the dictionary *)

(** What each part of the [try] block leaves in the dictionary. *)
Definition title_update (Content : string) (md : Metadata) : Metadata :=
  match re_search TitlePattern Content with
  | Some m => <["title" := Py.strip (group_str m 1)]> md
  | None => md
  end.

Definition stamp_update (P : regex) (at_key date_key : string) (Content : string)
    (md : Metadata) : Metadata :=
  match re_search P Content with
  | Some m =>
      let v := Py.strip (group_str m 1) in
      match ParseTimestamp v with
      | Returns dt => <[date_key := strftime_date dt]> (<[at_key := v]> md)
      | Raises _ => <[at_key := v]> md
      end
  | None => md
  end.

Definition tag_update (md : Metadata) (m : Match) : Metadata :=
  <[Py.lower (group_str m 1) := Py.strip (group_str m 2)]> md.

Definition context_update (Content : string) (md : Metadata) : Metadata :=
  foldl tag_update md (re_finditer ContextPattern Content).

Definition doc_number_update (Content : string) (md : Metadata) : Metadata :=
  match re_search BareDocIDPattern Content with
  | Some m => <["doc_number" := group_str m 1]> md
  | None => md
  end.

(** The text of a context tag [[Key: Value]]. *)
Definition context_tag (K X : string) : string := bracket (K +:+ ": " +:+ X).

(** No context tag of the content has the key [k], read without regard
    to case.  The keys [k] named in the statements below are ASCII and
    hold no letter k: a key that Python's [str.lower] turns into one of
    them is ASCII itself, the Kelvin sign being the one character outside
    ASCII that is lowered into ASCII, so that [Py.lower] and [str.lower]
    agree on whether a key is [k]. *)
Definition no_tag (Content k : string) : Prop :=
  forall t, In t (re_finditer ContextPattern Content) -> Py.lower (group_str t 1) <> k.

(** The dictionary a call returned. *)
Definition metadata_of (o : outcome Metadata) : Metadata :=
  match o with Returns md => md | Raises _ => ∅ end.

(** ** Sample inputs *)

(** A registry of two documents, one of them a decision record. *)
Definition example_registry : Registry :=
  [("10-20", {| info_title := Some "Project Vision";
                info_url := Some "/docs/vision/10-20/" |});
   ("60-10", {| info_title := Some "DECISION-20250101-1 Static site generator";
                info_url := Some "/docs/governance/60-10/" |})].

(** A header whose tag comes before its Created marker. *)
Definition header_with_tag_before_marker : string :=
  Py.join_lines ["# Title"; "[Status: Draft]"; "**Created: March 15, 2025 3:15 PM**"; "Body"].

(** What the template escaping returns for [{% ] and for [{{{ x }}}]. *)
Definition escaped_tag_open : string :=
  "{{ " +:+ dq +:+ "{{ " +:+ dq +:+ " {{ " +:+ dq +:+ "}}" +:+ dq +:+ " }}" +:+
  dq +:+ "{% " +:+ dq +:+ " {{ " +:+ dq +:+ "}}" +:+ dq +:+ " }}".

Definition escaped_triple_brace : string :=
  "&#123;&#123;&#123; " +:+ dq +:+ "{{ " +:+ dq +:+ " {{ " +:+ dq +:+ "}}" +:+ dq +:+
  " }}x {{ " +:+ dq +:+ "}}" +:+ dq +:+ " &#125;&#125;&#125;".

(** Documents for the metadata extractor. *)
Definition heading_and_title_tag : string :=
  Py.join_lines ["# Project Vision"; "[Title: Other]"].

Definition title_tag_inside_a_bracket : string :=
  Py.join_lines ["# Heading"; "see [note [Title: X]"].

Definition tag_then_identifier : string :=
  Py.join_lines ["[Doc_Number: DRAFT]"; "See 10-20."].

Definition unparsed_created_with_tag : string :=
  Py.join_lines ["**Created: not a date**"; "[Created_Date: 2025-01-01]"].

Definition unparsed_created_padded : string := "**Created:  not a date **".

(** A header whose Created marker does not parse and whose Last Modified
    marker does. *)
Definition header_with_unparsed_created : string :=
  Py.join_lines ["# Title"; "**Created: not a date**";
                 "**Last Modified: 2025-03-15 15:15**"; "[Status: Draft]"].

Definition march_15_afternoon : datetime :=
  {| year := 2025; month := 3; day := 15; hour := 15; minute := 15 |}.

Definition newline : string := String "010"%char EmptyString.

(** * Part I, continued: the rest of the conversion core *)

(** ** Core/CrossReferenceProcessor.py: the reference index *)

(** [x in l] on a list of strings, and [if x not in l: l.append(x)]. *)
Definition list_has (l : list string) (x : string) : bool := existsb (String.eqb x) l.

Definition append_new (l : list string) (x : string) : list string :=
  if list_has l x then l else l ++ [x].

(** The dictionary that [ExtractReferences] and [ValidateReferences]
    return: a list under each of the keys documents, sections, decisions. *)
Record References := {
  documents : list string;
  sections : list string;
  decisions : list string }.

(** The bodies of the three loops of [ExtractReferences]. *)
Definition add_document (Refs : References) (m : Match) : References :=
  let DocID := group_str m 1 in
  {| documents := append_new (documents Refs) DocID;
     sections := sections Refs;
     decisions := decisions Refs |}.

Definition add_section (Refs : References) (m : Match) : References :=
  let DocID := group_str m 1 in
  let Section := group_str m 2 in
  let SectionRef := DocID +:+ " §" +:+ Section in
  {| documents := append_new (documents Refs) DocID;
     sections := append_new (sections Refs) SectionRef;
     decisions := decisions Refs |}.

Definition add_decision (Refs : References) (m : Match) : References :=
  let DecisionID := group_str m 1 in
  {| documents := documents Refs;
     sections := sections Refs;
     decisions := append_new (decisions Refs) DecisionID |}.

Definition ExtractReferences (Content : string) : References :=
  let Refs := {| documents := []; sections := []; decisions := [] |} in
  let Refs := foldl add_document Refs (re_finditer DocRefPattern Content) in
  let Refs := foldl add_section Refs (re_finditer SectionRefPattern Content) in
  let Refs := foldl add_decision Refs (re_finditer DecisionRefPattern Content) in
  Refs.

(** [DocID in DocumentRegistry] *)
Definition registry_has (R : Registry) (DocID : string) : bool :=
  match registry_get R DocID with Some _ => true | None => false end.

(** The inner loop of the decision check: [Found] is set at the first
    entry of [DocumentRegistry.values()] whose title starts with DECISION
    and contains the identifier, and the loop is left. *)
Fixpoint decision_found (R : Registry) (DecisionID : string) : bool :=
  match R with
  | [] => false
  | (_, DocInfo) :: R' =>
      let Title := default "" (info_title DocInfo) in
      if Py.startswith Title "DECISION" && Py.contains Title DecisionID
      then true
      else decision_found R' DecisionID
  end.

(** The bodies of the three loops of [ValidateReferences]. *)
Definition check_document (R : Registry) (Invalid : References) (DocID : string)
    : References :=
  if registry_has R DocID then Invalid
  else {| documents := documents Invalid ++ [DocID];
          sections := sections Invalid;
          decisions := decisions Invalid |}.

Definition check_section (R : Registry) (Invalid : References) (SectionRef : string)
    : References :=
  let DocID := default "" (head (Py.split SectionRef " §")) in
  if registry_has R DocID then Invalid
  else {| documents := documents Invalid;
          sections := sections Invalid ++ [SectionRef];
          decisions := decisions Invalid |}.

Definition check_decision (R : Registry) (Invalid : References) (DecisionID : string)
    : References :=
  if decision_found R DecisionID then Invalid
  else {| documents := documents Invalid;
          sections := sections Invalid;
          decisions := decisions Invalid ++ [DecisionID] |}.

Definition ValidateReferences (Refs : References) (DocumentRegistry : Registry)
    : References :=
  let Invalid := {| documents := []; sections := []; decisions := [] |} in
  let Invalid := foldl (check_document DocumentRegistry) Invalid (documents Refs) in
  let Invalid := foldl (check_section DocumentRegistry) Invalid (sections Refs) in
  let Invalid := foldl (check_decision DocumentRegistry) Invalid (decisions Refs) in
  Invalid.

(** ** Core/MetadataExtractor.py: related documents *)

(** [r'\[(\d{2}-\d{2}) §\d+\.\d+\]']: the section pattern with one group. *)
Definition RelatedSectionPattern : regex :=
  Chr "[" >>> Grp 1 DocIDShape >>> Lit " §" >>>
  (Plus digit >>> Chr "." >>> Plus digit) >>> Chr "]".

Definition add_related (RelatedDocs : list string) (m : Match) : list string :=
  append_new RelatedDocs (group_str m 1).

Definition ExtractRelatedDocuments (Content : string) : list string :=
  let RelatedDocs := [] in
  let RelatedDocs := foldl add_related RelatedDocs (re_finditer DocRefPattern Content) in
  let RelatedDocs :=
    foldl add_related RelatedDocs (re_finditer RelatedSectionPattern Content) in
  RelatedDocs.

(** A text occurs in another. *)
Definition occurs (x s : string) : Prop := exists pre post, s = pre +:+ x +:+ post.

(** A pattern that takes at least one character wherever it matches. *)
Fixpoint nonempty (r : regex) : bool :=
  match r with
  | Chr _ | Cls _ => true
  | Seq r1 r2 => nonempty r1 || nonempty r2
  | Alt r1 r2 => nonempty r1 && nonempty r2
  | Rep _ lo _ _ => 1 <=? lo
  | Grp _ r' => nonempty r'
  | Eps | Opt _ | Bos | Eos | Bol | Eol => false
  end.

(** The group of [RelatedSectionPattern], from the body of the reference. *)
Definition related_caps (body : string) : captures := [(1, Py.take_str 5 body)].

(** ** Core/CrossReferenceProcessor.py: code links *)

(** The classes [[A-Za-z0-9_-]], [[a-z]], [[A-Z]] and [[a-zA-Z0-9]]. *)
Definition file_name_char (c : ascii) : bool :=
  Py.isupper c || Py.islower c || Py.isdigit c || Ascii.eqb c "_" || Ascii.eqb c "-".

Definition lower_letter : ascii -> bool := Py.islower.

Definition upper_letter : ascii -> bool := Py.isupper.

Definition alnum (c : ascii) : bool := Py.islower c || Py.isupper c || Py.isdigit c.

(** [r'`([A-Za-z0-9_-]+)(\.[a-z]+)`'] *)
Definition FileRefPattern : regex :=
  Chr "`" >>> Grp 1 (Plus file_name_char) >>> Grp 2 (Chr "." >>> Plus lower_letter) >>>
  Chr "`".

(** [r'`([A-Z][a-zA-Z0-9]+)\(\)`'] *)
Definition FunctionRefPattern : regex :=
  Chr "`" >>> Grp 1 (Cls upper_letter >>> Plus alnum) >>> Chr "(" >>> Chr ")" >>> Chr "`".

Definition ReplaceFileRef (m : Match) : string :=
  let FileName := group_str m 1 in
  let ExtMatch := group_str m 2 in
  let BaseURL := "https://github.com/CallMeChewy/ProjectHimalaya/blob/main" in
  if String.eqb ExtMatch ".py" then
    "[`" +:+ FileName +:+ ExtMatch +:+ "`](" +:+ BaseURL +:+ "/" +:+ FileName +:+
    ExtMatch +:+ ")"
  else if String.eqb ExtMatch ".md" then
    let DocID :=
      if Py.has_char "-" FileName then List.last (Py.split FileName "-") ""
      else FileName in
    "[`" +:+ FileName +:+ ExtMatch +:+ "`]({{ site.baseurl }}/docs/" +:+ DocID +:+ "/)"
  else
    "`" +:+ FileName +:+ ExtMatch +:+ "`".

Definition ReplaceFunctionRef (m : Match) : string :=
  let FunctionName := group_str m 1 in
  "`" +:+ FunctionName +:+ "()`".

Definition ProcessCodeLinks (Content : string) : string :=
  let Content := re_sub FileRefPattern ReplaceFileRef Content in
  let Content := re_sub FunctionRefPattern ReplaceFunctionRef Content in
  Content.

(** ** Core/DocumentProcessor.py: special syntax *)

(** [[a-zA-Z0-9_+-]], and the dot under [re.DOTALL]. *)
Definition language_char (c : ascii) : bool :=
  Py.islower c || Py.isupper c || Py.isdigit c || Ascii.eqb c "_" || Ascii.eqb c "+" ||
  Ascii.eqb c "-".

Definition any_char (c : ascii) : bool := true.

(** [c*?] *)
Definition LazyStar (p : ascii -> bool) : regex := Rep false 0 None p.

(** [r'```([a-zA-Z0-9_+-]+)\n(.*?)```'] under [re.DOTALL] *)
Definition CodeBlockPattern : regex :=
  Lit "```" >>> Grp 1 (Plus language_char) >>> Chr "010" >>> Grp 2 (LazyStar any_char) >>>
  Lit "```".

Definition CodeBlockReplacer (m : Match) : string :=
  let Language := group_str m 1 in
  let Code := group_str m 2 in
  "```" +:+ Language +:+ newline +:+ Code +:+ "```".

(** [r'- \[ \] (.*?)$'] and [r'- \[x\] (.*?)$'] under [re.MULTILINE] *)
Definition TaskListPattern : regex := Lit "- [ ] " >>> Grp 1 (LazyStar dot) >>> Eol.

Definition TaskListCheckedPattern : regex := Lit "- [x] " >>> Grp 1 (LazyStar dot) >>> Eol.

(** The replacement templates [r'- <input type="checkbox" disabled> \1'] and
    [r'- <input type="checkbox" checked disabled> \1']. *)
Definition unchecked_box : string :=
  "- <input type=" +:+ dq +:+ "checkbox" +:+ dq +:+ " disabled> ".

Definition checked_box : string :=
  "- <input type=" +:+ dq +:+ "checkbox" +:+ dq +:+ " checked disabled> ".

Definition ProcessSpecialSyntax (Content : string) : string :=
  let Content := re_sub CodeBlockPattern CodeBlockReplacer Content in
  let Content := re_sub TaskListPattern (fun m => unchecked_box +:+ group_str m 1) Content in
  let Content :=
    re_sub TaskListCheckedPattern (fun m => checked_box +:+ group_str m 1) Content in
  Content.

Definition ProcessDocument (Content : string) : string :=
  let Content := RemoveMetadataHeader Content in
  let Content := ProcessJekyllIncompatibleContent Content in
  let Content := ProcessSpecialSyntax Content in
  Content.

(** A pattern that does not look at what comes before the cursor. *)
Fixpoint anchor_free (r : regex) : bool :=
  match r with
  | Bos | Bol => false
  | Seq r1 r2 | Alt r1 r2 => anchor_free r1 && anchor_free r2
  | Opt r' | Grp _ r' => anchor_free r'
  | Eps | Chr _ | Cls _ | Rep _ _ _ _ | Eos | Eol => true
  end.

(** A continuation that does not look at the character before the cursor. *)
Definition ignores_prev {A : Type} (k : @cont A) : Prop :=
  forall q q' s cs, k q s cs = k q' s cs.

(** The two task list patterns, from the marker they start with. *)
Definition task_pattern (mark : string) : regex := Lit mark >>> Grp 1 (LazyStar dot) >>> Eol.

(** The cursor is at the end of a line: where [$] matches under
    [re.MULTILINE]. *)
Definition at_eol (rest : string) : Prop :=
  match rest with
  | EmptyString => True
  | String c _ => c = "010"%char
  end.

(** The match of a task list pattern on a marker and the rest of its line. *)
Definition task_match (mark item : string) : Match :=
  {| group0 := mark +:+ item; groups := [(1, item)] |}.

(** ** Utils/PathManager.py: categories *)

(** The category mappings are a dictionary from prefix to category name. *)
Definition GetCategory (DocID : string) (CategoryMappings : gmap string string) : string :=
  if String.eqb DocID "" then ""
  else
    let Prefix :=
      if Py.has_char "-" DocID then default "" (head (Py.split DocID "-"))
      else Py.take_chars 2 DocID in
    match CategoryMappings !! Prefix with
    | Some CategoryName => CategoryName
    | None => ""
    end.

(** ** Core/ConverterCore.py: the document registry *)

(** A Markdown file as the registry builder sees it: the name and the stem
    of its path, and what [LoadDocument] gives for it. *)
Record SourceFile := {
  file_name : string;
  file_stem : string;
  file_load : outcome string }.

(** [DocumentRegistry[DocID] = DocInfo]: a new key goes to the end, a key
    that is there keeps its place. *)
Fixpoint registry_set (R : Registry) (DocID : string) (DocInfo : DocInfo) : Registry :=
  match R with
  | [] => [(DocID, DocInfo)]
  | (k, v) :: R' =>
      if String.eqb k DocID then (k, DocInfo) :: R'
      else (k, v) :: registry_set R' DocID DocInfo
  end.

(** The url of the page of a document. *)
Definition page_url (BaseURL Category DocID : string) : string :=
  BaseURL +:+ "/docs/" +:+ Category +:+ "/" +:+ DocID +:+ "/".

(** The body of the loop of [_BuildDocumentRegistry]: whatever is raised
    for a file is logged and the file is passed over; a file whose name
    gives no identifier is passed over.  The output path, which the entry
    also stores, is computed from the identifier and the category; the
    resolver does not read it. *)
Definition register_document (BaseURL : string) (CategoryMappings : gmap string string)
    (DocumentRegistry : Registry) (FilePath : SourceFile) : Registry :=
  match file_load FilePath with
  | Raises _ => DocumentRegistry
  | Returns Content =>
      match ExtractMetadata Content with
      | Raises _ => DocumentRegistry
      | Returns Metadata =>
          let DocID := GetDocumentID (file_name FilePath) in
          if String.eqb DocID "" then DocumentRegistry
          else
            let Category := GetCategory DocID CategoryMappings in
            registry_set DocumentRegistry DocID
              {| info_title := Some (default (file_stem FilePath) (Metadata !! "title"));
                 info_url := Some (page_url BaseURL Category DocID) |}
      end
  end.

Definition _BuildDocumentRegistry (BaseURL : string) (CategoryMappings : gmap string string)
    (MarkdownFiles : list SourceFile) : Registry :=
  foldl (register_document BaseURL CategoryMappings) [] MarkdownFiles.

(** What holds of a registry while it is built from the files read so
    far. *)
Definition registry_built (BaseURL : string) (CategoryMappings : gmap string string)
    (files : list SourceFile) (R : Registry) : Prop :=
  NoDup (map fst R) /\
  forall k info,
    registry_get R k = Some info ->
    is_docid k /\
    info_url info = Some (page_url BaseURL (GetCategory k CategoryMappings) k) /\
    exists F Content,
      In F files /\ file_load F = Returns Content /\ GetDocumentID (file_name F) = k.

(** ** Core/DocumentProcessor.py: table rows *)

Definition _ParseTableRow (Row : string) : list string :=
  let Row := Py.strip_chars Row "|" in
  let Columns := map Py.strip (Py.split Row "|") in
  Columns.

(** ** Core/MetadataExtractor.py: validation *)

(** An entry of the list of error messages: the kind of the message and
    the field or value it names.  The text of the message is not modelled
    (for a date it ends in the message of the exception). *)
Inductive ValidationError :=
| MissingField (Field : string)        (* Missing required metadata field: ... *)
| InvalidDate (DateField : string)     (* Invalid ... format: ... *)
| InvalidVersion (Version : string).   (* Invalid version format: ... (should be X.Y) *)

(** [r'^\d+\.\d+$'] *)
Definition VersionPattern : regex := Bos >>> Plus digit >>> Chr "." >>> Plus digit >>> Eos.

(** [Field in Metadata and Metadata[Field]]: the value, when the key is
    there and the value is not the empty string. *)
Definition truthy_field (Metadata : Metadata) (Field : string) : option string :=
  match Metadata !! Field with
  | Some v => if String.eqb v "" then None else Some v
  | None => None
  end.

(** The bodies of the two loops.  Only [ValueError] is caught around
    [ParseTimestamp]. *)
Definition check_required (Metadata : Metadata) (Errors : list ValidationError)
    (Field : string) : list ValidationError :=
  match truthy_field Metadata Field with
  | Some _ => Errors
  | None => Errors ++ [MissingField Field]
  end.

Definition check_date (Metadata : Metadata) (Errors : outcome (list ValidationError))
    (DateField : string) : outcome (list ValidationError) :=
  match Errors with
  | Raises e => Raises e
  | Returns Errors =>
      match truthy_field Metadata DateField with
      | Some v =>
          match ParseTimestamp v with
          | Returns _ => Returns Errors
          | Raises ValueError => Returns (Errors ++ [InvalidDate DateField])
          | Raises e => Raises e
          end
      | None => Returns Errors
      end
  end.

Definition ValidateMetadata (Metadata : Metadata) : outcome (bool * list ValidationError) :=
  let Errors := [] in
  let Errors := foldl (check_required Metadata) Errors ["title"] in
  match foldl (check_date Metadata) (Returns Errors) ["created_at"; "modified_at"] with
  | Raises e => Raises e
  | Returns Errors =>
      let Errors :=
        match truthy_field Metadata "version" with
        | Some v =>
            match re_match VersionPattern v with
            | Some _ => Errors
            | None => Errors ++ [InvalidVersion v]
            end
        | None => Errors
        end in
      Returns (Nat.eqb (length Errors) 0, Errors)
  end.

(** A version number [X.Y], possibly followed by a final newline. *)
Definition is_version (v : string) : Prop :=
  exists a b tail,
    v = a +:+ "." +:+ b +:+ tail /\ digits1 a /\ digits1 b /\ (tail = "" \/ tail = newline).

(** The components of a date are those of a day of the calendar and of a
    minute of the day. *)
Definition valid_datetime (dt : datetime) : Prop :=
  (1 <= year dt <= 9999 /\ 1 <= month dt <= 12 /\
   1 <= day dt <= days_in_month (year dt) (month dt) /\
   0 <= hour dt <= 23 /\ 0 <= minute dt <= 59)%Z.

(** ** Core/CrossReferenceProcessor.py: the reverse index *)

(** The registry as [CreateReferenceMap] reads it: of every entry only the
    ["references"] key, which may be absent. *)
Definition ReferenceRegistry := list (string * option (list string)).

Abbreviation RefMap := (gmap string (list string)).

(** [if RefID in ReferenceMap: ReferenceMap[RefID].append(DocID)] *)
Definition add_reference (DocID : string) (ReferenceMap : RefMap) (RefID : string)
    : RefMap :=
  match ReferenceMap !! RefID with
  | Some Docs => <[RefID := Docs ++ [DocID]]> ReferenceMap
  | None => ReferenceMap
  end.

Definition add_references (ReferenceMap : RefMap)
    (entry : string * option (list string)) : RefMap :=
  let '(DocID, references) := entry in
  match references with
  | Some references => foldl (add_reference DocID) ReferenceMap references
  | None => ReferenceMap
  end.

Definition CreateReferenceMap (DocumentRegistry : ReferenceRegistry) : RefMap :=
  let ReferenceMap : RefMap :=
    foldl (fun M entry => <[fst entry := []]> M) ∅ DocumentRegistry in
  foldl add_references ReferenceMap DocumentRegistry.

(** The lines of the section that [UpdateReferenceLinks] adds. *)
Definition referenced_by_heading : string :=
  newline +:+ newline +:+ "## Referenced By" +:+ newline +:+ newline +:+
  "This document is referenced by the following documents:" +:+ newline +:+ newline.

Definition referenced_by_line (DocID : string) : string :=
  "- [" +:+ DocID +:+ "]({{ site.baseurl }}/docs/" +:+ DocID +:+ "/)" +:+ newline.

Definition UpdateReferenceLinks (Content CurrentDocID : string) (ReferenceMap : RefMap)
    : string :=
  match ReferenceMap !! CurrentDocID with
  | None | Some [] => Content
  | Some ReferencingDocs =>
      let ReferenceSection := referenced_by_heading in
      let ReferenceSection :=
        foldl (fun ReferenceSection DocID => ReferenceSection +:+ referenced_by_line DocID)
          ReferenceSection (Py.sorted ReferencingDocs) in
      Content +:+ ReferenceSection
  end.

(** The documents whose references hold [X], once for each time they do,
    in the order of the registry. *)
Definition referencing (X : string) (R : ReferenceRegistry) : list string :=
  flat_map
    (fun entry : string * option (list string) =>
       match snd entry with
       | Some references => map (fun _ => fst entry) (List.filter (String.eqb X) references)
       | None => []
       end) R.

(** ** The date formats of [ParseTimestamp], piece by piece *)

(** The expressions of the directives of the two date formats, and the
    two formats as [TimeRE.pattern] compiles them. *)
Definition year_re : regex :=
  Grp (key "Y") (Cls digit >>> Cls digit >>> Cls digit >>> Cls digit).

Definition month_re : regex := default Eps (directive "m").

Definition day_re : regex := default Eps (directive "d").

Definition hour_re : regex := default Eps (directive "H").

Definition minute_re : regex := default Eps (directive "M").

Definition dash : regex := Cls (same_letter "-").

Definition date_re (rest : regex) : regex :=
  year_re >>> dash >>> month_re >>> dash >>> day_re >>> rest.

Definition time_re : regex :=
  Plus space >>> hour_re >>> Cls (same_letter ":") >>> minute_re >>> Eps.

(** The text [YYYY-MM-DD] from the four digits of the year, the month and
    the day. *)
Definition iso_text (y1 y2 y3 y4 : ascii) (m d : Z) : string :=
  String y1 (String y2 (String y3 (String y4 ("-" +:+ pad2 m +:+ "-" +:+ pad2 d)))).

(** The day of a timestamp, at midnight. *)
Definition midnight (dt : datetime) : datetime :=
  {| year := year dt; month := month dt; day := day dt; hour := 0; minute := 0 |}.

(** ** Core/DocumentProcessor.py: tables *)

(** A table as [ExtractTables] returns it: the dictionary with the keys
    header, rows, start_line and end_line. *)
Record Table := {
  header : list string;
  rows : list (list string);
  start_line : nat;
  end_line : nat }.

(** [Line.startswith('|') and Line.endswith('|')] *)
Definition is_table_line (Line : string) : bool :=
  Py.startswith Line "|" && Py.endswith Line "|".

(** [r'^\|[\s\-:]*\|$'] *)
Definition separator_char (c : ascii) : bool :=
  Py.isspace c || Ascii.eqb c "-" || Ascii.eqb c ":".

Definition SeparatorRowPattern : regex :=
  Bos >>> Chr "|" >>> Star separator_char >>> Chr "|" >>> Eos.

Definition is_separator (Line : string) : bool :=
  match re_match SeparatorRowPattern Line with Some _ => true | None => false end.

(** [for j in range(i + 2, len(Lines))]: the end of the table moves on
    while the lines are table lines.  The list is [Lines[j:]]. *)
Fixpoint table_end (Lines : list string) (j TableEndLine : nat) : nat :=
  match Lines with
  | [] => TableEndLine
  | Line :: Lines' =>
      if is_table_line Line then table_end Lines' (S j) j else TableEndLine
  end.

(** [for j in range(i + 2, TableEndLine + 1)]: the rows, a row that is an
    empty list left out. *)
Definition parse_rows (Lines : list string) : list (list string) :=
  foldl (fun Rows Line =>
           let Row := _ParseTableRow Line in
           match Row with
           | [] => Rows
           | _ => Rows ++ [Row]
           end) [] Lines.

(** The body of the loop over [enumerate(Lines)]; the state is the list
    of tables and [TableStartLine].  The assignment to [i] at its end does
    not change what [enumerate] gives next. *)
Definition table_step (Lines : list string) (st : list Table * option nat) (i : nat)
    : list Table * option nat :=
  let '(Tables, TableStartLine) := st in
  let Line := line_at Lines i in
  if is_table_line Line then
    let TableStartLine :=
      match TableStartLine with None => Some i | Some _ => TableStartLine end in
    if (i + 1 <? length Lines) && is_separator (line_at Lines (i + 1)) then
      let HeaderRow := Line in
      let TableEndLine := table_end (drop (i + 2) Lines) (i + 2) (i + 1) in
      let Header := _ParseTableRow HeaderRow in
      let Rows := parse_rows (take (TableEndLine + 1 - (i + 2)) (drop (i + 2) Lines)) in
      (Tables ++ [{| header := Header; rows := Rows;
                     start_line := default 0 TableStartLine;
                     end_line := TableEndLine |}],
       None)
    else (Tables, TableStartLine)
  else (Tables, TableStartLine).

Definition ExtractTables (Content : string) : list Table :=
  let Lines := Py.split_lines Content in
  fst (foldl (table_step Lines) ([], None) (seq 0 (length Lines))).


(** What [ExtractTables] finds, read off the lines: the table lines at the
    head of a list, *)
Fixpoint table_run (Lines : list string) : list string :=
  match Lines with
  | [] => []
  | Line :: Lines' => if is_table_line Line then Line :: table_run Lines' else []
  end.

(** the index of the first table line, the lines numbered from [i], *)
Fixpoint first_table_line (Lines : list string) (i : nat) : nat :=
  match Lines with
  | [] => i
  | Line :: Lines' => if is_table_line Line then i else first_table_line Lines' (S i)
  end.

(** the indices of the header lines, a table line before a separator row,
    the lines numbered from [i], *)
Fixpoint table_heads (Lines : list string) (i : nat) : list nat :=
  match Lines with
  | [] => []
  | Line :: Lines' =>
      let rest := table_heads Lines' (S i) in
      if is_table_line Line && is_separator (hd "" Lines') then i :: rest else rest
  end.

(** the table whose header line is line [h], *)
Definition table_at (Lines : list string) (s h : nat) : Table :=
  let body := table_run (drop (h + 2) Lines) in
  {| header := _ParseTableRow (line_at Lines h);
     rows := map _ParseTableRow body;
     start_line := s;
     end_line := h + 1 + length body |}.

(** and the tables of the header lines [hs], the first one with start line
    [s] and each later one with the line after the header before it. *)
Fixpoint tables_of (Lines : list string) (s : nat) (hs : list nat) : list Table :=
  match hs with
  | [] => []
  | h :: hs' => table_at Lines s h :: tables_of Lines (S h) hs'
  end.

Definition no_newline (Line : string) : Prop := Py.has_char "010"%char Line = false.

(** ** Core/DocumentProcessor.py: code blocks *)

(** [re.finditer(r, s)] with [Match.start()] beside each match; [pos] is
    the index of the cursor in the text. *)
Fixpoint finditer_at (r : regex) (prev : option ascii) (skip pos : nat) (s : string)
    : list (nat * Match) :=
  match s with
  | EmptyString => []
  | String c s' =>
      match skip with
      | S k => finditer_at r (Some c) k (S pos) s'
      | O =>
          match match_at r prev s with
          | Some m => (pos, m) :: finditer_at r (Some c) (Py.len (group0 m) - 1) (S pos) s'
          | None => finditer_at r (Some c) 0 (S pos) s'
          end
      end
  end.

(** A code block as [ExtractCodeBlocks] returns it: the dictionary with
    the keys language, code, start_line and end_line. *)
Module Block.
Record t := {
  language : string;
  code : string;
  start_line : nat;
  end_line : nat
}.

(** The block [n] lines further down. *)
Definition shift (n : nat) (B : t) : t :=
  {| language := language B; code := code B;
     start_line := n + start_line B; end_line := n + end_line B |}.
End Block.

(** The body of the loop over the matches. *)
Definition code_block (Content : string) (start : nat) (m : Match) : Block.t :=
  let Language := group_str m 1 in
  let Code := group_str m 2 in
  let StartLine := Py.count_char "010" (Py.take_str start Content) in
  let EndLine := StartLine + Py.count_char "010" Code + 2 in
  {| Block.language := Language; Block.code := Code;
     Block.start_line := StartLine; Block.end_line := EndLine |}.

Definition ExtractCodeBlocks (Content : string) : list Block.t :=
  map (fun found => code_block Content (fst found) (snd found))
      (finditer_at CodeBlockPattern None 0 0 Content).
(** * Part III: proofs *)

(** ** Strings *)

Section StringFacts.
Implicit Types (s a b w : string) (c : ascii).

Lemma app_nil_r s : s +:+ "" = s.
Proof. induction s as [|c s IH]; [reflexivity|]. simpl. now rewrite IH. Qed.

Lemma app_assoc a b w : (a +:+ b) +:+ w = a +:+ b +:+ w.
Proof. induction a as [|c a IH]; [reflexivity|]. simpl. now rewrite IH. Qed.

Lemma app_cons c a b : String c a +:+ b = String c (a +:+ b).
Proof. reflexivity. Qed.

Lemma len_app a b : Py.len (a +:+ b) = Py.len a + Py.len b.
Proof. induction a as [|c a IH]; [reflexivity|]. simpl. now rewrite IH. Qed.

Lemma take_app w s : Py.take_str (Py.len w) (w +:+ s) = w.
Proof. induction w as [|c w IH]; simpl; [now destruct s|now rewrite IH]. Qed.

Lemma has_char_app c a b :
  Py.has_char c (a +:+ b) = Py.has_char c a || Py.has_char c b.
Proof.
  induction a as [|x a IH]; [reflexivity|]. simpl. rewrite IH.
  now rewrite orb_assoc.
Qed.

(** A text is cut in one way only at the first occurrence of a character. *)
Lemma cut_unique c a1 a2 b1 b2 :
  Py.has_char c a1 = false -> Py.has_char c a2 = false ->
  a1 +:+ String c b1 = a2 +:+ String c b2 -> a1 = a2 /\ b1 = b2.
Proof.
  revert a2. induction a1 as [|x a1 IH]; intros [|y a2] H1 H2 E; simpl in *.
  - now inversion E.
  - inversion E; subst. now rewrite Ascii.eqb_refl in H2.
  - inversion E; subst. now rewrite Ascii.eqb_refl in H1.
  - inversion E; subst.
    apply orb_false_iff in H1 as [_ H1]. apply orb_false_iff in H2 as [_ H2].
    destruct (IH a2 H1 H2) as [-> ->]; [assumption|]. now split.
Qed.

(** If [body] has no [o] and the text [a o b] starts with [body c],
    [c] another character, then [a] does. *)
Lemma app_reaches o c a b body rest :
  o <> c -> Py.has_char o body = false ->
  a +:+ String o b = body +:+ String c rest ->
  exists a', a = body +:+ String c a'.
Proof.
  intros Hoc. revert a. induction body as [|x body IH]; intros a Hb E; simpl in *.
  - destruct a as [|y a]; simpl in E; inversion E; subst; [contradiction|].
    now exists a.
  - apply orb_false_iff in Hb as [Hx Hb].
    destruct a as [|y a]; simpl in E; inversion E; subst.
    + now rewrite Ascii.eqb_refl in Hx.
    + destruct (IH a Hb) as [a' ->]; [assumption|]. now exists a'.
Qed.
End StringFacts.

(** ** Substitution with a bracketed pattern *)

Lemma drop_app w s : Py.drop_str (Py.len w) (w +:+ s) = s.
Proof. induction w as [|c w IH]; simpl; [reflexivity|assumption]. Qed.

Lemma len_bracket body : Py.len (bracket body) = S (S (Py.len body)).
Proof. unfold bracket. simpl. rewrite len_app. simpl. lia. Qed.

Section Bracketed.
Variable r : regex.
Variable G : string -> Prop.
Variable caps : string -> captures.

Hypothesis G_open : forall body, G body -> Py.has_char "["%char body = false.
Hypothesis G_close : forall body, G body -> Py.has_char "]"%char body = false.
Hypothesis r_sound : forall prev s m,
  match_at r prev s = Some m ->
  exists body rest, s = bracket body +:+ rest /\ G body /\ m = bracket_match caps body.
Hypothesis r_complete : forall prev body rest,
  G body -> match_at r prev (bracket body +:+ rest) = Some (bracket_match caps body).

Lemma match_prev prev prev' s : match_at r prev s = match_at r prev' s.
Proof.
  destruct (match_at r prev s) as [m|] eqn:E.
  - destruct (r_sound _ _ _ E) as (body & rest & -> & HG & ->).
    symmetry. now apply r_complete.
  - destruct (match_at r prev' s) as [m|] eqn:E'; [|reflexivity].
    destruct (r_sound _ _ _ E') as (body & rest & -> & HG & ->).
    rewrite r_complete in E by assumption. discriminate.
Qed.

Lemma match_extend prev a b m :
  match_at r prev a = Some m -> match_at r prev (a +:+ b) = Some m.
Proof.
  intros E. destruct (r_sound _ _ _ E) as (body & rest & -> & HG & ->).
  rewrite app_assoc. now apply r_complete.
Qed.

Lemma match_restrict prev c a b m :
  match_at r prev (String c a +:+ String "["%char b) = Some m ->
  match_at r prev (String c a) = Some m.
Proof.
  intros E. destruct (r_sound _ _ _ E) as (body & rest & Hs & HG & ->).
  unfold bracket in Hs. simpl in Hs. inversion Hs as [[Hc Ha]]. subst c.
  rewrite app_assoc in Ha. simpl in Ha.
  destruct (app_reaches "[" "]" a b body rest) as [a' ->];
    [discriminate|now apply G_open|assumption|].
  replace (String "[" (body +:+ String "]" a')) with (bracket body +:+ a')
    by (unfold bracket; simpl; now rewrite app_assoc).
  now apply r_complete.
Qed.

Lemma match_open prev c s m : match_at r prev (String c s) = Some m -> c = "["%char.
Proof.
  intros E. destruct (r_sound _ _ _ E) as (body & rest & Hs & _).
  now inversion Hs.
Qed.

Variable repl : Match -> string.

Lemma sub_from_prev s : forall prev prev' skip,
  sub_from r repl prev skip s = sub_from r repl prev' skip s.
Proof.
  induction s as [|c s IH]; intros prev prev' skip; [reflexivity|].
  simpl. destruct skip as [|k]; [|apply IH].
  rewrite (match_prev prev prev'). reflexivity.
Qed.

(** Passing over the characters of a match. *)
Lemma sub_from_skip w s : forall prev,
  sub_from r repl prev (Py.len w) (w +:+ s) = sub_from r repl None 0 s.
Proof.
  induction w as [|c w IH]; intros prev; simpl.
  - destruct s; [reflexivity|]. apply sub_from_prev.
  - apply IH.
Qed.

(** A bracket starts afresh: no match reaches across an opening bracket. *)
Lemma sub_from_split a b : forall prev skip,
  skip <= Py.len a ->
  sub_from r repl prev skip (a +:+ String "["%char b) =
  sub_from r repl prev skip a +:+ sub_from r repl None 0 (String "["%char b).
Proof.
  induction a as [|c a IH]; intros prev skip Hskip.
  - simpl in Hskip. assert (skip = 0) as -> by lia.
    change ("" +:+ String "[" b) with (String "[" b).
    simpl. rewrite (match_prev prev None). reflexivity.
  - rewrite app_cons. simpl. destruct skip as [|k].
    + destruct (match_at r prev (String c (a +:+ String "[" b))) as [m|] eqn:E.
      * rewrite <- app_cons in E. apply match_restrict in E. rewrite E.
        destruct (r_sound _ _ _ E) as (body & rest & Hs & _ & ->).
        rewrite app_assoc. f_equal. apply IH.
        assert (Py.len (String c a) = Py.len (bracket body +:+ rest)) as HL
          by now rewrite Hs.
        rewrite len_app, len_bracket in HL. simpl in HL.
        simpl. rewrite len_app. simpl. lia.
      * destruct (match_at r prev (String c a)) as [m|] eqn:E'.
        { apply (match_extend _ _ (String "[" b)) in E'.
          rewrite app_cons in E'. congruence. }
        rewrite app_cons. f_equal. apply IH. lia.
    + apply IH. simpl in Hskip. lia.
Qed.

Lemma re_sub_split a b :
  re_sub r repl (a +:+ String "["%char b) =
  re_sub r repl a +:+ re_sub r repl (String "["%char b).
Proof. unfold re_sub. apply sub_from_split. lia. Qed.

(** A reference is replaced by what the replacement function returns. *)
Lemma re_sub_hit body rest :
  G body ->
  re_sub r repl (bracket body +:+ rest) =
  repl (bracket_match caps body) +:+ re_sub r repl rest.
Proof.
  intros HG. unfold re_sub, bracket at 1. simpl.
  pose proof (r_complete None body rest HG) as E.
  unfold bracket at 1 in E. simpl in E. rewrite E.
  f_equal. change (group0 (bracket_match caps body)) with (bracket body).
  rewrite len_bracket.
  replace (S (S (Py.len body)) - 1) with (Py.len (body +:+ "]"))
    by (rewrite len_app; simpl; lia).
  apply sub_from_skip.
Qed.

(** Text without an opening bracket is copied. *)
Lemma re_sub_plain w s :
  Py.has_char "["%char w = false ->
  re_sub r repl (w +:+ s) = w +:+ re_sub r repl s.
Proof.
  unfold re_sub. generalize (@None ascii) at 1.
  induction w as [|c w IH]; intros prev Hw.
  - simpl. apply sub_from_prev.
  - simpl in Hw. apply orb_false_iff in Hw as [Hc Hw].
    rewrite app_cons. simpl.
    destruct (match_at r prev (String c (w +:+ s))) as [m|] eqn:E.
    + apply match_open in E. subst c. discriminate.
    + f_equal. now apply IH.
Qed.

Lemma match_miss prev body rest :
  ~ G body -> Py.has_char "]"%char body = false ->
  match_at r prev (bracket body +:+ rest) = None.
Proof.
  intros HG Hc. destruct (match_at _ _ _) as [m|] eqn:E; [|reflexivity].
  destruct (r_sound _ _ _ E) as (body' & rest' & Hs & HG' & _).
  unfold bracket in Hs. simpl in Hs. inversion Hs as [Hb].
  rewrite !app_assoc in Hb. simpl in Hb.
  apply cut_unique in Hb as [-> _]; [contradiction|assumption|now apply G_close].
Qed.

(** A bracketed text of another grammar is copied. *)
Lemma re_sub_miss body rest :
  ~ G body ->
  Py.has_char "["%char body = false -> Py.has_char "]"%char body = false ->
  re_sub r repl (bracket body +:+ rest) = bracket body +:+ re_sub r repl rest.
Proof.
  intros HG Ho Hc. unfold re_sub at 1.
  pose proof (match_miss None body rest HG Hc) as E.
  unfold bracket in E |- *. simpl in E |- *. rewrite E. f_equal.
  rewrite (sub_from_prev _ _ None).
  apply (re_sub_plain (body +:+ "]") rest).
  rewrite has_char_app, Ho. reflexivity.
Qed.

(** Where the replacement function returns every match as it found it,
    the text is unchanged. *)
Lemma sub_from_fixed s : forall prev skip,
  (forall m, In m (finditer_from r prev skip s) -> repl m = group0 m) ->
  sub_from r repl prev skip s = Py.drop_str skip s.
Proof.
  induction s as [|c s IH]; intros prev skip H.
  - now destruct skip.
  - simpl in H |- *. destruct skip as [|k]; [|now apply IH].
    destruct (match_at r prev (String c s)) as [m|] eqn:E.
    + rewrite IH by (intros m' Hm'; apply H; now right).
      rewrite (H m) by now left.
      destruct (r_sound _ _ _ E) as (body & rest & Hs & _ & ->).
      simpl. rewrite len_app. simpl. rewrite Nat.sub_0_r.
      unfold bracket in Hs. simpl in Hs. inversion Hs as [[Hc Hs']].
      rewrite app_assoc. simpl. f_equal.
      replace (Py.len body + 1) with (Py.len (body +:+ "]"))
        by (rewrite len_app; reflexivity).
      replace (body +:+ String "]" rest) with ((body +:+ "]") +:+ rest)
        by now rewrite app_assoc.
      now rewrite drop_app, app_assoc.
    + f_equal. now rewrite IH.
Qed.

Lemma re_sub_fixed s :
  (forall m, In m (re_finditer r s) -> repl m = group0 m) ->
  re_sub r repl s = s.
Proof. intros H. unfold re_sub. now rewrite sub_from_fixed. Qed.
End Bracketed.

(** ** The matcher on class repetitions *)

Section Repetition.
Context {A : Type}.
Implicit Types (k : @cont A) (p : ascii -> bool).

Lemma rep_greedy_inv p s : forall lo hi prev cs k x,
  rep_greedy p lo hi prev s cs k = Some x ->
  exists w rest,
    s = w +:+ rest /\ lo <= Py.len w /\ bounded hi (Py.len w) /\
    all_in p w = true /\ k (last_char prev w) rest cs = Some x.
Proof.
  induction s as [|c s IH]; intros lo hi prev cs k x E; simpl in E.
  - destruct lo; [|discriminate]. exists "", "". simpl.
    repeat split; [lia|destruct hi; simpl; lia|assumption].
  - assert (Hstop : match lo with 0 => k prev (String c s) cs | S _ => None end = Some x ->
              exists w rest, String c s = w +:+ rest /\ lo <= Py.len w /\
                bounded hi (Py.len w) /\ all_in p w = true /\
                k (last_char prev w) rest cs = Some x).
    { intros E'. destruct lo; [|discriminate]. exists "", (String c s). simpl.
      repeat split; [lia|destruct hi; simpl; lia|assumption]. }
    destruct (more hi && p c) eqn:Hm; [|now apply Hstop].
    apply andb_true_iff in Hm as [Hhi Hp].
    destruct (rep_greedy p (Nat.pred lo) (dec hi) (Some c) s cs k) as [y|] eqn:E1;
      [|now apply Hstop].
    simpl in E. inversion E; subst y.
    destruct (IH _ _ _ _ _ _ E1) as (w & rest & -> & Hlo & Hb & Hall & Hk).
    exists (String c w), rest. simpl. rewrite Hp, Hall.
    repeat split; [lia| |assumption].
    destruct hi as [[|h]|]; simpl in *; [discriminate|lia|exact I].
Qed.

Lemma rep_greedy_intro p w : forall lo hi prev rest cs k x,
  lo <= Py.len w -> bounded hi (Py.len w) -> all_in p w = true ->
  stops p hi (Py.len w) rest ->
  k (last_char prev w) rest cs = Some x ->
  rep_greedy p lo hi prev (w +:+ rest) cs k = Some x.
Proof.
  induction w as [|c w IH]; intros lo hi prev rest cs k x Hlo Hb Hall Hst Hk.
  - simpl in *. assert (lo = 0) as -> by lia.
    destruct rest as [|c rest]; [assumption|]. simpl.
    destruct Hst as [->|Hc]; [assumption|]. rewrite Hc, andb_false_r. assumption.
  - simpl in Hall. apply andb_true_iff in Hall as [Hp Hall].
    rewrite app_cons. simpl. rewrite Hp, andb_true_r.
    assert (more hi = true) as -> by (destruct hi as [[|h]|]; simpl in *; [lia|reflexivity..]).
    rewrite (IH (Nat.pred lo) (dec hi) (Some c) rest cs k x); try assumption.
    + reflexivity.
    + simpl in Hlo. lia.
    + destruct hi as [h|]; simpl in *; [lia|exact I].
    + destruct Hst as [->|Hc]; [left; reflexivity|right; assumption].
Qed.
End Repetition.

(** The text of a group is the text between its two ends. *)
Lemma take_len_diff w s : Py.take_str (Py.len (w +:+ s) - Py.len s) (w +:+ s) = w.
Proof.
  rewrite len_app. replace (Py.len w + Py.len s - Py.len s) with (Py.len w) by lia.
  apply take_app.
Qed.

Lemma all_in_has_char p c w :
  all_in p w = true -> p c = false -> Py.has_char c w = false.
Proof.
  induction w as [|x w IH]; simpl; [reflexivity|].
  intros Hall Hc. apply andb_true_iff in Hall as [Hx Hall].
  rewrite IH by assumption. rewrite orb_false_r.
  destruct (Ascii.eqb_spec x c) as [->|]; [congruence|reflexivity].
Qed.

(** ** The three reference grammars *)

Ltac chr_step E :=
  match type of E with
  | match ?s with EmptyString => None | String _ _ => _ end = Some _ =>
      let c := fresh "c" in
      destruct s as [|c s]; [discriminate E|];
      match type of E with
      | (if Ascii.eqb ?a c then _ else _) = Some _ =>
          destruct (Ascii.eqb_spec a c) as [<-|]; [|discriminate E]
      end
  end.

Ltac cls_step E H :=
  match type of E with
  | match ?s with EmptyString => None | String _ _ => _ end = Some _ =>
      let c := fresh "c" in
      destruct s as [|c s]; [discriminate E|];
      match type of E with
      | (if ?p c then _ else _) = Some _ => destruct (p c) eqn:H; [|discriminate E]
      end
  end.

Tactic Notation "rep_step" hyp(E) "as" ident(w) ident(rest) :=
  let Hlo := fresh "Hlo" in let Hhi := fresh "Hhi" in let Hall := fresh "Hall" in
  apply rep_greedy_inv in E as (w & rest & -> & Hlo & Hhi & Hall & E);
  cbn beta in E.

Lemma take_group W s X : X = W +:+ s -> Py.take_str (Py.len X - Py.len s) X = W.
Proof. intros ->. apply take_len_diff. Qed.

Ltac str_norm := unfold bracket; repeat (simpl; rewrite ?app_assoc); reflexivity.

Ltac take_is W E :=
  match type of E with
  | context [Py.take_str (Py.len ?X - Py.len ?s) ?X] =>
      rewrite (take_group W s X) in E by str_norm
  end.

Lemma DocRef_sound prev s m : match_at DocRefPattern prev s = Some m ->
  exists body rest, s = bracket body +:+ rest /\ is_docid body /\ m = bracket_match doc_caps body.
Proof.
  unfold match_at, DocRefPattern, DocIDShape, Times. cbn [rmatch]. intros E.
  chr_step E. rep_step E as a r1. chr_step E. rep_step E as b r2. chr_step E.
  exists (a +:+ "-" +:+ b), r2.
  take_is (bracket (a +:+ "-" +:+ b)) E. take_is (a +:+ "-" +:+ b) E.
  inversion E. split; [unfold bracket; str_norm|]. split; [|reflexivity].
  exists a, b. simpl in *. repeat split; try assumption; lia.
Qed.

Ltac rep_intro W :=
  apply (rep_greedy_intro _ W);
  [simpl in *; lia | simpl in *; try lia; try exact I | assumption | | cbn beta iota].

Lemma DocRef_complete prev body rest : is_docid body ->
  match_at DocRefPattern prev (bracket body +:+ rest) = Some (bracket_match doc_caps body).
Proof.
  intros (a & b & -> & [La Ha] & [Lb Hb]).
  unfold match_at, DocRefPattern, DocIDShape, Times, bracket. cbn [rmatch].
  repeat (simpl String.append; rewrite ?app_assoc). cbn match. rewrite Ascii.eqb_refl.
  rep_intro a; [left; now rewrite La|]. rewrite Ascii.eqb_refl.
  rep_intro b; [left; now rewrite Lb|]. rewrite Ascii.eqb_refl.
  unfold bracket_match, doc_caps. do 2 f_equal.
  - apply take_group. unfold bracket. str_norm.
  - f_equal. f_equal. apply take_group. str_norm.
Qed.

Lemma docid_len id : is_docid id -> Py.len id = 5.
Proof. intros (a & b & -> & [La _] & [Lb _]). rewrite !len_app. simpl. lia. Qed.

Lemma SectionRef_sound prev s m : match_at SectionRefPattern prev s = Some m ->
  exists body rest, s = bracket body +:+ rest /\ is_section_body body /\ m = bracket_match section_caps body.
Proof.
  unfold match_at, SectionRefPattern, DocIDShape, Times, Plus. cbn [rmatch Lit]. intros E.
  chr_step E. rep_step E as a r1. chr_step E. rep_step E as b r2.
  chr_step E. chr_step E. chr_step E.
  rep_step E as w1 r3. chr_step E. rep_step E as w2 rest2. chr_step E.
  assert (Hid : is_docid (a +:+ "-" +:+ b))
    by (exists a, b; simpl in *; repeat split; try assumption; lia).
  assert (Hsec : is_section (w1 +:+ "." +:+ w2))
    by (exists w1, w2; repeat split; assumption).
  exists ((a +:+ "-" +:+ b) +:+ " §" +:+ (w1 +:+ "." +:+ w2)), rest2.
  take_is (bracket ((a +:+ "-" +:+ b) +:+ " §" +:+ (w1 +:+ "." +:+ w2))) E.
  take_is (a +:+ "-" +:+ b) E. take_is (w1 +:+ "." +:+ w2) E.
  inversion E. split; [str_norm|]. split.
  - exists (a +:+ "-" +:+ b), (w1 +:+ "." +:+ w2). now repeat split.
  - unfold bracket_match, section_caps. do 4 f_equal.
    + replace 8 with (Py.len ((a +:+ "-" +:+ b) +:+ " §"))
        by (rewrite len_app, (docid_len _ Hid); reflexivity).
      rewrite <- (app_assoc _ " §"). now rewrite drop_app.
    + do 2 f_equal. rewrite <- (docid_len _ Hid). now rewrite take_app.
Qed.

Lemma SectionRef_complete prev body rest : is_section_body body ->
  match_at SectionRefPattern prev (bracket body +:+ rest) = Some (bracket_match section_caps body).
Proof.
  intros (id & sec & -> & Hid & (w1 & w2 & -> & [L1 H1] & [L2 H2])).
  pose proof (docid_len _ Hid) as Lid.
  unfold bracket_match, section_caps.
  replace (Py.take_str 5 (id +:+ " §" +:+ w1 +:+ "." +:+ w2)) with id
    by (rewrite <- Lid; now rewrite take_app).
  replace (Py.drop_str 8 (id +:+ " §" +:+ w1 +:+ "." +:+ w2)) with (w1 +:+ "." +:+ w2).
  2: { replace 8 with (Py.len (id +:+ " §")) by (rewrite len_app, Lid; reflexivity).
       rewrite <- (app_assoc _ " §"). now rewrite drop_app. }
  clear Lid. destruct Hid as (a & b & -> & [La Ha] & [Lb Hb]).
  unfold match_at, SectionRefPattern, DocIDShape, Times, Plus, bracket. cbn [rmatch Lit].
  repeat (simpl String.append; rewrite ?app_assoc). cbn match. rewrite Ascii.eqb_refl.
  rep_intro a; [left; now rewrite La|]. rewrite Ascii.eqb_refl.
  rep_intro b; [left; now rewrite Lb|]. rewrite !Ascii.eqb_refl.
  rep_intro w1; [right; reflexivity|]. rewrite Ascii.eqb_refl.
  rep_intro w2; [right; reflexivity|]. rewrite Ascii.eqb_refl.
  do 2 f_equal.
  - apply take_group. str_norm.
  - f_equal; [|f_equal]; f_equal; apply take_group; str_norm.
Qed.

Lemma DecisionRef_sound prev s m : match_at DecisionRefPattern prev s = Some m ->
  exists body rest, s = bracket body +:+ rest /\ is_decision body /\ m = bracket_match doc_caps body.
Proof.
  unfold match_at, DecisionRefPattern, Times, Plus. cbn [rmatch Lit]. intros E.
  do 10 chr_step E. rep_step E as d r1. chr_step E. rep_step E as n r2. chr_step E.
  exists ("DECISION-" +:+ d +:+ "-" +:+ n), r2.
  take_is (bracket ("DECISION-" +:+ d +:+ "-" +:+ n)) E.
  take_is ("DECISION-" +:+ d +:+ "-" +:+ n) E.
  inversion E. split; [str_norm|]. split; [|reflexivity].
  exists d, n. simpl in *. repeat split; try assumption; lia.
Qed.

Lemma DecisionRef_complete prev body rest : is_decision body ->
  match_at DecisionRefPattern prev (bracket body +:+ rest) = Some (bracket_match doc_caps body).
Proof.
  intros (d & n & -> & [Ld Hd] & [Ln Hn]).
  unfold match_at, DecisionRefPattern, Times, Plus, bracket. cbn [rmatch Lit].
  repeat (simpl String.append; rewrite ?app_assoc). cbn match. rewrite !Ascii.eqb_refl.
  rep_intro d; [left; now rewrite Ld|]. rewrite Ascii.eqb_refl.
  rep_intro n; [right; reflexivity|]. rewrite Ascii.eqb_refl.
  unfold bracket_match, doc_caps. do 2 f_equal.
  - apply take_group. str_norm.
  - do 2 f_equal. apply take_group. str_norm.
Qed.

Lemma digits_no_char c w :
  all_in digit w = true -> digit c = false -> Py.has_char c w = false.
Proof. apply all_in_has_char. Qed.

Lemma docid_no_char c id :
  is_docid id -> digit c = false -> c <> "-"%char -> Py.has_char c id = false.
Proof.
  intros (a & b & -> & [_ Ha] & [_ Hb]) Hc Hd.
  rewrite !has_char_app, (digits_no_char c a), (digits_no_char c b) by assumption.
  assert (Ascii.eqb "-" c = false) as E by (apply Ascii.eqb_neq; congruence).
  cbn [Py.has_char]. rewrite E. reflexivity.
Qed.

Lemma section_no_char c sec :
  is_section sec -> digit c = false -> c <> "."%char -> Py.has_char c sec = false.
Proof.
  intros (a & b & -> & [_ Ha] & [_ Hb]) Hc Hd.
  rewrite !has_char_app, (digits_no_char c a), (digits_no_char c b) by assumption.
  assert (Ascii.eqb "." c = false) as E by (apply Ascii.eqb_neq; congruence).
  cbn [Py.has_char]. rewrite E. reflexivity.
Qed.

Lemma docid_open id : is_docid id -> Py.has_char "["%char id = false.
Proof. intros H. now apply docid_no_char. Qed.

Lemma docid_close id : is_docid id -> Py.has_char "]"%char id = false.
Proof. intros H. now apply docid_no_char. Qed.

Lemma section_body_open body : is_section_body body -> Py.has_char "["%char body = false.
Proof.
  intros (id & sec & -> & Hid & Hsec).
  rewrite !has_char_app, (docid_open id Hid), (section_no_char "[" sec Hsec); reflexivity || discriminate.
Qed.

Lemma section_body_close body : is_section_body body -> Py.has_char "]"%char body = false.
Proof.
  intros (id & sec & -> & Hid & Hsec).
  rewrite !has_char_app, (docid_close id Hid), (section_no_char "]" sec Hsec); reflexivity || discriminate.
Qed.

Lemma decision_open body : is_decision body -> Py.has_char "["%char body = false.
Proof.
  intros (d & n & -> & [_ Hd] & [_ Hn]).
  rewrite !has_char_app, (digits_no_char "[" d), (digits_no_char "[" n); reflexivity || assumption.
Qed.

Lemma decision_close body : is_decision body -> Py.has_char "]"%char body = false.
Proof.
  intros (d & n & -> & [_ Hd] & [_ Hn]).
  rewrite !has_char_app, (digits_no_char "]" d), (digits_no_char "]" n); reflexivity || assumption.
Qed.

Lemma section_body_len body : is_section_body body -> 11 <= Py.len body.
Proof.
  intros (id & sec & -> & Hid & (a & b & -> & [La _] & [Lb _])).
  rewrite !len_app, (docid_len id Hid). simpl. lia.
Qed.

Lemma decision_len body : is_decision body -> 19 <= Py.len body.
Proof.
  intros (d & n & -> & [Ld _] & [Ln _]). rewrite !len_app. simpl. lia.
Qed.

Lemma docid_not_section id : is_docid id -> ~ is_section_body id.
Proof. intros H H'. apply docid_len in H. apply section_body_len in H'. lia. Qed.

Lemma docid_not_decision id : is_docid id -> ~ is_decision id.
Proof. intros H H'. apply docid_len in H. apply decision_len in H'. lia. Qed.

Lemma section_not_docid body : is_section_body body -> ~ is_docid body.
Proof. intros H H'. apply docid_len in H'. apply section_body_len in H. lia. Qed.

Lemma decision_not_docid body : is_decision body -> ~ is_docid body.
Proof. intros H H'. apply docid_len in H'. apply decision_len in H. lia. Qed.

Lemma docid_head id : is_docid id -> exists c w, id = String c w /\ digit c = true.
Proof.
  intros (a & b & -> & [La Ha] & _). destruct a as [|c a]; [discriminate|].
  simpl in Ha. apply andb_true_iff in Ha as [Hc _]. now exists c, (a +:+ "-" +:+ b).
Qed.

Lemma section_not_decision body : is_section_body body -> ~ is_decision body.
Proof.
  intros (id & sec & -> & Hid & _) (d & n & E & _).
  destruct (docid_head id Hid) as (c & w & -> & Hc).
  simpl in E. inversion E; subst. discriminate.
Qed.

Lemma decision_not_section body : is_decision body -> ~ is_section_body body.
Proof. intros H H'. now apply (section_not_decision body). Qed.

Lemma ProcessCrossReferences_passes Content R :
  ProcessCrossReferences Content R = decision_pass R (section_pass R (doc_pass R Content)).
Proof. reflexivity. Qed.

Section Passes.
Variable R : Registry.

Lemma doc_pass_split a b :
  doc_pass R (a +:+ String "["%char b) = doc_pass R a +:+ doc_pass R (String "["%char b).
Proof.
  apply (re_sub_split DocRefPattern is_docid doc_caps docid_open DocRef_sound DocRef_complete).
Qed.

Lemma section_pass_split a b :
  section_pass R (a +:+ String "["%char b) =
  section_pass R a +:+ section_pass R (String "["%char b).
Proof.
  apply (re_sub_split SectionRefPattern is_section_body section_caps section_body_open SectionRef_sound SectionRef_complete).
Qed.

Lemma decision_pass_split a b :
  decision_pass R (a +:+ String "["%char b) =
  decision_pass R a +:+ decision_pass R (String "["%char b).
Proof.
  apply (re_sub_split DecisionRefPattern is_decision doc_caps decision_open DecisionRef_sound DecisionRef_complete).
Qed.

Lemma doc_pass_hit id rest :
  is_docid id ->
  doc_pass R (bracket id +:+ rest) =
  ReplaceDocRef R (bracket_match doc_caps id) +:+ doc_pass R rest.
Proof.
  apply (re_sub_hit DocRefPattern is_docid doc_caps DocRef_sound DocRef_complete).
Qed.

Lemma section_pass_hit body rest :
  is_section_body body ->
  section_pass R (bracket body +:+ rest) =
  ReplaceSectionRef R (bracket_match section_caps body) +:+ section_pass R rest.
Proof.
  apply (re_sub_hit SectionRefPattern is_section_body section_caps SectionRef_sound SectionRef_complete).
Qed.

Lemma decision_pass_hit body rest :
  is_decision body ->
  decision_pass R (bracket body +:+ rest) =
  ReplaceDecisionRef R (bracket_match doc_caps body) +:+ decision_pass R rest.
Proof.
  apply (re_sub_hit DecisionRefPattern is_decision doc_caps DecisionRef_sound DecisionRef_complete).
Qed.

Lemma doc_pass_miss body rest :
  ~ is_docid body ->
  Py.has_char "["%char body = false -> Py.has_char "]"%char body = false ->
  doc_pass R (bracket body +:+ rest) = bracket body +:+ doc_pass R rest.
Proof.
  apply (re_sub_miss DocRefPattern is_docid doc_caps docid_close DocRef_sound DocRef_complete).
Qed.

Lemma section_pass_miss body rest :
  ~ is_section_body body ->
  Py.has_char "["%char body = false -> Py.has_char "]"%char body = false ->
  section_pass R (bracket body +:+ rest) = bracket body +:+ section_pass R rest.
Proof.
  apply (re_sub_miss SectionRefPattern is_section_body section_caps section_body_close SectionRef_sound SectionRef_complete).
Qed.

Lemma decision_pass_miss body rest :
  ~ is_decision body ->
  Py.has_char "["%char body = false -> Py.has_char "]"%char body = false ->
  decision_pass R (bracket body +:+ rest) = bracket body +:+ decision_pass R rest.
Proof.
  apply (re_sub_miss DecisionRefPattern is_decision doc_caps decision_close DecisionRef_sound DecisionRef_complete).
Qed.

(** A bracketed text is carried through the three passes: each pass
    rewrites what comes before, the bracketed text itself and what comes
    after independently. *)
Lemma resolver_at_bracket (f g h : string -> string) pre body post :
  (forall rest, doc_pass R (bracket body +:+ rest) = f body +:+ doc_pass R rest) ->
  (forall rest, section_pass R (f body +:+ rest) = g body +:+ section_pass R rest) ->
  (forall rest, decision_pass R (g body +:+ rest) = h body +:+ decision_pass R rest) ->
  (exists x, f body = String "["%char x) -> (exists x, g body = String "["%char x) ->
  ProcessCrossReferences (pre +:+ bracket body +:+ post) R =
  ProcessCrossReferences pre R +:+ h body +:+ ProcessCrossReferences post R.
Proof.
  intros H1 H2 H3 [x Hf] [y Hg]. rewrite !ProcessCrossReferences_passes.
  unfold bracket at 1. rewrite app_cons, doc_pass_split.
  change (String "[" ((body +:+ "]") +:+ post)) with (bracket body +:+ post).
  rewrite H1. rewrite Hf, app_cons, section_pass_split, <- app_cons, <- Hf, H2.
  rewrite Hg, app_cons, decision_pass_split, <- app_cons, <- Hg, H3.
  reflexivity.
Qed.
End Passes.

(** ** The Cross-Reference Resolver: claims *)

Lemma ReplaceDocRef_unresolved R id :
  registry_get R id = None -> ReplaceDocRef R (bracket_match doc_caps id) = bracket id.
Proof. intros H. unfold ReplaceDocRef, group_str. simpl. now rewrite H. Qed.

Lemma ReplaceSectionRef_unresolved R id sec :
  is_docid id -> registry_get R id = None ->
  ReplaceSectionRef R (bracket_match section_caps (id +:+ " §" +:+ sec)) =
  bracket (id +:+ " §" +:+ sec).
Proof.
  intros Hid H. unfold ReplaceSectionRef, group_str.
  cbn [group bracket_match section_caps assoc groups Nat.eqb from_option group0].
  unfold Datatypes.id.
  rewrite <- (docid_len id Hid), take_app, H. reflexivity.
Qed.

Lemma doc_reference_unresolved R pre post id :
  is_docid id -> registry_get R id = None ->
  ProcessCrossReferences (pre +:+ bracket id +:+ post) R =
  ProcessCrossReferences pre R +:+ bracket id +:+ ProcessCrossReferences post R.
Proof.
  intros Hid HR. apply (resolver_at_bracket R bracket bracket bracket).
  - intros rest. rewrite doc_pass_hit by assumption.
    now rewrite ReplaceDocRef_unresolved.
  - intros rest. apply section_pass_miss;
      auto using docid_not_section, docid_open, docid_close.
  - intros rest. apply decision_pass_miss;
      auto using docid_not_decision, docid_open, docid_close.
  - now eexists.
  - now eexists.
Qed.

Lemma section_reference_unresolved R pre post id sec :
  is_docid id -> is_section sec -> registry_get R id = None ->
  ProcessCrossReferences (pre +:+ bracket (id +:+ " §" +:+ sec) +:+ post) R =
  ProcessCrossReferences pre R +:+ bracket (id +:+ " §" +:+ sec) +:+
  ProcessCrossReferences post R.
Proof.
  intros Hid Hsec HR.
  assert (Hb : is_section_body (id +:+ " §" +:+ sec)) by now exists id, sec.
  apply (resolver_at_bracket R bracket bracket bracket).
  - intros rest. apply doc_pass_miss;
      auto using section_not_docid, section_body_open, section_body_close.
  - intros rest. rewrite section_pass_hit by assumption.
    now rewrite ReplaceSectionRef_unresolved.
  - intros rest. apply decision_pass_miss;
      auto using section_not_decision, section_body_open, section_body_close.
  - now eexists.
  - now eexists.
Qed.

(** C2. A document reference [[DD-DD]] and a section reference
    [[DD-DD §N.N]] whose identifier is not a key of the registry come out of
    [ProcessCrossReferences] exactly as they went in, at their place
    between the processed text before and the processed text after; the
    function is total, so no input raises. *)
Theorem unresolved_reference_left_verbatim (R : Registry) (pre post id : string) :
  is_docid id -> registry_get R id = None ->
  ProcessCrossReferences (pre +:+ bracket id +:+ post) R =
    ProcessCrossReferences pre R +:+ bracket id +:+ ProcessCrossReferences post R
  /\ forall sec, is_section sec ->
       ProcessCrossReferences (pre +:+ bracket (id +:+ " §" +:+ sec) +:+ post) R =
       ProcessCrossReferences pre R +:+ bracket (id +:+ " §" +:+ sec) +:+
       ProcessCrossReferences post R.
Proof.
  intros Hid HR. split.
  - now apply doc_reference_unresolved.
  - intros sec Hsec. now apply section_reference_unresolved.
Qed.

Lemma unresolved_reference_left_verbatim_witness :
  ProcessCrossReferences ("see " +:+ bracket "11-22" +:+ " and [10-20]") example_registry =
    ProcessCrossReferences "see " example_registry +:+ bracket "11-22" +:+
    ProcessCrossReferences " and [10-20]" example_registry
  /\ forall sec, is_section sec ->
       ProcessCrossReferences
         ("see " +:+ bracket ("11-22" +:+ " §" +:+ sec) +:+ " and [10-20]") example_registry =
       ProcessCrossReferences "see " example_registry +:+
       bracket ("11-22" +:+ " §" +:+ sec) +:+
       ProcessCrossReferences " and [10-20]" example_registry.
Proof.
  apply (unresolved_reference_left_verbatim example_registry "see " " and [10-20]" "11-22").
  - exists "11", "22". repeat split; reflexivity.
  - reflexivity.
Defined.

Lemma lower_digits w : all_in digit w = true -> Py.lower w = w.
Proof.
  induction w as [|c w IH]; simpl; [reflexivity|]. intros H.
  apply andb_true_iff in H as [Hc Hw]. rewrite IH by assumption. f_equal.
  unfold Py.lower_char, Py.isupper. unfold digit, Py.isdigit in Hc.
  apply andb_true_iff in Hc as [H1 H2]. apply Nat.leb_le in H1, H2.
  destruct (_ && _) eqn:E; [|reflexivity].
  apply andb_true_iff in E as [E1 E2]. apply Nat.leb_le in E1, E2. lia.
Qed.

Lemma lower_app a b : Py.lower (a +:+ b) = Py.lower a +:+ Py.lower b.
Proof. induction a as [|c a IH]; simpl; [reflexivity|now rewrite IH]. Qed.

(** The anchor of a decision reference: the letters are lowered, the
    digits and the hyphens stay. *)
Lemma decision_anchor d n :
  all_in digit d = true -> all_in digit n = true ->
  Py.lower ("DECISION-" +:+ d +:+ "-" +:+ n) = "decision-" +:+ d +:+ "-" +:+ n.
Proof.
  intros Hd Hn. rewrite !lower_app, (lower_digits d), (lower_digits n) by assumption.
  reflexivity.
Qed.

Lemma find_decision_first R1 k info R2 D :
  (forall k' info', In (k', info') R1 -> names_decision D info' = false) ->
  names_decision D info = true ->
  find_decision (R1 ++ (k, info) :: R2) D = Some info.
Proof.
  intros H1 H. induction R1 as [|[k' info'] R1 IH]; simpl.
  - unfold names_decision in H. now rewrite H.
  - pose proof (H1 k' info' (or_introl eq_refl)) as H'. unfold names_decision in H'.
    rewrite H'. apply IH. intros k'' info'' Hin. apply (H1 k''). now right.
Qed.

Lemma find_decision_none R D :
  (forall k info, In (k, info) R -> names_decision D info = false) ->
  find_decision R D = None.
Proof.
  intros H. induction R as [|[k info] R IH]; simpl; [reflexivity|].
  pose proof (H k info (or_introl eq_refl)) as H'. unfold names_decision in H'.
  rewrite H'. apply IH. intros k' info' Hin. apply (H k'). now right.
Qed.

Lemma decision_reference_rewritten R pre D post :
  is_decision D ->
  ProcessCrossReferences (pre +:+ bracket D +:+ post) R =
  ProcessCrossReferences pre R +:+ ReplaceDecisionRef R (bracket_match doc_caps D) +:+
  ProcessCrossReferences post R.
Proof.
  intros HD.
  apply (resolver_at_bracket R bracket bracket
           (fun D => ReplaceDecisionRef R (bracket_match doc_caps D))).
  - intros rest. apply doc_pass_miss;
      auto using decision_not_docid, decision_open, decision_close.
  - intros rest. apply section_pass_miss;
      auto using decision_not_section, decision_open, decision_close.
  - intros rest. now apply decision_pass_hit.
  - now eexists.
  - now eexists.
Qed.

(** C4. Every decision reference [[DECISION-YYYYMMDD-N]] is rewritten to a
    link.  When a registry entry's title starts with DECISION and contains
    the identifier, the link goes to the url of the first such entry, with
    the identifier in lower case, [decision-YYYYMMDD-N], as anchor; when no
    entry does, it goes to the fixed governance/decisions path with the
    same anchor.  The other two kinds of reference give no link when
    unresolved: they are copied. *)
Theorem decision_reference_always_linked (R : Registry) (pre post d n : string) :
  digits 8 d -> digits1 n ->
  let D := "DECISION-" +:+ d +:+ "-" +:+ n in
  let Anchor := "decision-" +:+ d +:+ "-" +:+ n in
  (forall R1 k info R2,
     R = R1 ++ (k, info) :: R2 ->
     (forall k' info', In (k', info') R1 -> names_decision D info' = false) ->
     names_decision D info = true ->
     ProcessCrossReferences (pre +:+ bracket D +:+ post) R =
     ProcessCrossReferences pre R +:+
     ("[" +:+ D +:+ "](" +:+ default "" (info_url info) +:+ "#" +:+ Anchor +:+ ")") +:+
     ProcessCrossReferences post R)
  /\ ((forall k info, In (k, info) R -> names_decision D info = false) ->
      ProcessCrossReferences (pre +:+ bracket D +:+ post) R =
      ProcessCrossReferences pre R +:+
      ("[" +:+ D +:+ "]({{ site.baseurl }}/docs/governance/decisions/#" +:+ Anchor +:+ ")") +:+
      ProcessCrossReferences post R)
  /\ (forall id sec,
        is_docid id -> is_section sec -> registry_get R id = None ->
        ProcessCrossReferences (pre +:+ bracket id +:+ post) R =
          ProcessCrossReferences pre R +:+ bracket id +:+
          ProcessCrossReferences post R
        /\ ProcessCrossReferences (pre +:+ bracket (id +:+ " §" +:+ sec) +:+ post) R =
          ProcessCrossReferences pre R +:+ bracket (id +:+ " §" +:+ sec) +:+
          ProcessCrossReferences post R).
Proof.
  intros Hd Hn D Anchor.
  assert (HD : is_decision D) by now exists d, n.
  assert (HA : Py.lower D = Anchor) by (apply decision_anchor; [apply Hd|apply Hn]).
  clearbody D Anchor. split; [|split].
  - intros R1 k info R2 -> H1 H.
    rewrite decision_reference_rewritten by assumption.
    unfold ReplaceDecisionRef, group_str. simpl group.
    simpl default at 1 2 3. rewrite (find_decision_first R1 k info R2 D H1 H).
    change (default "" (Some D)) with D. now rewrite HA.
  - intros H. rewrite decision_reference_rewritten by assumption.
    unfold ReplaceDecisionRef, group_str. simpl group.
    simpl default at 1 2 3. rewrite (find_decision_none R D H).
    change (default "" (Some D)) with D. now rewrite HA.
  - intros id sec Hid Hsec HR. split.
    + now apply doc_reference_unresolved.
    + now apply section_reference_unresolved.
Qed.

Lemma decision_reference_always_linked_witness :
  ProcessCrossReferences ("per " +:+ bracket "DECISION-20250101-1" +:+ ".") example_registry =
    ProcessCrossReferences "per " example_registry +:+
    "[DECISION-20250101-1](/docs/governance/60-10/#decision-20250101-1)" +:+
    ProcessCrossReferences "." example_registry
  /\ ProcessCrossReferences ("per " +:+ bracket "DECISION-20250101-1" +:+ ".") [] =
    ProcessCrossReferences "per " [] +:+
    "[DECISION-20250101-1]({{ site.baseurl }}/docs/governance/decisions/#decision-20250101-1)"
    +:+ ProcessCrossReferences "." [].
Proof.
  assert (Hd : digits 8 "20250101") by (split; reflexivity).
  assert (Hn : digits1 "1") by (split; [simpl; lia|reflexivity]).
  split.
  - exact (proj1 (decision_reference_always_linked example_registry "per " "."
                    "20250101" "1" Hd Hn)
             [("10-20", {| info_title := Some "Project Vision";
                           info_url := Some "/docs/vision/10-20/" |})]
             "60-10"
             {| info_title := Some "DECISION-20250101-1 Static site generator";
                info_url := Some "/docs/governance/60-10/" |}
             [] eq_refl
             ltac:(intros k' info' [E|[]]; inversion E; reflexivity) eq_refl).
  - exact (proj1 (proj2 (decision_reference_always_linked [] "per " "."
                           "20250101" "1" Hd Hn))
             ltac:(intros k info [])).
Defined.

(** C1, as the specification states it, fails: the bracket part of a
    generated link is itself a reference, so a second run rewrites the text
    again.  Both a document link to a registered identifier and a decision
    link grow by one target. *)
Lemma resolver_not_idempotent :
  ProcessCrossReferences "[10-20]" example_registry = "[10-20](/docs/vision/10-20/)"
  /\ ProcessCrossReferences "[10-20](/docs/vision/10-20/)" example_registry =
     "[10-20](/docs/vision/10-20/)(/docs/vision/10-20/)"
  /\ ProcessCrossReferences
       (ProcessCrossReferences "[10-20](/docs/vision/10-20/)" example_registry)
       example_registry
     <> ProcessCrossReferences "[10-20](/docs/vision/10-20/)" example_registry
  /\ ProcessCrossReferences
       (ProcessCrossReferences "[DECISION-20250101-1](/d/#decision-20250101-1)" [])
       []
     <> ProcessCrossReferences "[DECISION-20250101-1](/d/#decision-20250101-1)" [].
Proof. repeat split; vm_compute; congruence. Qed.

(** C1, amended.  A text in which no document or section reference names a
    registry key and in which no decision reference occurs is returned
    unchanged by [ProcessCrossReferences].  The references are the matches
    of the three patterns; the text is one whose characters all stand
    before U+0660, so that the digits of a pattern are 0-9 as they are in
    the scans below. *)
Theorem resolver_fixed_without_resolvable_reference (R : Registry) (t : string) :
  below_0660 t = true ->
  (forall m, In m (re_finditer DocRefPattern t) ->
             registry_get R (group_str m 1) = None) ->
  (forall m, In m (re_finditer SectionRefPattern t) ->
             registry_get R (group_str m 1) = None) ->
  re_finditer DecisionRefPattern t = [] ->
  ProcessCrossReferences t R = t.
Proof.
  intros _ Hdoc Hsec Hdec. rewrite ProcessCrossReferences_passes.
  unfold doc_pass, section_pass, decision_pass.
  rewrite (re_sub_fixed DocRefPattern is_docid doc_caps DocRef_sound).
  2: { intros m Hm. unfold ReplaceDocRef. now rewrite (Hdoc m Hm). }
  rewrite (re_sub_fixed SectionRefPattern is_section_body section_caps SectionRef_sound).
  2: { intros m Hm. unfold ReplaceSectionRef. now rewrite (Hsec m Hm). }
  apply (re_sub_fixed DecisionRefPattern is_decision doc_caps DecisionRef_sound).
  intros m Hm. rewrite Hdec in Hm. destruct Hm.
Qed.

Lemma resolver_fixed_without_resolvable_reference_witness :
  ProcessCrossReferences "see [11-22], [11-22 §1.2] and [text](url)" example_registry =
  "see [11-22], [11-22 §1.2] and [text](url)".
Proof.
  apply resolver_fixed_without_resolvable_reference.
  - reflexivity.
  - intros m [<-|[]]. reflexivity.
  - intros m [<-|[]]. reflexivity.
  - reflexivity.
Defined.

(** ** The Document Content Transformer: claims *)

Lemma line_in_range Lines i :
  i < length Lines ->
  Lines !! i = Some (line_at Lines i) /\
  drop i Lines = line_at Lines i :: drop (S i) Lines.
Proof.
  intros Hi. destruct (lookup_lt_is_Some_2 Lines i Hi) as [x Hx].
  unfold line_at. rewrite (nth_lookup_Some _ _ "" _ Hx).
  split; [assumption|now apply drop_S].
Qed.

Lemma skip_lines_run P Lines StartIndex :
  StartIndex <= length Lines ->
  exists run rest,
    drop StartIndex Lines = run ++ rest /\
    Forall (fun l => P l = true) run /\
    (forall l, head rest = Some l -> P l = false) /\
    skip_lines P Lines StartIndex = StartIndex + length run.
Proof.
  funelim (skip_lines P Lines StartIndex); intros Hle.
  - exists [], (drop StartIndex Lines). repeat split; [constructor| |simpl; lia].
    rewrite drop_ge by lia. discriminate.
  - match goal with
    | IH : _ -> exists _ _, _ |- _ =>
        destruct IH as (run & rest & Hd & Hrun & Hrest & Hs); [lia|]
    end.
    destruct (line_in_range Lines StartIndex) as [Hl Hdrop]; [assumption|].
    exists (line_at Lines StartIndex :: run), rest.
    rewrite Hs, Hdrop, Hd. repeat split; [now constructor|assumption|simpl; lia].
  - destruct (line_in_range Lines StartIndex) as [Hl Hdrop]; [assumption|].
    exists [], (drop StartIndex Lines). repeat split; [constructor| |simpl; lia].
    rewrite Hdrop. intros l0 Hl0. inversion Hl0; subst. assumption.
Qed.

(** C3, as stated, fails: the markers and the tags are skipped by two
    loops one after the other, so a marker line that follows a tag line
    ends the header and is kept; a single run over the three kinds of line
    would drop it. *)
Lemma header_removal_is_not_one_run :
  RemoveMetadataHeader header_with_tag_before_marker =
    Py.join_lines ["**Created: March 15, 2025 3:15 PM**"; "Body"]
  /\ RemoveMetadataHeader_one_run header_with_tag_before_marker = "Body"
  /\ RemoveMetadataHeader header_with_tag_before_marker <>
     RemoveMetadataHeader_one_run header_with_tag_before_marker.
Proof. repeat split; vm_compute; congruence. Qed.

(** C3, amended.  [RemoveMetadataHeader] drops the first line when it
    starts with ["# "], then a run of lines that start with [**Created:] or
    [**Last Modified:] or are blank, then a run of lines that start with an
    opening bracket and hold a closing one or are blank; it returns every
    line from the first line after these runs onward, unchanged. *)
Theorem RemoveMetadataHeader_strips_prefix (Content : string) :
  exists title stamps tags body,
    Py.split_lines Content = title ++ stamps ++ tags ++ body /\
    (match Py.split_lines Content with
     | Line0 :: _ => if Py.startswith Line0 "# " then title = [Line0] else title = []
     | [] => title = []
     end) /\
    Forall (fun l => is_timestamp_line l = true) stamps /\
    (forall l, head (tags ++ body) = Some l -> is_timestamp_line l = false) /\
    Forall (fun l => is_tag_line l = true) tags /\
    (forall l, head body = Some l -> is_tag_line l = false) /\
    RemoveMetadataHeader Content = Py.join_lines body.
Proof.
  unfold RemoveMetadataHeader.
  set (Lines := Py.split_lines Content).
  set (i0 := match Lines with
             | Line0 :: _ => if Py.startswith Line0 "# " then 1 else 0
             | [] => 0
             end).
  assert (Hi0 : i0 <= length Lines).
  { subst i0. destruct Lines as [|l0 ?]; [simpl; lia|].
    destruct (Py.startswith l0 "# "); simpl; lia. }
  destruct (skip_lines_run is_timestamp_line Lines i0 Hi0)
    as (stamps & rest1 & Hd1 & Hstamps & Hrest1 & Hs1).
  assert (Hi1 : i0 + length stamps <= length Lines).
  { apply (f_equal length) in Hd1. rewrite length_drop, length_app in Hd1. lia. }
  destruct (skip_lines_run is_tag_line Lines (i0 + length stamps) Hi1)
    as (tags & body & Hd2 & Htags & Hbody & Hs2).
  assert (Hrest1' : rest1 = tags ++ body).
  { rewrite <- Hd2, <- drop_drop, Hd1. now rewrite drop_app_length. }
  subst rest1.
  exists (take i0 Lines), stamps, tags, body.
  split; [|split; [|repeat split; try assumption]].
  - rewrite <- Hd1. now rewrite take_drop.
  - subst i0. destruct Lines as [|l0 ?]; [reflexivity|].
    destruct (Py.startswith l0 "# "); reflexivity.
  - rewrite Hs1, Hs2. f_equal.
    rewrite <- drop_drop, Hd2. now rewrite drop_app_length.
Qed.

(** C7.  What [ProcessJekyllIncompatibleContent] returns for a tag opener
    and for a triple brace next to a space.  The escape written for the tag
    opener is [{{ "{% " }}]; the second and third replacements rewrite the
    braces of that escape again, and the result is neither the escape nor a
    text free of live output tags. *)
Theorem template_escaping_rescans_its_output :
  ProcessJekyllIncompatibleContent "{% " = escaped_tag_open
  /\ ProcessJekyllIncompatibleContent "{% " <> "{{ " +:+ dq +:+ "{% " +:+ dq +:+ " }}"
  /\ ProcessJekyllIncompatibleContent "{{{ x }}}" = escaped_triple_brace
  /\ ProcessJekyllIncompatibleContent "{{{ x }}}" <>
     "&#123;&#123;&#123; x &#125;&#125;&#125;".
Proof. repeat split; vm_compute; congruence. Qed.

(** ** The Metadata Extractor: claims *)

Lemma extract_title_run Content md :
  extract_title Content md = (Returns tt, title_update Content md).
Proof. unfold extract_title, title_update. now destruct (re_search _ _). Qed.

Lemma extract_created_run Content md :
  extract_created Content md =
  (Returns tt, stamp_update CreatedPattern "created_at" "created_date" Content md).
Proof.
  unfold extract_created, stamp_update. destruct (re_search _ _) as [m|]; [|reflexivity].
  unfold mbind, M_bind, setitem, try_pass, getitem, call. cbn beta iota.
  rewrite lookup_insert_eq. now destruct (ParseTimestamp _).
Qed.

Lemma extract_modified_run Content md :
  extract_modified Content md =
  (Returns tt, stamp_update ModifiedPattern "modified_at" "modified_date" Content md).
Proof.
  unfold extract_modified, stamp_update. destruct (re_search _ _) as [m|]; [|reflexivity].
  unfold mbind, M_bind, setitem, try_pass, getitem, call. cbn beta iota.
  rewrite lookup_insert_eq. now destruct (ParseTimestamp _).
Qed.

Lemma for_each_tags ms : forall md,
  for_each ms (fun m => setitem (Py.lower (group_str m 1)) (Py.strip (group_str m 2))) md =
  (Returns tt, foldl tag_update md ms).
Proof.
  induction ms as [|m ms IH]; intros md; [reflexivity|].
  simpl. unfold mbind, M_bind, setitem at 1. cbn beta iota. apply IH.
Qed.

Lemma extract_context_run Content md :
  extract_context Content md = (Returns tt, context_update Content md).
Proof. apply for_each_tags. Qed.

Lemma extract_doc_number_run Content md :
  extract_doc_number Content md = (Returns tt, doc_number_update Content md).
Proof. unfold extract_doc_number, doc_number_update. now destruct (re_search _ _). Qed.

Lemma ExtractMetadata_run Content :
  ExtractMetadata Content =
  Returns (doc_number_update Content
             (context_update Content
                (stamp_update ModifiedPattern "modified_at" "modified_date" Content
                   (stamp_update CreatedPattern "created_at" "created_date" Content
                      (title_update Content ∅))))).
Proof.
  unfold ExtractMetadata, guarded, ExtractMetadata_body, mbind, M_bind.
  rewrite extract_title_run, extract_created_run, extract_modified_run,
    extract_context_run, extract_doc_number_run. reflexivity.
Qed.

(** The last tag with a given key decides the value of that key. *)
Lemma tags_last_wins ms1 m ms2 k md :
  Py.lower (group_str m 1) = k ->
  (forall m', In m' ms2 -> Py.lower (group_str m' 1) <> k) ->
  foldl tag_update md (ms1 ++ m :: ms2) !! k = Some (Py.strip (group_str m 2)).
Proof.
  intros Hk Hlater. rewrite foldl_app. simpl.
  generalize (foldl tag_update md ms1). intros md1.
  assert (Hm : tag_update md1 m !! k = Some (Py.strip (group_str m 2)))
    by (unfold tag_update; rewrite Hk; apply lookup_insert_eq).
  revert Hm. generalize (tag_update md1 m). clear md md1.
  induction ms2 as [|m' ms2 IH]; intros md Hm; [assumption|].
  simpl. apply IH.
  - intros m'' Hin. apply Hlater. now right.
  - unfold tag_update. rewrite lookup_insert_ne; [assumption|].
    apply Hlater. now left.
Qed.

Lemma tags_absent ms k md :
  (forall m, In m ms -> Py.lower (group_str m 1) <> k) ->
  foldl tag_update md ms !! k = md !! k.
Proof.
  revert md. induction ms as [|m ms IH]; intros md H; [reflexivity|].
  simpl. rewrite IH by (intros m' Hin; apply H; now right).
  unfold tag_update. apply lookup_insert_ne. apply H. now left.
Qed.

Lemma title_update_other Content md k :
  k <> "title" -> title_update Content md !! k = md !! k.
Proof.
  intros Hk. unfold title_update. destruct (re_search _ _); [|reflexivity].
  now apply lookup_insert_ne.
Qed.

Lemma stamp_update_other P at_key date_key Content md k :
  k <> at_key -> k <> date_key ->
  stamp_update P at_key date_key Content md !! k = md !! k.
Proof.
  intros H1 H2. unfold stamp_update. destruct (re_search _ _); [|reflexivity].
  cbn zeta. destruct (ParseTimestamp _); now rewrite ?lookup_insert_ne.
Qed.

Lemma doc_number_update_other Content md k :
  k <> "doc_number" -> doc_number_update Content md !! k = md !! k.
Proof.
  intros Hk. unfold doc_number_update. destruct (re_search _ _); [|reflexivity].
  now apply lookup_insert_ne.
Qed.

Lemma metadata_tag Content ms1 m ms2 k md :
  k <> "doc_number" ->
  re_finditer ContextPattern Content = ms1 ++ m :: ms2 ->
  Py.lower (group_str m 1) = k ->
  (forall m', In m' ms2 -> Py.lower (group_str m' 1) <> k) ->
  ExtractMetadata Content = Returns md ->
  md !! k = Some (Py.strip (group_str m 2)).
Proof.
  intros Hk Hms Hm Hlater Hmd. rewrite ExtractMetadata_run in Hmd.
  inversion Hmd; subst md; clear Hmd.
  rewrite doc_number_update_other by assumption.
  unfold context_update. rewrite Hms. now apply tags_last_wins.
Qed.

(** A tag that stands alone, no other opening bracket around it, is found
    by the scan. *)
Lemma context_match_open prev c s m :
  match_at ContextPattern prev (String c s) = Some m -> c = "["%char.
Proof.
  unfold match_at, ContextPattern. cbn [rmatch]. intros E.
  destruct (Ascii.eqb_spec "[" c) as [<-|]; [reflexivity|discriminate].
Qed.

Lemma finditer_plain w s : forall prev,
  Py.has_char "["%char w = false ->
  finditer_from ContextPattern prev 0 (w +:+ s) =
  finditer_from ContextPattern (last_char prev w) 0 s.
Proof.
  induction w as [|c w IH]; intros prev Hw; [reflexivity|].
  simpl in Hw. apply orb_false_iff in Hw as [Hc Hw].
  rewrite app_cons. cbn [finditer_from last_char].
  destruct (match_at ContextPattern prev (String c (w +:+ s))) as [m|] eqn:E.
  - apply context_match_open in E. subst c. discriminate.
  - now apply IH.
Qed.

Lemma finditer_skip w s : forall prev,
  finditer_from ContextPattern prev (Py.len w) (w +:+ s) =
  finditer_from ContextPattern (last_char prev w) 0 s.
Proof.
  induction w as [|c w IH]; intros prev; simpl.
  - destruct s; reflexivity.
  - apply IH.
Qed.

Lemma context_tag_matches prev K X rest :
  1 <= Py.len K -> all_in (none_of ":]") K = true ->
  1 <= Py.len X -> all_in (none_of "]") X = true ->
  match_at ContextPattern prev (context_tag K X +:+ rest) =
  Some {| group0 := context_tag K X; groups := [(2, X); (1, K)] |}.
Proof.
  intros LK HK LX HX.
  unfold match_at, ContextPattern, Plus, context_tag, bracket. cbn [rmatch Lit].
  repeat (simpl String.append; rewrite ?app_assoc). cbn match. rewrite Ascii.eqb_refl.
  rep_intro K; [right; reflexivity|]. rewrite !Ascii.eqb_refl.
  rep_intro X; [right; reflexivity|]. rewrite Ascii.eqb_refl.
  do 2 f_equal.
  - apply take_group. str_norm.
  - f_equal; [|f_equal]; f_equal; apply take_group; str_norm.
Qed.

Lemma single_tag_found pre K X post :
  Py.has_char "["%char pre = false -> Py.has_char "["%char post = false ->
  1 <= Py.len K -> all_in (none_of ":]") K = true ->
  1 <= Py.len X -> all_in (none_of "]") X = true ->
  re_finditer ContextPattern (pre +:+ context_tag K X +:+ post) =
  [{| group0 := context_tag K X; groups := [(2, X); (1, K)] |}].
Proof.
  intros Hpre Hpost LK HK LX HX. unfold re_finditer.
  rewrite finditer_plain by assumption.
  generalize (last_char None pre). intros prev.
  pose proof (context_tag_matches prev K X post LK HK LX HX) as E.
  unfold context_tag, bracket in *. simpl in E |- *. rewrite E. f_equal.
  cbn [group0 Py.len]. rewrite Nat.sub_succ, Nat.sub_0_r, finditer_skip.
  rewrite <- (app_nil_r post), finditer_plain by assumption. reflexivity.
Qed.

(** C10, as stated, fails: a [[Title: X]] that stands after an opening
    bracket that is not closed is read as the end of an outer tag, whose
    key runs from that bracket to the colon; the title stays the one of
    the heading. *)
Lemma title_tag_inside_a_bracket_is_not_read :
  Py.contains title_tag_inside_a_bracket "[Title: X]" = true
  /\ re_finditer ContextPattern title_tag_inside_a_bracket =
     [{| group0 := "[note [Title: X]"; groups := [(2, "X"); (1, "note [Title")] |}]
  /\ metadata_of (ExtractMetadata title_tag_inside_a_bracket) !! "title" = Some "Heading"
  /\ metadata_of (ExtractMetadata title_tag_inside_a_bracket) !! "note [title" = Some "X".
Proof. repeat split; vm_compute; reflexivity. Qed.

(** C10, amended.  The keys of the context tags are lowercased into the
    dictionary that holds the built-in fields, and the tags are read after
    the title and the timestamps: the value of the last [[Title: X]] tag
    that the scan finds is the returned title whatever the heading says,
    and the last tag whose lowercased key is created_at, modified_at,
    created_date or modified_date decides that field; the value is stored
    without the white space around it.  The tags are the matches of the
    scan; a tag with no other opening bracket before or after it in the
    text is one. *)
Theorem context_tag_overrides_builtin_field (k : string) :
  In k ["title"; "created_at"; "modified_at"; "created_date"; "modified_date"] ->
  (forall Content ms1 m ms2 md,
     re_finditer ContextPattern Content = ms1 ++ m :: ms2 ->
     Py.lower (group_str m 1) = k ->
     (forall m', In m' ms2 -> Py.lower (group_str m' 1) <> k) ->
     ExtractMetadata Content = Returns md ->
     md !! k = Some (Py.strip (group_str m 2)))
  /\ (forall pre K X post md,
        Py.has_char "["%char pre = false -> Py.has_char "["%char post = false ->
        1 <= Py.len K -> all_in (none_of ":]") K = true ->
        1 <= Py.len X -> all_in (none_of "]") X = true ->
        Py.lower K = k ->
        ExtractMetadata (pre +:+ context_tag K X +:+ post) = Returns md ->
        md !! k = Some (Py.strip X)).
Proof.
  intros Hk.
  assert (Hne : k <> "doc_number") by (simpl in Hk; intros ->; intuition discriminate).
  split.
  - intros Content ms1 m ms2 md. now apply metadata_tag.
  - intros pre K X post md Hpre Hpost LK HK LX HX Hkey Hmd.
    apply (metadata_tag (pre +:+ context_tag K X +:+ post) []
             {| group0 := context_tag K X; groups := [(2, X); (1, K)] |} [] k md);
      try assumption.
    + now apply single_tag_found.
    + intros m' [].
Qed.

Lemma context_tag_overrides_builtin_field_witness :
  re_search TitlePattern heading_and_title_tag =
    Some {| group0 := "# Project Vision"; groups := [(1, "Project Vision")] |}
  /\ metadata_of (ExtractMetadata heading_and_title_tag) !! "title" = Some "Other"
  /\ metadata_of (ExtractMetadata (Py.join_lines ["# Heading"; ""] +:+
                                    context_tag "TITLE" " From the tag " +:+ ""))
       !! "title" = Some "From the tag".
Proof.
  assert (Hk : In "title" ["title"; "created_at"; "modified_at"; "created_date";
                           "modified_date"]) by now left.
  split; [reflexivity|]. split.
  - apply (proj1 (context_tag_overrides_builtin_field "title" Hk)
             heading_and_title_tag []
             {| group0 := "[Title: Other]"; groups := [(2, "Other"); (1, "Title")] |} []).
    + reflexivity.
    + reflexivity.
    + intros m' [].
    + now rewrite ExtractMetadata_run.
  - apply (proj2 (context_tag_overrides_builtin_field "title" Hk)
             (Py.join_lines ["# Heading"; ""]) "TITLE" " From the tag " "");
      try reflexivity; simpl; lia.
Defined.

(** C8, as stated, fails: the scan stores its match whether or not the key
    is set.  Here the tag has stored DRAFT and the scan replaces it. *)
Lemma doc_number_scan_overwrites :
  context_update tag_then_identifier ∅ !! "doc_number" = Some "DRAFT"
  /\ ExtractMetadata tag_then_identifier =
     Returns (<["doc_number" := "10-20"]> (context_update tag_then_identifier ∅))
  /\ doc_number_update tag_then_identifier (context_update tag_then_identifier ∅)
       !! "doc_number" = Some "10-20".
Proof. repeat split; vm_compute; reflexivity. Qed.

(** C8, amended.  The bare identifier scan sets doc_number to the first
    DD-DD match whenever the content has one, replacing a value a
    [[Doc_Number: ...]] tag has stored; the value of the last such tag is
    returned only when the content has no DD-DD match.  The content is one
    whose characters all stand before U+0660, so that the digits of the
    scan are 0-9 as they are in the scan below. *)
Theorem doc_number_is_first_bare_identifier (Content : string) (md : Metadata) :
  below_0660 Content = true ->
  ExtractMetadata Content = Returns md ->
  (forall m, re_search BareDocIDPattern Content = Some m ->
             md !! "doc_number" = Some (group_str m 1))
  /\ (re_search BareDocIDPattern Content = None ->
      forall ms1 m ms2,
        re_finditer ContextPattern Content = ms1 ++ m :: ms2 ->
        Py.lower (group_str m 1) = "doc_number" ->
        (forall m', In m' ms2 -> Py.lower (group_str m' 1) <> "doc_number") ->
        md !! "doc_number" = Some (Py.strip (group_str m 2))).
Proof.
  intros _ Hmd. rewrite ExtractMetadata_run in Hmd. inversion Hmd; subst md; clear Hmd.
  split.
  - intros m Hm. unfold doc_number_update. rewrite Hm. apply lookup_insert_eq.
  - intros Hnone ms1 m ms2 Hms Hk Hlater. unfold doc_number_update. rewrite Hnone.
    unfold context_update. rewrite Hms. now apply tags_last_wins.
Qed.

Lemma doc_number_is_first_bare_identifier_witness :
  (forall m, re_search BareDocIDPattern tag_then_identifier = Some m ->
             doc_number_update tag_then_identifier (context_update tag_then_identifier ∅)
               !! "doc_number" = Some (group_str m 1))
  /\ re_search BareDocIDPattern tag_then_identifier =
     Some {| group0 := "10-20"; groups := [(1, "10-20")] |}.
Proof.
  split; [|reflexivity].
  apply (doc_number_is_first_bare_identifier tag_then_identifier); [reflexivity|].
  rewrite ExtractMetadata_run. vm_compute. reflexivity.
Defined.

(** C5, as stated, fails in its fourth part: the context tags are read
    after the marker, so a tag can supply created_date although the value of
    the marker does not parse, and the captured text is stored stripped of
    surrounding white space, not verbatim. *)
Lemma unparsed_created_is_not_final :
  re_search CreatedPattern unparsed_created_with_tag =
    Some {| group0 := "**Created: not a date**"; groups := [(1, "not a date")] |}
  /\ ParseTimestamp "not a date" = Raises ValueError
  /\ metadata_of (ExtractMetadata unparsed_created_with_tag) !! "created_date" =
     Some "2025-01-01"
  /\ re_search CreatedPattern unparsed_created_padded =
     Some {| group0 := "**Created:  not a date **"; groups := [(1, " not a date ")] |}
  /\ metadata_of (ExtractMetadata unparsed_created_padded) !! "created_at" =
     Some "not a date".
Proof. repeat split; vm_compute; reflexivity. Qed.

Lemma metadata_created_unparsed Content m e md :
  re_search CreatedPattern Content = Some m ->
  ParseTimestamp (Py.strip (group_str m 1)) = Raises e ->
  (forall t, In t (re_finditer ContextPattern Content) ->
             Py.lower (group_str t 1) <> "created_at" /\
             Py.lower (group_str t 1) <> "created_date") ->
  ExtractMetadata Content = Returns md ->
  md !! "created_at" = Some (Py.strip (group_str m 1)) /\ md !! "created_date" = None.
Proof.
  intros Hm He Htags Hmd. rewrite ExtractMetadata_run in Hmd.
  inversion Hmd; subst md; clear Hmd.
  split.
  - rewrite doc_number_update_other by discriminate.
    unfold context_update. rewrite tags_absent by (intros t Ht; now apply Htags).
    rewrite stamp_update_other by discriminate.
    unfold stamp_update. rewrite Hm. cbn zeta. rewrite He.
    apply lookup_insert_eq.
  - rewrite doc_number_update_other by discriminate.
    unfold context_update. rewrite tags_absent by (intros t Ht; now apply Htags).
    rewrite stamp_update_other by discriminate.
    unfold stamp_update. rewrite Hm. cbn zeta. rewrite He.
    rewrite lookup_insert_ne by discriminate.
    rewrite title_update_other by discriminate. apply lookup_empty.
Qed.

Lemma flexible_hour_cases :
  flexible_hour (Some "AM") 12 = 0%Z
  /\ flexible_hour (Some "PM") 12 = 12%Z
  /\ (forall h, (h < 12)%Z -> flexible_hour (Some "PM") h = (h + 12)%Z)
  /\ (forall h, h <> 12%Z -> flexible_hour (Some "AM") h = h)
  /\ (forall h, flexible_hour None h = h).
Proof.
  repeat split; try reflexivity.
  - intros h Hh. unfold flexible_hour. simpl.
    destruct (Z.ltb_spec h 12); [reflexivity|lia].
  - intros h Hh. unfold flexible_hour. simpl.
    destruct (Z.eqb_spec h 12); [contradiction|reflexivity].
Qed.

(** C5, amended.  The two dated examples parse to 15 March 2025 and
    ["not a date"] raises ValueError.  When the Created marker matches and
    its value does not parse, the captured text, stripped of surrounding
    white space, is the returned created_at, and created_date is absent,
    provided no context tag has the key created_at or created_date.  The
    stripped text is ASCII, so that the parser reads the digits, the white
    space and the letters that Python's reads.  The flexible parser, which
    takes the texts no template accepts, turns 12 AM into hour 0 and adds
    12 to a PM hour below 12. *)
Theorem timestamp_parsing (Content : string) (m : Match) (e : exn) (md : Metadata) :
  re_search CreatedPattern Content = Some m ->
  Py.isascii (Py.strip (group_str m 1)) = true ->
  ParseTimestamp (Py.strip (group_str m 1)) = Raises e ->
  (forall t, In t (re_finditer ContextPattern Content) ->
             Py.lower (group_str t 1) <> "created_at" /\
             Py.lower (group_str t 1) <> "created_date") ->
  ExtractMetadata Content = Returns md ->
  (ParseTimestamp "March 15, 2025 3:15 PM" = Returns march_15_afternoon
   /\ ParseTimestamp "2025-03-15 15:15" = Returns march_15_afternoon
   /\ strftime_date march_15_afternoon = "2025-03-15")
  /\ ParseTimestamp "not a date" = Raises ValueError
  /\ (md !! "created_at" = Some (Py.strip (group_str m 1)) /\ md !! "created_date" = None)
  /\ (flexible_hour (Some "AM") 12 = 0%Z
      /\ flexible_hour (Some "PM") 12 = 12%Z
      /\ (forall h, (h < 12)%Z -> flexible_hour (Some "PM") h = (h + 12)%Z)
      /\ (forall h, h <> 12%Z -> flexible_hour (Some "AM") h = h)
      /\ (forall h, flexible_hour None h = h))
  /\ (try_formats "March 15 2025 12:05 AM" Formats = None
      /\ ParseTimestamp "March 15 2025 12:05 AM" =
         Returns {| year := 2025; month := 3; day := 15; hour := 0; minute := 5 |}
      /\ ParseTimestamp "March 15 2025 3:15 PM" =
         Returns {| year := 2025; month := 3; day := 15; hour := 15; minute := 15 |}
      /\ ParseTimestamp "March 15 2025 12:15 PM" =
         Returns {| year := 2025; month := 3; day := 15; hour := 12; minute := 15 |}).
Proof.
  intros Hm _ He Htags Hmd.
  split; [repeat split; reflexivity|]. split; [reflexivity|].
  split; [exact (metadata_created_unparsed Content m e md Hm He Htags Hmd)|].
  split; [exact flexible_hour_cases|].
  repeat split; reflexivity.
Qed.

Lemma timestamp_parsing_witness :
  metadata_of (ExtractMetadata "**Created:  not a date **") !! "created_at" =
    Some "not a date"
  /\ metadata_of (ExtractMetadata "**Created:  not a date **") !! "created_date" = None.
Proof.
  refine (proj1 (proj2 (proj2 (timestamp_parsing "**Created:  not a date **"
                  {| group0 := "**Created:  not a date **";
                     groups := [(1, " not a date ")] |}
                  ValueError
                  (metadata_of (ExtractMetadata "**Created:  not a date **")) _ _ _ _ _)))).
  - reflexivity.
  - reflexivity.
  - reflexivity.
  - intros t [].
  - now rewrite ExtractMetadata_run.
Defined.

(** The handler of the [try] block: whatever the block does, the
    dictionary as the block left it is returned. *)
Lemma guarded_returns_the_dictionary (body : M unit) (o : outcome unit) (md : Metadata) :
  body ∅ = (o, md) -> guarded body = Returns md.
Proof. intros H. unfold guarded. rewrite H. now destruct o. Qed.

Lemma ExtractMetadata_body_run Content :
  ExtractMetadata_body Content ∅ =
  (Returns tt, metadata_of (ExtractMetadata Content)).
Proof.
  rewrite ExtractMetadata_run. unfold ExtractMetadata_body, mbind, M_bind.
  rewrite extract_title_run, extract_created_run, extract_modified_run,
    extract_context_run, extract_doc_number_run. reflexivity.
Qed.

Lemma stamp_update_at P at_key date_key Content md m :
  at_key <> date_key -> re_search P Content = Some m ->
  stamp_update P at_key date_key Content md !! at_key = Some (Py.strip (group_str m 1)).
Proof.
  intros Hne Hm. unfold stamp_update. rewrite Hm. cbn zeta.
  destruct (ParseTimestamp _); [rewrite lookup_insert_ne by congruence|];
    apply lookup_insert_eq.
Qed.

Lemma stamp_update_date P at_key date_key Content md m :
  at_key <> date_key -> re_search P Content = Some m ->
  stamp_update P at_key date_key Content md !! date_key =
  match ParseTimestamp (Py.strip (group_str m 1)) with
  | Returns dt => Some (strftime_date dt)
  | Raises _ => md !! date_key
  end.
Proof.
  intros Hne Hm. unfold stamp_update. rewrite Hm. cbn zeta.
  destruct (ParseTimestamp _); [apply lookup_insert_eq|now apply lookup_insert_ne].
Qed.

Lemma tags_keep ms k : forall md,
  is_Some (md !! k) -> is_Some (foldl tag_update md ms !! k).
Proof.
  induction ms as [|m ms IH]; intros md H; [assumption|].
  simpl. apply IH. unfold tag_update.
  destruct (String.eqb_spec (Py.lower (group_str m 1)) k) as [->|Hne].
  - rewrite lookup_insert_eq. now eexists.
  - now rewrite lookup_insert_ne.
Qed.

Lemma tags_present ms md t :
  In t ms -> is_Some (foldl tag_update md ms !! Py.lower (group_str t 1)).
Proof.
  intros Ht. apply in_split in Ht as (ms1 & ms2 & ->).
  rewrite foldl_app. simpl. apply tags_keep.
  unfold tag_update. rewrite lookup_insert_eq. now eexists.
Qed.

(** C9. [ExtractMetadata] returns a dictionary for every content: no
    statement of its [try] block raises, and the dictionary is the one the
    whole block leaves.  A timestamp that does not parse costs its date
    field and nothing else: created_at (modified_at) holds the text of the
    marker whether or not it parses, created_date (modified_date) is the
    date when it parses and is absent when it does not, and the title
    before and the marker and the tags after are read all the same.  A
    field is the one the marker gives where no context tag has its key; the
    stripped text of a timestamp, where its parsing is spoken of, is ASCII,
    and so is the key of a tag.  The handler around the block returns the
    dictionary as the block left it, whatever the block did; this last part
    is about any block in the place of this one. *)
Theorem ExtractMetadata_never_raises (Content : string) :
  exists md,
    ExtractMetadata Content = Returns md
    /\ ExtractMetadata_body Content ∅ = (Returns tt, md)
    /\ (forall m, re_search TitlePattern Content = Some m -> no_tag Content "title" ->
          md !! "title" = Some (Py.strip (group_str m 1)))
    /\ (forall m, re_search CreatedPattern Content = Some m ->
          (no_tag Content "created_at" ->
           md !! "created_at" = Some (Py.strip (group_str m 1)))
          /\ (Py.isascii (Py.strip (group_str m 1)) = true -> no_tag Content "created_date" ->
              md !! "created_date" =
              match ParseTimestamp (Py.strip (group_str m 1)) with
              | Returns dt => Some (strftime_date dt)
              | Raises _ => None
              end))
    /\ (forall m, re_search ModifiedPattern Content = Some m ->
          (no_tag Content "modified_at" ->
           md !! "modified_at" = Some (Py.strip (group_str m 1)))
          /\ (Py.isascii (Py.strip (group_str m 1)) = true -> no_tag Content "modified_date" ->
              md !! "modified_date" =
              match ParseTimestamp (Py.strip (group_str m 1)) with
              | Returns dt => Some (strftime_date dt)
              | Raises _ => None
              end))
    /\ (forall t, In t (re_finditer ContextPattern Content) ->
          Py.isascii (group_str t 1) = true ->
          is_Some (md !! Py.lower (group_str t 1)))
    /\ (forall (body : M unit) o md', body ∅ = (o, md') -> guarded body = Returns md').
Proof.
  eexists. split; [apply ExtractMetadata_run|].
  split; [rewrite ExtractMetadata_body_run, ExtractMetadata_run; reflexivity|].
  split; [|split; [|split; [|split; [|exact guarded_returns_the_dictionary]]]].
  - intros m Hm Htag.
    rewrite doc_number_update_other by discriminate.
    unfold context_update. rewrite tags_absent by exact Htag.
    rewrite !stamp_update_other by discriminate.
    unfold title_update. rewrite Hm. apply lookup_insert_eq.
  - intros m Hm. split.
    + intros Htag. rewrite doc_number_update_other by discriminate.
      unfold context_update. rewrite tags_absent by exact Htag.
      rewrite stamp_update_other by discriminate.
      now apply stamp_update_at.
    + intros _ Htag. rewrite doc_number_update_other by discriminate.
      unfold context_update. rewrite tags_absent by exact Htag.
      rewrite stamp_update_other by discriminate.
      rewrite (stamp_update_date _ _ _ _ _ m) by (discriminate || assumption).
      destruct (ParseTimestamp _); [reflexivity|].
      rewrite title_update_other by discriminate. apply lookup_empty.
  - intros m Hm. split.
    + intros Htag. rewrite doc_number_update_other by discriminate.
      unfold context_update. rewrite tags_absent by exact Htag.
      now apply stamp_update_at.
    + intros _ Htag. rewrite doc_number_update_other by discriminate.
      unfold context_update. rewrite tags_absent by exact Htag.
      rewrite (stamp_update_date _ _ _ _ _ m) by (discriminate || assumption).
      destruct (ParseTimestamp _); [reflexivity|].
      rewrite stamp_update_other by discriminate.
      rewrite title_update_other by discriminate. apply lookup_empty.
  - intros t Ht _. unfold doc_number_update.
    destruct (re_search BareDocIDPattern Content) as [m|].
    + destruct (String.eqb_spec (Py.lower (group_str t 1)) "doc_number") as [->|Hne].
      * rewrite lookup_insert_eq. now eexists.
      * rewrite lookup_insert_ne by congruence. now apply tags_present.
    + now apply tags_present.
Qed.

Lemma ExtractMetadata_never_raises_witness :
  let md := metadata_of (ExtractMetadata header_with_unparsed_created) in
  md !! "title" = Some "Title"
  /\ md !! "created_at" = Some "not a date"
  /\ md !! "created_date" = None
  /\ md !! "modified_at" = Some "2025-03-15 15:15"
  /\ md !! "modified_date" = Some "2025-03-15"
  /\ md !! "status" = Some "Draft".
Proof.
  destruct (ExtractMetadata_never_raises header_with_unparsed_created)
    as (md & E & _ & Htitle & Hcreated & Hmodified & Htags & _).
  rewrite E. cbn [metadata_of].
  assert (Hno : forall k, k <> "status" -> no_tag header_with_unparsed_created k).
  { intros k Hk t [<-|[]] Ek. apply Hk. rewrite <- Ek. reflexivity. }
  split; [|split; [|split; [|split; [|split]]]].
  - apply (Htitle {| group0 := "# Title"; groups := [(1, "Title")] |});
      [reflexivity|apply Hno; discriminate].
  - apply (Hcreated {| group0 := "**Created: not a date**";
                       groups := [(1, "not a date")] |}); [reflexivity|apply Hno; discriminate].
  - apply (proj2 (Hcreated {| group0 := "**Created: not a date**";
                              groups := [(1, "not a date")] |} eq_refl));
      [reflexivity|apply Hno; discriminate].
  - apply (Hmodified {| group0 := "**Last Modified: 2025-03-15 15:15**";
                        groups := [(1, "2025-03-15 15:15")] |});
      [reflexivity|apply Hno; discriminate].
  - apply (proj2 (Hmodified {| group0 := "**Last Modified: 2025-03-15 15:15**";
                               groups := [(1, "2025-03-15 15:15")] |} eq_refl));
      [reflexivity|apply Hno; discriminate].
  - inversion E. vm_compute. reflexivity.
Defined.

(** ** Document identifiers from file names: claims *)

Lemma rep_greedy_times {A} p w n : forall prev rest cs (k : @cont A),
  Py.len w = n -> all_in p w = true ->
  rep_greedy p n (Some n) prev (w +:+ rest) cs k = k (last_char prev w) rest cs.
Proof.
  revert n. induction w as [|c w IH]; intros n prev rest cs k <- Hall.
  - simpl. destruct rest; reflexivity.
  - simpl in Hall. apply andb_true_iff in Hall as [Hc Hall].
    rewrite app_cons. simpl. rewrite Hc. simpl. rewrite IH by auto.
    now destruct (k _ _ _).
Qed.

(** The identifier group [(\d{2}-\d{2})] takes an identifier, and nothing
    else. *)
Lemma docid_group_intro {A} id : forall prev rest cs (k : @cont A),
  is_docid id ->
  exists prev',
    rmatch (Grp 1 DocIDShape) prev (id +:+ rest) cs k = k prev' rest ((1, id) :: cs).
Proof.
  intros prev rest cs k (a & b & -> & [La Ha] & [Lb Hb]).
  unfold DocIDShape, Times. cbn [rmatch].
  rewrite !app_assoc.
  rewrite (rep_greedy_times digit a 2) by assumption. simpl String.append. cbn match.
  rewrite Ascii.eqb_refl.
  rewrite (rep_greedy_times digit b 2) by assumption.
  eexists. f_equal. do 2 f_equal. apply take_group. str_norm.
Qed.

(** A pattern that begins with [^] matches at the start of the text only. *)
Lemma search_from_Bos r c s : search_from (Bos >>> r) (Some c) s = None.
Proof. revert c. induction s as [|c' s IH]; intros c; simpl; [reflexivity|apply IH]. Qed.

Lemma re_search_Bos r s : re_search (Bos >>> r) s = match_at (Bos >>> r) None s.
Proof.
  unfold re_search. destruct s as [|c s]; simpl.
  - now destruct (match_at _ _ _).
  - destruct (match_at _ _ _); [reflexivity|apply search_from_Bos].
Qed.

Lemma rmatch_seq {A} r1 r2 prev s cs (k : @cont A) :
  rmatch (r1 >>> r2) prev s cs k =
  rmatch r1 prev s cs (fun prev' s' cs' => rmatch r2 prev' s' cs' k).
Proof. reflexivity. Qed.

Lemma rmatch_chr {A} c prev s cs (k : @cont A) :
  rmatch (Chr c) prev (String c s) cs k = k (Some c) s cs.
Proof. simpl. now rewrite Ascii.eqb_refl. Qed.

Lemma rmatch_bos {A} s cs (k : @cont A) : rmatch Bos None s cs k = k None s cs.
Proof. reflexivity. Qed.

Ltac docid_group Hid :=
  match goal with
  | |- context [rmatch (Grp 1 DocIDShape) ?prev (?id +:+ ?rest) ?cs ?k] =>
      let prev' := fresh "prev" in
      destruct (docid_group_intro id prev rest cs k Hid) as [prev' ->]
  end.

Lemma prefix_pattern_matches id sep rest :
  is_docid id -> one_of "- _" sep = true ->
  re_search PrefixPattern (id +:+ String sep rest) =
  Some {| group0 := id +:+ String sep ""; groups := [(1, id)] |}.
Proof.
  intros Hid Hsep. unfold PrefixPattern. rewrite re_search_Bos.
  unfold match_at. rewrite rmatch_seq, rmatch_bos, rmatch_seq. docid_group Hid.
  cbn [rmatch]. rewrite Hsep. do 2 f_equal. apply take_group. str_norm.
Qed.

Lemma stem_pattern_matches id :
  is_docid id ->
  re_search PrefixPattern (id +:+ ".md") = None /\
  re_search StemPattern (id +:+ ".md") =
  Some {| group0 := id +:+ ".md"; groups := [(1, id)] |}.
Proof.
  intros Hid. unfold PrefixPattern, StemPattern. rewrite !re_search_Bos.
  unfold match_at. rewrite !rmatch_seq, !rmatch_bos, !rmatch_seq. split.
  - docid_group Hid. reflexivity.
  - docid_group Hid. cbn [rmatch Lit]. simpl. do 2 f_equal.
    rewrite Nat.sub_0_r. rewrite <- (app_nil_r (id +:+ ".md")) at 2. apply take_app.
Qed.

(** An identifier with its extension, possibly followed by a final
    newline, is not a longer name that ends in [-DD-DD.md]. *)
Lemma suffix_is_final stem id a b tail :
  is_docid id -> digits 2 a -> digits 2 b -> tail = "" \/ tail = newline ->
  stem +:+ "-" +:+ id +:+ ".md" = a +:+ "-" +:+ b +:+ ".md" +:+ tail -> False.
Proof.
  intros Hid [La Ha] [Lb Hb] Htail E.
  pose proof (f_equal Py.len E) as HL. rewrite !len_app, (docid_len id Hid) in HL.
  destruct a as [|x a]; [discriminate|]. simpl in Ha.
  apply andb_true_iff in Ha as [Hx _].
  destruct stem as [|c stem].
  - simpl in E. inversion E; subst. discriminate.
  - unfold newline in Htail. destruct Htail as [-> | ->]; simpl in HL, La, Lb; lia.
Qed.

Ltac eos_step E :=
  match type of E with
  | match ?s with EmptyString => _ | String _ _ => _ end = Some _ =>
      let c := fresh "c" in
      destruct s as [|c [|? ?]];
      [ | destruct (Ascii.eqb_spec c "010") as [->|]; [|discriminate E]
        | discriminate E ]
  end.

Lemma suffix_pattern_inv prev s m :
  match_at SuffixPattern prev s = Some m ->
  exists a b tail,
    digits 2 a /\ digits 2 b /\ (tail = "" \/ tail = newline) /\
    s = "-" +:+ a +:+ "-" +:+ b +:+ ".md" +:+ tail.
Proof.
  unfold match_at, SuffixPattern, DocIDShape, Times. cbn [rmatch Lit]. intros E.
  chr_step E. rep_step E as a r1. chr_step E. rep_step E as b r2.
  do 3 chr_step E. simpl in Hhi, Hhi0.
  eos_step E.
  - exists a, b, "". repeat split; auto; try lia.
  - exists a, b, newline. repeat split; auto; try lia.
Qed.

Lemma stem_pattern_inv s m :
  match_at StemPattern None s = Some m ->
  exists a b tail,
    digits 2 a /\ digits 2 b /\ (tail = "" \/ tail = newline) /\
    s = a +:+ "-" +:+ b +:+ ".md" +:+ tail.
Proof.
  unfold match_at, StemPattern, DocIDShape, Times. cbn [rmatch Lit]. intros E.
  rep_step E as a r1. chr_step E. rep_step E as b r2.
  do 3 chr_step E. simpl in Hhi, Hhi0.
  eos_step E.
  - exists a, b, "". repeat split; auto; try lia.
  - exists a, b, newline. repeat split; auto; try lia.
Qed.

Lemma stem_pattern_fails stem id :
  is_docid id -> re_search StemPattern (stem +:+ "-" +:+ id +:+ ".md") = None.
Proof.
  intros Hid. unfold StemPattern at 1. rewrite re_search_Bos.
  fold StemPattern. destruct (match_at _ _ _) as [m|] eqn:E; [|reflexivity].
  destruct (stem_pattern_inv _ _ E) as (a & b & tail & Ha & Hb & Htail & Hs).
  exfalso. apply (suffix_is_final (stem) id a b tail); assumption.
Qed.

Lemma suffix_pattern_matches stem id : forall prev,
  is_docid id ->
  search_from SuffixPattern prev (stem +:+ "-" +:+ id +:+ ".md") =
  Some {| group0 := "-" +:+ id +:+ ".md"; groups := [(1, id)] |}.
Proof.
  induction stem as [|c stem IH]; intros prev Hid.
  - simpl String.append. unfold search_from.
    assert (E : match_at SuffixPattern prev (String "-" (id +:+ ".md")) =
                Some {| group0 := "-" +:+ id +:+ ".md"; groups := [(1, id)] |}).
    { unfold match_at, SuffixPattern. rewrite rmatch_seq, rmatch_chr, rmatch_seq.
      docid_group Hid.
      cbn [rmatch Lit]. simpl. do 3 f_equal.
      rewrite <- (app_nil_r (id +:+ ".md")) at 2. now rewrite take_app. }
    now rewrite E.
  - rewrite app_cons. cbn [search_from].
    destruct (match_at SuffixPattern prev _) as [m|] eqn:E; [|now apply IH].
    destruct (suffix_pattern_inv _ _ _ E) as (a & b & tail & Ha & Hb & Htail & Hs).
    exfalso. simpl in Hs. inversion Hs as [[Hc Hs']].
    apply (suffix_is_final stem id a b tail); assumption.
Qed.

Lemma prefix_pattern_inv s m :
  match_at PrefixPattern None s = Some m ->
  has_prefix_shape s (group_str m 1).
Proof.
  unfold match_at, PrefixPattern, DocIDShape, Times. cbn [rmatch]. intros E.
  rep_step E as a r1. chr_step E. rep_step E as b r2. cls_step E Hc.
  take_is (a +:+ "-" +:+ b) E. inversion E. unfold group_str. simpl.
  split.
  - exists a, b. simpl in *. repeat split; try assumption; lia.
  - exists c, r2. split; [assumption|]. now rewrite !app_assoc.
Qed.

Lemma search_from_at r s : forall prev m,
  search_from r prev s = Some m ->
  exists prev' pre s', s = pre +:+ s' /\ match_at r prev' s' = Some m.
Proof.
  induction s as [|c s IH]; intros prev m E; simpl in E.
  - destruct (match_at r prev "") eqn:E0; [|discriminate]. inversion E; subst.
    now exists prev, "", "".
  - destruct (match_at r prev (String c s)) eqn:E0.
    + inversion E; subst. now exists prev, "", (String c s).
    + apply IH in E as (prev' & pre & s' & -> & E). now exists prev', (String c pre), s'.
Qed.

Lemma no_newline_tail w tail :
  Py.has_char "010"%char (w +:+ tail) = false -> tail = "" \/ tail = newline -> tail = "".
Proof.
  intros H [->| ->]; [reflexivity|]. rewrite has_char_app in H.
  apply orb_false_iff in H as [_ H]. discriminate.
Qed.

(** A name from which an identifier is read has one of the three shapes. *)
Lemma GetDocumentID_shapes Filename :
  Py.has_char "010"%char Filename = false ->
  GetDocumentID Filename <> "" ->
  has_prefix_shape Filename (GetDocumentID Filename)
  \/ has_stem_shape Filename (GetDocumentID Filename)
  \/ has_suffix_shape Filename (GetDocumentID Filename).
Proof.
  intros Hnl. unfold GetDocumentID, Patterns, first_search.
  destruct (re_search PrefixPattern Filename) as [m|] eqn:E1.
  { intros _. left. unfold PrefixPattern in E1. rewrite re_search_Bos in E1.
    now apply prefix_pattern_inv. }
  destruct (re_search StemPattern Filename) as [m|] eqn:E2.
  { intros _. right. left. pose proof E2 as E2'.
    unfold StemPattern in E2' at 1. rewrite re_search_Bos in E2'. fold StemPattern in E2'.
    destruct (stem_pattern_inv _ _ E2') as (a & b & tail & Ha & Hb & Htail & ->).
    assert (tail = "") as ->.
    { apply (no_newline_tail (a +:+ "-" +:+ b +:+ ".md")); [|assumption].
      now rewrite !app_assoc. }
    assert (Hid : is_docid (a +:+ "-" +:+ b)) by now exists a, b.
    assert (EF : a +:+ "-" +:+ b +:+ ".md" +:+ "" = (a +:+ "-" +:+ b) +:+ ".md")
      by (now rewrite !app_assoc, app_nil_r).
    rewrite EF in E2 |- *. destruct (stem_pattern_matches _ Hid) as [_ Hs].
    rewrite Hs in E2. inversion E2. now split. }
  destruct (re_search SuffixPattern Filename) as [m|] eqn:E3; [|congruence].
  intros _. right. right. unfold re_search in E3. pose proof E3 as E3'.
  apply search_from_at in E3' as (prev & pre & s' & -> & E).
  destruct (suffix_pattern_inv _ _ _ E) as (a & b & tail & Ha & Hb & Htail & ->).
  assert (tail = "") as ->.
  { apply (no_newline_tail (pre +:+ "-" +:+ a +:+ "-" +:+ b +:+ ".md")); [|assumption].
    now rewrite !app_assoc. }
  assert (Hid : is_docid (a +:+ "-" +:+ b)) by now exists a, b.
  assert (EF : pre +:+ "-" +:+ a +:+ "-" +:+ b +:+ ".md" +:+ "" =
               pre +:+ "-" +:+ (a +:+ "-" +:+ b) +:+ ".md")
    by (now rewrite !app_assoc, app_nil_r).
  rewrite EF in E3 |- *. rewrite suffix_pattern_matches in E3 by assumption.
  inversion E3. split; [assumption|]. now exists pre.
Qed.

(** C6, as stated, fails: the identifier that is the whole stem of a name
    is read only before the extension [.md], and the identifier at the end
    of a stem only after a hyphen.  Neither name below gives one. *)
Lemma GetDocumentID_asks_for_md_and_a_hyphen :
  spec_stem_shape "10-20.txt" "10-20" /\ GetDocumentID "10-20.txt" = ""
  /\ spec_suffix_shape "Vision_10-20.md" "10-20" /\ GetDocumentID "Vision_10-20.md" = "".
Proof.
  assert (Hid : is_docid "10-20") by (exists "10", "20"; repeat split; reflexivity).
  split; [split; [exact Hid|reflexivity]|]. split; [reflexivity|].
  split; [split; [exact Hid|now exists "Vision_"]|reflexivity].
Qed.

(** C6, amended.  [GetDocumentID] tries the three patterns in order and
    returns the identifier of the first that matches: (a) a name that
    starts with DD-DD and a hyphen, a space or an underscore gives its two
    leading groups, whatever follows; (b) the name DD-DD.md gives DD-DD;
    (c) a name that ends in -DD-DD.md gives that DD-DD unless (a) applies;
    a name of none of these shapes gives the empty string.  In (c) and in
    the last part the characters of the name all stand before U+0660, so
    that the digits of the patterns are 0-9 as they are in the shapes; in
    the last part the name holds no newline, before which the [$] of the
    patterns matches as it does at the end. *)
Theorem GetDocumentID_first_pattern_wins :
  (forall Filename id, has_prefix_shape Filename id -> GetDocumentID Filename = id)
  /\ (forall Filename id, has_stem_shape Filename id -> GetDocumentID Filename = id)
  /\ (forall Filename id,
        has_suffix_shape Filename id -> below_0660 Filename = true ->
        (forall id', ~ has_prefix_shape Filename id') ->
        GetDocumentID Filename = id)
  /\ (forall Filename,
        below_0660 Filename = true -> Py.has_char "010"%char Filename = false ->
        (forall id, ~ has_prefix_shape Filename id) ->
        (forall id, ~ has_stem_shape Filename id) ->
        (forall id, ~ has_suffix_shape Filename id) ->
        GetDocumentID Filename = "").
Proof.
  split; [|split; [|split]].
  - intros Filename id (Hid & sep & rest & Hsep & ->).
    unfold GetDocumentID, Patterns, first_search.
    now rewrite prefix_pattern_matches.
  - intros Filename id (Hid & ->). unfold GetDocumentID, Patterns, first_search.
    destruct (stem_pattern_matches id Hid) as [-> ->]. reflexivity.
  - intros Filename id (Hid & stem & ->) _ Hprefix.
    unfold GetDocumentID, Patterns, first_search.
    destruct (re_search PrefixPattern _) as [m|] eqn:E.
    { exfalso. unfold PrefixPattern in E. rewrite re_search_Bos in E.
      exact (Hprefix _ (prefix_pattern_inv _ _ E)). }
    rewrite stem_pattern_fails by assumption.
    unfold re_search. now rewrite suffix_pattern_matches.
  - intros Filename _ Hnl Ha Hb Hc.
    destruct (String.eqb_spec (GetDocumentID Filename) "") as [E|Hne]; [exact E|].
    exfalso. destruct (GetDocumentID_shapes Filename Hnl Hne) as [H|[H|H]].
    + exact (Ha _ H).
    + exact (Hb _ H).
    + exact (Hc _ H).
Qed.

Lemma GetDocumentID_first_pattern_wins_witness :
  GetDocumentID "10-20-Vision-30-40.md" = "10-20"
  /\ GetDocumentID "10-20.md" = "10-20"
  /\ GetDocumentID "Vision-10-20.md" = "10-20".
Proof.
  assert (Hid : is_docid "10-20") by (exists "10", "20"; repeat split; reflexivity).
  destruct GetDocumentID_first_pattern_wins as (Ha & Hb & Hc & _).
  split; [|split].
  - apply Ha. split; [exact Hid|]. now exists "-"%char, "Vision-30-40.md".
  - apply Hb. now split.
  - apply Hc; [split; [exact Hid|now exists "Vision"]|reflexivity|].
    intros id' (Hid' & sep & rest & _ & E).
    destruct Hid' as (a & b & -> & [La Ha'] & _).
    destruct a as [|x a]; [discriminate|]. simpl in E. inversion E; subst x.
    simpl in Ha'. discriminate.
Defined.


(** * Part III, continued: the rest of the conversion core *)

(** ** Scanning with a bracketed pattern *)

Section BracketedFind.
Variable r : regex.
Variable G : string -> Prop.
Variable caps : string -> captures.

Hypothesis G_open : forall body, G body -> Py.has_char "["%char body = false.
Hypothesis r_sound : forall prev s m,
  match_at r prev s = Some m ->
  exists body rest, s = bracket body +:+ rest /\ G body /\ m = bracket_match caps body.
Hypothesis r_complete : forall prev body rest,
  G body -> match_at r prev (bracket body +:+ rest) = Some (bracket_match caps body).

Lemma finditer_from_any_prev s : forall prev prev' skip,
  finditer_from r prev skip s = finditer_from r prev' skip s.
Proof.
  induction s as [|c s IH]; intros prev prev' skip; [reflexivity|].
  simpl. destruct skip as [|k]; [|apply IH].
  rewrite (match_prev r G caps r_sound r_complete prev prev'). reflexivity.
Qed.

Lemma finditer_from_pass w s : forall prev,
  finditer_from r prev (Py.len w) (w +:+ s) = finditer_from r None 0 s.
Proof.
  induction w as [|c w IH]; intros prev; simpl.
  - destruct s; [reflexivity|]. apply finditer_from_any_prev.
  - apply IH.
Qed.

(** No match reaches across an opening bracket. *)
Lemma finditer_from_split a b : forall prev skip,
  skip <= Py.len a ->
  finditer_from r prev skip (a +:+ String "["%char b) =
  finditer_from r prev skip a ++ finditer_from r None 0 (String "["%char b).
Proof.
  induction a as [|c a IH]; intros prev skip Hskip.
  - simpl in Hskip. assert (skip = 0) as -> by lia.
    change ("" +:+ String "[" b) with (String "[" b).
    simpl. rewrite (match_prev r G caps r_sound r_complete prev None). reflexivity.
  - rewrite app_cons. simpl. destruct skip as [|k].
    + destruct (match_at r prev (String c (a +:+ String "[" b))) as [m|] eqn:E.
      * rewrite <- app_cons in E.
        apply (match_restrict r G caps G_open r_sound r_complete) in E. rewrite E.
        destruct (r_sound _ _ _ E) as (body & rest & Hs & _ & ->).
        simpl. f_equal. apply IH.
        assert (Py.len (String c a) = Py.len (bracket body +:+ rest)) as HL
          by now rewrite Hs.
        rewrite len_app, len_bracket in HL. simpl in HL.
        rewrite len_app. simpl. lia.
      * destruct (match_at r prev (String c a)) as [m|] eqn:E'.
        { apply (match_extend r G caps r_sound r_complete _ _ (String "[" b)) in E'.
          rewrite app_cons in E'. congruence. }
        apply IH. lia.
    + apply IH. simpl in Hskip. lia.
Qed.

Lemma re_finditer_split a b :
  re_finditer r (a +:+ String "["%char b) =
  re_finditer r a ++ re_finditer r (String "["%char b).
Proof. unfold re_finditer. apply finditer_from_split. lia. Qed.

Lemma re_finditer_hit body rest :
  G body ->
  re_finditer r (bracket body +:+ rest) = bracket_match caps body :: re_finditer r rest.
Proof.
  intros HG. unfold re_finditer, bracket at 1. simpl.
  pose proof (r_complete None body rest HG) as E.
  unfold bracket at 1 in E. simpl in E. rewrite E.
  f_equal. change (group0 (bracket_match caps body)) with (bracket body).
  rewrite len_bracket.
  replace (S (S (Py.len body)) - 1) with (Py.len (body +:+ "]"))
    by (rewrite len_app; simpl; lia).
  apply finditer_from_pass.
Qed.

(** A reference that occurs in the text is found by the scan. *)
Lemma re_finditer_occurs body s :
  G body -> occurs (bracket body) s -> In (bracket_match caps body) (re_finditer r s).
Proof.
  intros HG (pre & post & ->). unfold bracket at 1. rewrite app_cons.
  rewrite re_finditer_split. apply in_or_app. right.
  change (String "[" ((body +:+ "]") +:+ post)) with (bracket body +:+ post).
  rewrite re_finditer_hit by assumption. now left.
Qed.

(** What the scan finds is a reference that occurs in the text. *)
Lemma finditer_from_sound s : forall prev skip m,
  In m (finditer_from r prev skip s) ->
  exists body, G body /\ m = bracket_match caps body /\ occurs (bracket body) s.
Proof.
  induction s as [|c s IH]; intros prev skip m Hm; [destruct Hm|].
  assert (Hlater : forall prev' skip', In m (finditer_from r prev' skip' s) ->
            exists body, G body /\ m = bracket_match caps body /\
                         occurs (bracket body) (String c s)).
  { intros prev' skip' H. destruct (IH _ _ _ H) as (body & HG & -> & pre & post & ->).
    exists body. repeat split; [assumption|]. now exists (String c pre), post. }
  simpl in Hm. destruct skip as [|k]; [|now apply (Hlater (Some c) k)].
  destruct (match_at r prev (String c s)) as [m'|] eqn:E; [|now apply (Hlater (Some c) 0)].
  destruct Hm as [<-|Hm]; [|now apply (Hlater (Some c) (Py.len (group0 m') - 1))].
  destruct (r_sound _ _ _ E) as (body & rest & Hs & HG & ->).
  exists body. repeat split; [assumption|]. exists "", rest. now rewrite Hs.
Qed.

Lemma re_finditer_sound s m :
  In m (re_finditer r s) ->
  exists body, G body /\ m = bracket_match caps body /\ occurs (bracket body) s.
Proof. apply finditer_from_sound. Qed.
End BracketedFind.

(** ** The reference index *)

Lemma list_has_In l x : list_has l x = true <-> In x l.
Proof.
  unfold list_has. rewrite existsb_exists. split.
  - intros (y & Hy & E). apply String.eqb_eq in E. now subst.
  - intros H. exists x. split; [assumption|apply String.eqb_refl].
Qed.

Lemma append_new_In l x y : In y (append_new l x) <-> In y l \/ y = x.
Proof.
  unfold append_new. destruct (list_has l x) eqn:E.
  - apply list_has_In in E. split; [now left|]. intros [H| ->]; assumption.
  - rewrite in_app_iff. simpl. intuition congruence.
Qed.

Lemma append_new_NoDup l x : NoDup l -> NoDup (append_new l x).
Proof.
  intros H. unfold append_new. destruct (list_has l x) eqn:E; [assumption|].
  apply NoDup_app. repeat split; [assumption| |apply NoDup_singleton].
  intros y Hy Hx. apply list_elem_of_singleton in Hx. subst y.
  apply list_elem_of_In, list_has_In in Hy. congruence.
Qed.

(** The loop [for m in ms: if f(m) not in l: l.append(f(m))]. *)
Lemma collect_In (f : Match -> string) ms : forall l y,
  In y (foldl (fun l m => append_new l (f m)) l ms) <->
  In y l \/ exists m, In m ms /\ f m = y.
Proof.
  induction ms as [|m ms IH]; intros l y; simpl.
  - split; [now left|]. intros [H|(m & [] & _)]. assumption.
  - rewrite IH, append_new_In. split.
    + intros [[H| ->]|(m' & Hm' & E)]; [now left|right; exists m; auto|].
      right. exists m'. auto.
    + intros [H|(m' & [<-|Hm'] & E)]; [now left; left|left; right; congruence|].
      right. now exists m'.
Qed.

Lemma collect_NoDup (f : Match -> string) ms : forall l,
  NoDup l -> NoDup (foldl (fun l m => append_new l (f m)) l ms).
Proof.
  induction ms as [|m ms IH]; intros l H; simpl; [assumption|].
  apply IH. now apply append_new_NoDup.
Qed.

(** The three lists of [ExtractReferences], each as one loop. *)
Lemma add_document_fold ms : forall Refs,
  foldl add_document Refs ms =
  {| documents := foldl (fun l m => append_new l (group_str m 1)) (documents Refs) ms;
     sections := sections Refs;
     decisions := decisions Refs |}.
Proof.
  induction ms as [|m ms IH]; intros Refs; simpl; [now destruct Refs|].
  now rewrite IH.
Qed.

Lemma add_section_fold ms : forall Refs,
  foldl add_section Refs ms =
  {| documents := foldl (fun l m => append_new l (group_str m 1)) (documents Refs) ms;
     sections :=
       foldl (fun l m => append_new l (group_str m 1 +:+ " §" +:+ group_str m 2))
         (sections Refs) ms;
     decisions := decisions Refs |}.
Proof.
  induction ms as [|m ms IH]; intros Refs; simpl; [now destruct Refs|].
  now rewrite IH.
Qed.

Lemma add_decision_fold ms : forall Refs,
  foldl add_decision Refs ms =
  {| documents := documents Refs;
     sections := sections Refs;
     decisions := foldl (fun l m => append_new l (group_str m 1)) (decisions Refs) ms |}.
Proof.
  induction ms as [|m ms IH]; intros Refs; simpl; [now destruct Refs|].
  now rewrite IH.
Qed.

Lemma ExtractReferences_lists Content :
  ExtractReferences Content =
  {| documents :=
       foldl (fun l m => append_new l (group_str m 1))
         (foldl (fun l m => append_new l (group_str m 1)) []
            (re_finditer DocRefPattern Content))
         (re_finditer SectionRefPattern Content);
     sections :=
       foldl (fun l m => append_new l (group_str m 1 +:+ " §" +:+ group_str m 2)) []
         (re_finditer SectionRefPattern Content);
     decisions :=
       foldl (fun l m => append_new l (group_str m 1)) []
         (re_finditer DecisionRefPattern Content) |}.
Proof.
  unfold ExtractReferences.
  now rewrite add_document_fold, add_section_fold, add_decision_fold.
Qed.

(** The groups of a section reference. *)
Lemma section_groups id sec :
  is_docid id ->
  group_str (bracket_match section_caps (id +:+ " §" +:+ sec)) 1 = id /\
  group_str (bracket_match section_caps (id +:+ " §" +:+ sec)) 2 = sec.
Proof.
  intros Hid. unfold group_str.
  cbn [group bracket_match section_caps assoc groups Nat.eqb from_option group0].
  unfold Datatypes.id. split.
  - rewrite <- (docid_len id Hid). apply take_app.
  - replace 8 with (Py.len (id +:+ " §")) by (rewrite len_app, (docid_len id Hid); reflexivity).
    rewrite <- (app_assoc _ " §"). apply drop_app.
Qed.

Lemma document_listed Content id :
  In id (documents (ExtractReferences Content)) <->
  is_docid id /\
  (occurs (bracket id) Content \/
   exists sec, is_section sec /\ occurs (bracket (id +:+ " §" +:+ sec)) Content).
Proof.
  rewrite ExtractReferences_lists. cbn [documents]. rewrite !collect_In. split.
  - intros [[[]|(m & Hm & E)]|(m & Hm & E)].
    + apply (re_finditer_sound _ _ _ DocRef_sound) in Hm as (body & HG & -> & Ho).
      unfold group_str in E. simpl in E. subst body. auto.
    + apply (re_finditer_sound _ _ _ SectionRef_sound) in Hm
        as (body & (id' & sec & -> & Hid & Hsec) & -> & Ho).
      rewrite (proj1 (section_groups id' sec Hid)) in E. subst id'.
      split; [assumption|]. right. now exists sec.
  - intros (Hid & [Ho|(sec & Hsec & Ho)]).
    + left. right. exists (bracket_match doc_caps id). split; [|reflexivity].
      now apply (re_finditer_occurs _ _ _ docid_open DocRef_sound DocRef_complete).
    + right. exists (bracket_match section_caps (id +:+ " §" +:+ sec)).
      split; [|now apply section_groups].
      apply (re_finditer_occurs _ _ _ section_body_open SectionRef_sound SectionRef_complete);
        [now exists id, sec|assumption].
Qed.

Lemma section_listed Content s :
  In s (sections (ExtractReferences Content)) <->
  is_section_body s /\ occurs (bracket s) Content.
Proof.
  rewrite ExtractReferences_lists. cbn [sections]. rewrite collect_In. split.
  - intros [[]|(m & Hm & E)].
    apply (re_finditer_sound _ _ _ SectionRef_sound) in Hm
      as (body & (id & sec & -> & Hid & Hsec) & -> & Ho).
    destruct (section_groups id sec Hid) as [E1 E2]. rewrite E1, E2 in E. subst s.
    split; [now exists id, sec|assumption].
  - intros ((id & sec & -> & Hid & Hsec) & Ho). right.
    exists (bracket_match section_caps (id +:+ " §" +:+ sec)). split.
    + apply (re_finditer_occurs _ _ _ section_body_open SectionRef_sound SectionRef_complete);
        [now exists id, sec|assumption].
    + destruct (section_groups id sec Hid) as [-> ->]. reflexivity.
Qed.

Lemma decision_listed Content D :
  In D (decisions (ExtractReferences Content)) <->
  is_decision D /\ occurs (bracket D) Content.
Proof.
  rewrite ExtractReferences_lists. cbn [decisions]. rewrite collect_In. split.
  - intros [[]|(m & Hm & E)].
    apply (re_finditer_sound _ _ _ DecisionRef_sound) in Hm as (body & HG & -> & Ho).
    unfold group_str in E. simpl in E. subst body. auto.
  - intros (HD & Ho). right. exists (bracket_match doc_caps D). split; [|reflexivity].
    now apply (re_finditer_occurs _ _ _ decision_open DecisionRef_sound DecisionRef_complete).
Qed.

(** X1. [ExtractReferences] lists exactly the references of the text: an
    identifier is under documents when it is a [DD-DD] that occurs as
    [[DD-DD]] or inside some [[DD-DD §N.N]]; a text is under sections when
    it is a [DD-DD §N.N] that occurs between brackets; an identifier is
    under decisions when it is a [DECISION-YYYYMMDD-N] that occurs between
    brackets.  The characters of the text all stand before U+0660, so that
    the digits of the patterns are 0-9 as they are in these shapes. *)
Theorem ExtractReferences_lists_the_references (Content : string) :
  below_0660 Content = true ->
  (forall id,
     In id (documents (ExtractReferences Content)) <->
     is_docid id /\
     (occurs (bracket id) Content \/
      exists sec, is_section sec /\ occurs (bracket (id +:+ " §" +:+ sec)) Content))
  /\ (forall s,
        In s (sections (ExtractReferences Content)) <->
        is_section_body s /\ occurs (bracket s) Content)
  /\ (forall D,
        In D (decisions (ExtractReferences Content)) <->
        is_decision D /\ occurs (bracket D) Content).
Proof.
  intros _. split; [|split]; intros x;
    [apply document_listed|apply section_listed|apply decision_listed].
Qed.

Lemma ExtractReferences_lists_the_references_witness :
  In "11-22" (documents (ExtractReferences "see [10-20] and [11-22 §1.2]"))
  /\ In "11-22 §1.2" (sections (ExtractReferences "see [10-20] and [11-22 §1.2]")).
Proof.
  destruct (ExtractReferences_lists_the_references "see [10-20] and [11-22 §1.2]" eq_refl)
    as (Hdoc & Hsec & _).
  assert (Hid : is_docid "11-22") by (exists "11", "22"; repeat split; reflexivity).
  assert (Hs : is_section "1.2")
    by (exists "1", "2"; repeat split; simpl; lia || reflexivity).
  split.
  - apply Hdoc. split; [exact Hid|]. right. exists "1.2". split; [exact Hs|].
    now exists "see [10-20] and ", "".
  - apply Hsec. split; [now exists "11-22", "1.2"|]. now exists "see [10-20] and ", "".
Defined.

(** X2. No list of [ExtractReferences] holds an entry twice, and the
    document of every listed section reference is itself listed. *)
Theorem ExtractReferences_lists_each_reference_once (Content : string) :
  NoDup (documents (ExtractReferences Content))
  /\ NoDup (sections (ExtractReferences Content))
  /\ NoDup (decisions (ExtractReferences Content))
  /\ (forall id sec,
        is_docid id ->
        In (id +:+ " §" +:+ sec) (sections (ExtractReferences Content)) ->
        In id (documents (ExtractReferences Content))).
Proof.
  rewrite ExtractReferences_lists. cbn [documents sections decisions].
  repeat split; try (repeat apply collect_NoDup; constructor).
  intros id sec Hid. rewrite !collect_In.
  intros [[]|(m & Hm & E)]. right. exists m. split; [assumption|].
  pose proof Hm as Hm'.
  apply (re_finditer_sound _ _ _ SectionRef_sound) in Hm'
    as (body & (id' & sec' & -> & Hid' & Hsec') & -> & _).
  destruct (section_groups id' sec' Hid') as [E1 E2]. rewrite E1, E2 in E. rewrite E1.
  pose proof (f_equal (Py.take_str 5) E) as E5.
  rewrite <- (docid_len id Hid) in E5 at 2. rewrite take_app in E5.
  rewrite <- (docid_len id' Hid') in E5. rewrite take_app in E5. assumption.
Qed.

(** ** The matcher reads forward *)

Section Forward.
Context {A : Type}.
Implicit Types (k : @cont A) (p : ascii -> bool).

Lemma rep_lazy_inv p s : forall lo hi prev cs k x,
  rep_lazy p lo hi prev s cs k = Some x ->
  exists w rest,
    s = w +:+ rest /\ lo <= Py.len w /\ bounded hi (Py.len w) /\
    all_in p w = true /\ k (last_char prev w) rest cs = Some x.
Proof.
  induction s as [|c s IH]; intros lo hi prev cs k x E; simpl in E.
  - destruct lo; [|discriminate]. destruct (k prev "" cs) eqn:Ek; [|discriminate].
    simpl in E. exists "", "". simpl.
    repeat split; [lia|destruct hi; simpl; lia|congruence].
  - assert (Hstep :
      (if more hi && p c then rep_lazy p (Nat.pred lo) (dec hi) (Some c) s cs k else None)
        = Some x ->
      exists w rest, String c s = w +:+ rest /\ lo <= Py.len w /\
        bounded hi (Py.len w) /\ all_in p w = true /\
        k (last_char prev w) rest cs = Some x).
    { intros E'. destruct (more hi && p c) eqn:Hm; [|discriminate].
      apply andb_true_iff in Hm as [Hhi Hp].
      destruct (IH _ _ _ _ _ _ E') as (w & rest & -> & Hlo & Hb & Hall & Hk).
      exists (String c w), rest. simpl. rewrite Hp, Hall.
      repeat split; [lia| |assumption].
      destruct hi as [[|h]|]; simpl in *; [discriminate|lia|exact I]. }
    destruct lo; [|now apply Hstep].
    destruct (k prev (String c s) cs) as [y|] eqn:Ek; [|now apply Hstep].
    simpl in E. exists "", (String c s). simpl.
    repeat split; [lia|destruct hi; simpl; lia|congruence].
Qed.

(** Whatever a pattern reads is a piece [w] at the cursor, and the
    continuation goes on with the rest; a pattern that is [nonempty] reads
    at least one character. *)
Lemma rmatch_forward r : forall prev s cs k x,
  rmatch r prev s cs k = Some x ->
  exists w rest prev' cs',
    s = w +:+ rest /\ (nonempty r = true -> 1 <= Py.len w) /\
    k prev' rest cs' = Some x.
Proof.
  induction r as [|c|p|r1 IH1 r2 IH2|r1 IH1 r2 IH2|r1 IH1|g lo hi p|n r1 IH1| | | |];
    intros prev s cs k x E; cbn [rmatch] in E.
  - exists "", s, prev, cs. repeat split; [discriminate|assumption].
  - destruct s as [|c' s]; [discriminate|]. destruct (Ascii.eqb c c'); [|discriminate].
    exists (String c' ""), s, (Some c'), cs. repeat split; [simpl; lia|assumption].
  - destruct s as [|c' s]; [discriminate|]. destruct (p c'); [|discriminate].
    exists (String c' ""), s, (Some c'), cs. repeat split; [simpl; lia|assumption].
  - apply IH1 in E as (w1 & rest1 & prev1 & cs1 & -> & H1 & E).
    apply IH2 in E as (w2 & rest2 & prev2 & cs2 & -> & H2 & E).
    exists (w1 +:+ w2), rest2, prev2, cs2. rewrite app_assoc, len_app.
    repeat split; [|assumption]. simpl. intros H.
    apply orb_true_iff in H as [H|H]; [apply H1 in H|apply H2 in H]; lia.
  - simpl. unfold orelse in E.
    destruct (rmatch r1 prev s cs k) as [y|] eqn:E1.
    + destruct (IH1 _ _ _ _ _ E1) as (w & rest & prev' & cs' & -> & H1 & Ek).
      exists w, rest, prev', cs'. repeat split; [|congruence].
      intros H. apply andb_true_iff in H as [H _]. auto.
    + destruct (IH2 _ _ _ _ _ E) as (w & rest & prev' & cs' & -> & H2 & Ek).
      exists w, rest, prev', cs'. repeat split; [|assumption].
      intros H. apply andb_true_iff in H as [_ H]. auto.
  - unfold orelse in E. destruct (rmatch r1 prev s cs k) as [y|] eqn:E1.
    + destruct (IH1 _ _ _ _ _ E1) as (w & rest & prev' & cs' & -> & H1 & Ek).
      exists w, rest, prev', cs'. repeat split; [discriminate|congruence].
    + exists "", s, prev, cs. repeat split; [discriminate|assumption].
  - assert (Hrep : exists w rest, s = w +:+ rest /\ lo <= Py.len w /\
              bounded hi (Py.len w) /\ all_in p w = true /\
              k (last_char prev w) rest cs = Some x)
      by (destruct g; [now apply rep_greedy_inv in E|now apply rep_lazy_inv in E]).
    destruct Hrep as (w & rest & -> & Hlo & _ & _ & Ek).
    exists w, rest, (last_char prev w), cs. repeat split; [|assumption].
    cbn [nonempty]. intros H. apply Nat.leb_le in H. lia.
  - apply IH1 in E as (w & rest & prev' & cs' & -> & H1 & E).
    now exists w, rest, prev', ((n, Py.take_str (Py.len (w +:+ rest) - Py.len rest) (w +:+ rest)) :: cs').
  - destruct prev; [discriminate|].
    exists "", s, None, cs. repeat split; [discriminate|assumption].
  - exists "", s, prev, cs. repeat split; [discriminate|].
    destruct s as [|c [|c' s]]; [assumption| |discriminate].
    destruct (Ascii.eqb c "010"); [assumption|discriminate].
  - exists "", s, prev, cs. repeat split; [discriminate|].
    destruct prev as [c|]; [|assumption].
    destruct (Ascii.eqb c "010"); [assumption|discriminate].
  - exists "", s, prev, cs. repeat split; [discriminate|].
    destruct s as [|c s]; [assumption|].
    destruct (Ascii.eqb c "010"); [assumption|discriminate].
Qed.
End Forward.

(** Group 0 of a match is the text at the cursor up to where the match
    ends. *)
Lemma match_at_prefix r prev s m :
  match_at r prev s = Some m ->
  exists rest, s = group0 m +:+ rest /\ (nonempty r = true -> 1 <= Py.len (group0 m)).
Proof.
  unfold match_at. intros E.
  apply rmatch_forward in E as (w & rest & prev' & cs' & -> & H & E).
  rewrite take_len_diff in E. inversion E. now exists rest.
Qed.

(** ** Substitution in general *)

Section Consuming.
Variable r : regex.
Hypothesis r_nonempty : nonempty r = true.
Variable repl : Match -> string.

(** Where the replacement function returns every match as it found it,
    the text is unchanged. *)
Lemma sub_from_same s : forall prev skip,
  (forall m, In m (finditer_from r prev skip s) -> repl m = group0 m) ->
  sub_from r repl prev skip s = Py.drop_str skip s.
Proof.
  induction s as [|c s IH]; intros prev skip H.
  - now destruct skip.
  - simpl in H |- *. destruct skip as [|k]; [|now apply IH].
    destruct (match_at r prev (String c s)) as [m|] eqn:E.
    + rewrite IH by (intros m' Hm'; apply H; now right).
      rewrite (H m) by now left.
      destruct (match_at_prefix _ _ _ _ E) as (rest & Hs & Hlen).
      specialize (Hlen r_nonempty).
      destruct (group0 m) as [|c' g]; [simpl in Hlen; lia|].
      simpl in Hs. inversion Hs; subst. simpl. rewrite Nat.sub_0_r.
      now rewrite drop_app.
    + f_equal. now rewrite IH.
Qed.

Lemma re_sub_same s :
  (forall m, In m (re_finditer r s) -> repl m = group0 m) -> re_sub r repl s = s.
Proof. intros H. unfold re_sub. now rewrite sub_from_same. Qed.

(** The length of the result: every match gives up its own length for that
    of its replacement. *)
Lemma sub_from_len s : forall prev skip,
  skip <= Py.len s ->
  Py.len (sub_from r repl prev skip s) +
  list_sum (map (fun m => Py.len (group0 m)) (finditer_from r prev skip s)) =
  Py.len s - skip +
  list_sum (map (fun m => Py.len (repl m)) (finditer_from r prev skip s)).
Proof.
  induction s as [|c s IH]; intros prev skip Hskip; [reflexivity|].
  simpl in Hskip. cbn [sub_from finditer_from]. destruct skip as [|k].
  - destruct (match_at r prev (String c s)) as [m|] eqn:E.
    + destruct (match_at_prefix _ _ _ _ E) as (rest & Hs & Hlen).
      specialize (Hlen r_nonempty).
      pose proof (f_equal Py.len Hs) as HL. rewrite len_app in HL. simpl in HL.
      simpl. rewrite len_app.
      specialize (IH (Some c) (Py.len (group0 m) - 1)). lia.
    + simpl. specialize (IH (Some c) 0). lia.
  - simpl. specialize (IH (Some c) k). lia.
Qed.

Lemma re_sub_len s :
  Py.len (re_sub r repl s) + list_sum (map (fun m => Py.len (group0 m)) (re_finditer r s)) =
  Py.len s + list_sum (map (fun m => Py.len (repl m)) (re_finditer r s)).
Proof.
  unfold re_sub, re_finditer. rewrite sub_from_len by lia. lia.
Qed.
End Consuming.

(** Sums of lengths where no replacement is shorter than its match. *)
Lemma list_sum_pointwise (f g : Match -> nat) ms :
  (forall m, In m ms -> f m <= g m) ->
  list_sum (map f ms) <= list_sum (map g ms) /\
  (list_sum (map f ms) = list_sum (map g ms) -> forall m, In m ms -> f m = g m).
Proof.
  induction ms as [|m ms IH]; intros H; simpl; [split; [lia|intros _ m []]|].
  destruct IH as [IH1 IH2]; [intros m' Hm'; apply H; now right|].
  pose proof (H m (or_introl eq_refl)) as Hm. split; [lia|].
  intros E m' [<-|Hm']; [lia|]. apply IH2; [lia|assumption].
Qed.

(** ** Validation of the reference index *)

Lemma registry_has_false R id : registry_has R id = false <-> registry_get R id = None.
Proof. unfold registry_has. destruct (registry_get R id); split; congruence. Qed.

Lemma decision_found_find R D : decision_found R D = false <-> find_decision R D = None.
Proof.
  induction R as [|[k info] R IH]; simpl; [tauto|].
  destruct (_ && _); [split; discriminate|assumption].
Qed.

Lemma check_document_fold R l : forall Inv,
  foldl (check_document R) Inv l =
  {| documents := documents Inv ++ List.filter (fun id => negb (registry_has R id)) l;
     sections := sections Inv;
     decisions := decisions Inv |}.
Proof.
  induction l as [|id l IH]; intros Inv; simpl.
  - rewrite List.app_nil_r. now destruct Inv.
  - rewrite IH. unfold check_document. destruct (registry_has R id); simpl; [reflexivity|].
    now rewrite <- List.app_assoc.
Qed.

Lemma check_section_fold R l : forall Inv,
  foldl (check_section R) Inv l =
  {| documents := documents Inv;
     sections :=
       sections Inv ++
       List.filter
         (fun s => negb (registry_has R (default "" (head (Py.split s " §"))))) l;
     decisions := decisions Inv |}.
Proof.
  induction l as [|s l IH]; intros Inv; simpl.
  - rewrite List.app_nil_r. now destruct Inv.
  - rewrite IH. unfold check_section. destruct (registry_has R _); simpl; [reflexivity|].
    now rewrite <- List.app_assoc.
Qed.

Lemma check_decision_fold R l : forall Inv,
  foldl (check_decision R) Inv l =
  {| documents := documents Inv;
     sections := sections Inv;
     decisions := decisions Inv ++ List.filter (fun D => negb (decision_found R D)) l |}.
Proof.
  induction l as [|D l IH]; intros Inv; simpl.
  - rewrite List.app_nil_r. now destruct Inv.
  - rewrite IH. unfold check_decision. destruct (decision_found R D); simpl; [reflexivity|].
    now rewrite <- List.app_assoc.
Qed.

Lemma ValidateReferences_lists Refs R :
  ValidateReferences Refs R =
  {| documents := List.filter (fun id => negb (registry_has R id)) (documents Refs);
     sections :=
       List.filter
         (fun s => negb (registry_has R (default "" (head (Py.split s " §")))))
         (sections Refs);
     decisions := List.filter (fun D => negb (decision_found R D)) (decisions Refs) |}.
Proof.
  unfold ValidateReferences.
  now rewrite check_document_fold, check_section_fold, check_decision_fold.
Qed.

(** The piece before the first separator. *)
Lemma split_head c sep a rest :
  Py.has_char c a = false ->
  head (Py.split (a +:+ String c sep +:+ rest) (String c sep)) = Some a.
Proof.
  unfold Py.split. induction a as [|x a IH]; intros Ha.
  - change ("" +:+ String c sep +:+ rest) with (String c (sep +:+ rest)).
    cbn [Py.split_from Py.startswith]. rewrite Ascii.eqb_refl.
    assert (Py.startswith (sep +:+ rest) sep = true) as ->; [|reflexivity].
    clear. induction sep as [|y sep IH]; simpl; [now destruct rest|].
    now rewrite Ascii.eqb_refl.
  - simpl in Ha. apply orb_false_iff in Ha as [Hx Ha]. rewrite app_cons.
    cbn [Py.split_from Py.startswith]. rewrite Ascii.eqb_sym, Hx. simpl.
    specialize (IH Ha). destruct (Py.split_from _ _ _); [discriminate|].
    simpl in IH |- *. congruence.
Qed.

(** X3. What [ValidateReferences] reports.  A document identifier is
    reported when it is listed and is not a key of the registry; a section
    reference [DD-DD §N.N] when it is listed and its [DD-DD] is not a key;
    a decision identifier when it is listed and the search the resolver
    makes for it finds no entry, which is when the resolver writes the
    fallback link. *)
Theorem ValidateReferences_reports_the_unresolved (Refs : References) (R : Registry) :
  (forall id,
     In id (documents (ValidateReferences Refs R)) <->
     In id (documents Refs) /\ registry_get R id = None)
  /\ (forall id sec,
        is_docid id ->
        (In (id +:+ " §" +:+ sec) (sections (ValidateReferences Refs R)) <->
         In (id +:+ " §" +:+ sec) (sections Refs) /\ registry_get R id = None))
  /\ (forall D,
        In D (decisions (ValidateReferences Refs R)) <->
        In D (decisions Refs) /\ find_decision R D = None).
Proof.
  rewrite ValidateReferences_lists. cbn [documents sections decisions].
  split; [|split].
  - intros id. rewrite filter_In, negb_true_iff. now rewrite registry_has_false.
  - intros id sec Hid. rewrite filter_In, negb_true_iff.
    change (id +:+ " §" +:+ sec) with (id +:+ String " " "§" +:+ sec).
    rewrite (split_head " " "§" id sec) by (apply docid_no_char; [assumption|reflexivity|discriminate]).
    simpl default. now rewrite registry_has_false.
  - intros D. rewrite filter_In, negb_true_iff. now rewrite decision_found_find.
Qed.

(** ** The fixed points of the resolver *)

Lemma filter_all (f : string -> bool) l :
  List.filter f l = l <-> forall x, In x l -> f x = true.
Proof.
  split.
  - intros E x Hx. rewrite <- E in Hx. now apply filter_In in Hx.
  - induction l as [|x l IH]; intros H; simpl; [reflexivity|].
    rewrite (H x) by now left. f_equal. apply IH. intros y Hy. apply H. now right.
Qed.

Lemma DocRef_replacement R s m :
  In m (re_finditer DocRefPattern s) ->
  Py.len (group0 m) <= Py.len (ReplaceDocRef R m) /\
  (Py.len (ReplaceDocRef R m) = Py.len (group0 m) -> registry_get R (group_str m 1) = None).
Proof.
  intros Hm. apply (re_finditer_sound _ _ _ DocRef_sound) in Hm as (id & _ & -> & _).
  unfold ReplaceDocRef, group_str. cbn [group bracket_match doc_caps assoc groups Nat.eqb
    from_option group0]. unfold Datatypes.id.
  destruct (registry_get R id); [|split; [lia|reflexivity]].
  rewrite len_bracket, !len_app. simpl. split; lia.
Qed.

Lemma SectionRef_replacement R s m :
  In m (re_finditer SectionRefPattern s) ->
  Py.len (group0 m) <= Py.len (ReplaceSectionRef R m) /\
  (Py.len (ReplaceSectionRef R m) = Py.len (group0 m) ->
   registry_get R (group_str m 1) = None).
Proof.
  intros Hm. apply (re_finditer_sound _ _ _ SectionRef_sound) in Hm
    as (body & (id & sec & -> & Hid & Hsec) & -> & _).
  destruct (section_groups id sec Hid) as [E1 E2].
  unfold ReplaceSectionRef. rewrite E1, E2.
  destruct (registry_get R id); [|split; [apply Nat.le_refl|reflexivity]].
  cbn [group0 bracket_match]. rewrite len_bracket, !len_app. simpl.
  rewrite ?len_app. simpl. split; lia.
Qed.

Lemma DecisionRef_replacement R s m :
  In m (re_finditer DecisionRefPattern s) ->
  Py.len (group0 m) < Py.len (ReplaceDecisionRef R m).
Proof.
  intros Hm. apply (re_finditer_sound _ _ _ DecisionRef_sound) in Hm as (D & _ & -> & _).
  unfold ReplaceDecisionRef, group_str. cbn [group bracket_match doc_caps assoc groups
    Nat.eqb from_option group0]. unfold Datatypes.id.
  destruct (find_decision R D); rewrite len_bracket, !len_app; simpl; lia.
Qed.

(** A pass whose replacements are no shorter than the matches does not
    shorten the text, and keeps its length only if no replacement is
    longer. *)
Lemma pass_len r repl s :
  nonempty r = true ->
  (forall m, In m (re_finditer r s) -> Py.len (group0 m) <= Py.len (repl m)) ->
  Py.len s <= Py.len (re_sub r repl s) /\
  (Py.len (re_sub r repl s) = Py.len s ->
   forall m, In m (re_finditer r s) -> Py.len (repl m) = Py.len (group0 m)).
Proof.
  intros Hr H. pose proof (re_sub_len r Hr repl s) as HL.
  destruct (list_sum_pointwise (fun m => Py.len (group0 m)) (fun m => Py.len (repl m))
              (re_finditer r s) H) as [Hle Heq].
  split; [lia|]. intros E m Hm. symmetry. apply Heq; [lia|assumption].
Qed.

Lemma resolver_fixed Content R :
  ProcessCrossReferences Content R = Content <->
  (forall m, In m (re_finditer DocRefPattern Content) ->
             registry_get R (group_str m 1) = None) /\
  (forall m, In m (re_finditer SectionRefPattern Content) ->
             registry_get R (group_str m 1) = None) /\
  re_finditer DecisionRefPattern Content = [].
Proof.
  rewrite ProcessCrossReferences_passes. unfold doc_pass, section_pass, decision_pass.
  split.
  - remember (re_sub DocRefPattern (ReplaceDocRef R) Content) as c1 eqn:D1.
    remember (re_sub SectionRefPattern (ReplaceSectionRef R) c1) as c2 eqn:D2.
    intros E.
    destruct (pass_len DocRefPattern (ReplaceDocRef R) Content eq_refl) as [L1 F1];
      [intros m Hm; now apply (DocRef_replacement R Content)|].
    destruct (pass_len SectionRefPattern (ReplaceSectionRef R) c1 eq_refl) as [L2 F2];
      [intros m Hm; now apply (SectionRef_replacement R c1)|].
    destruct (pass_len DecisionRefPattern (ReplaceDecisionRef R) c2 eq_refl) as [L3 F3];
      [intros m Hm; apply Nat.lt_le_incl; now apply (DecisionRef_replacement R c2)|].
    rewrite <- D1 in L1, F1. rewrite <- D2 in L2, F2. rewrite E in L3, F3.
    assert (H1 : forall m, In m (re_finditer DocRefPattern Content) ->
                           registry_get R (group_str m 1) = None).
    { intros m Hm. apply (DocRef_replacement R Content m Hm). apply F1; [lia|assumption]. }
    assert (E1 : c1 = Content).
    { rewrite D1. apply (re_sub_same DocRefPattern eq_refl). intros m Hm.
      unfold ReplaceDocRef. now rewrite (H1 m Hm). }
    rewrite E1 in *.
    assert (H2 : forall m, In m (re_finditer SectionRefPattern Content) ->
                           registry_get R (group_str m 1) = None).
    { intros m Hm. apply (SectionRef_replacement R Content m Hm). apply F2; [lia|assumption]. }
    assert (E2 : c2 = Content).
    { rewrite D2. apply (re_sub_same SectionRefPattern eq_refl). intros m Hm.
      unfold ReplaceSectionRef. now rewrite (H2 m Hm). }
    rewrite E2 in *. repeat split; try assumption.
    destruct (re_finditer DecisionRefPattern Content) as [|m ms] eqn:Ems; [reflexivity|].
    assert (Hm : In m (re_finditer DecisionRefPattern Content)) by (rewrite Ems; now left).
    pose proof (DecisionRef_replacement R Content m Hm) as Hlt.
    rewrite <- Ems in F3. specialize (F3 eq_refl m Hm). lia.
  - intros (H1 & H2 & H3).
    rewrite (re_sub_same DocRefPattern eq_refl).
    2: { intros m Hm. unfold ReplaceDocRef. now rewrite (H1 m Hm). }
    rewrite (re_sub_same SectionRefPattern eq_refl).
    2: { intros m Hm. unfold ReplaceSectionRef. now rewrite (H2 m Hm). }
    apply (re_sub_same DecisionRefPattern eq_refl).
    intros m Hm. rewrite H3 in Hm. destruct Hm.
Qed.

Lemma resolver_never_shortens Content R :
  Py.len Content <= Py.len (ProcessCrossReferences Content R).
Proof.
  rewrite ProcessCrossReferences_passes. unfold doc_pass, section_pass, decision_pass.
  set (c1 := re_sub DocRefPattern (ReplaceDocRef R) Content).
  set (c2 := re_sub SectionRefPattern (ReplaceSectionRef R) c1).
  destruct (pass_len DocRefPattern (ReplaceDocRef R) Content eq_refl) as [L1 _];
    [intros m Hm; now apply (DocRef_replacement R Content)|].
  destruct (pass_len SectionRefPattern (ReplaceSectionRef R) c1 eq_refl) as [L2 _];
    [intros m Hm; now apply (SectionRef_replacement R c1)|].
  destruct (pass_len DecisionRefPattern (ReplaceDecisionRef R) c2 eq_refl) as [L3 _];
    [intros m Hm; apply Nat.lt_le_incl; now apply (DecisionRef_replacement R c2)|].
  fold c1 in L1. fold c2 in L2. lia.
Qed.

(** X4. [ProcessCrossReferences] never shortens a text, and it returns a
    text unchanged exactly when there is nothing to resolve in it: every
    document identifier that [ExtractReferences] lists is reported by
    [ValidateReferences], and no decision reference is listed. *)
Theorem resolver_fixed_iff_nothing_to_resolve (Content : string) (R : Registry) :
  Py.len Content <= Py.len (ProcessCrossReferences Content R)
  /\ (ProcessCrossReferences Content R = Content <->
      documents (ValidateReferences (ExtractReferences Content) R) =
        documents (ExtractReferences Content)
      /\ decisions (ExtractReferences Content) = []).
Proof.
  split; [apply resolver_never_shortens|].
  rewrite resolver_fixed, ValidateReferences_lists. cbn [documents].
  rewrite filter_all, ExtractReferences_lists. cbn [documents decisions]. split.
  - intros (H1 & H2 & H3). split.
    + intros id. rewrite !collect_In. rewrite negb_true_iff, registry_has_false.
      intros [[[]|(m & Hm & <-)]|(m & Hm & <-)]; auto.
    + now rewrite H3.
  - intros (H & H3). repeat split.
    + intros m Hm. apply registry_has_false, negb_true_iff, H.
      rewrite !collect_In. left. right. now exists m.
    + intros m Hm. apply registry_has_false, negb_true_iff, H.
      rewrite !collect_In. right. now exists m.
    + destruct (re_finditer DecisionRefPattern Content) as [|m ms]; [reflexivity|].
      exfalso. simpl in H3.
      assert (Hin : In (group_str m 1)
                (foldl (fun l m => append_new l (group_str m 1)) (append_new [] (group_str m 1)) ms))
        by (apply collect_In; left; now left).
      rewrite H3 in Hin. destruct Hin.
Qed.

(** ** Related documents *)

Lemma RelatedSection_sound prev s m : match_at RelatedSectionPattern prev s = Some m ->
  exists body rest,
    s = bracket body +:+ rest /\ is_section_body body /\ m = bracket_match related_caps body.
Proof.
  unfold match_at, RelatedSectionPattern, DocIDShape, Times, Plus. cbn [rmatch Lit]. intros E.
  chr_step E. rep_step E as a r1. chr_step E. rep_step E as b r2.
  chr_step E. chr_step E. chr_step E.
  rep_step E as w1 r3. chr_step E. rep_step E as w2 rest2. chr_step E.
  assert (Hid : is_docid (a +:+ "-" +:+ b))
    by (exists a, b; simpl in *; repeat split; try assumption; lia).
  assert (Hsec : is_section (w1 +:+ "." +:+ w2))
    by (exists w1, w2; repeat split; assumption).
  exists ((a +:+ "-" +:+ b) +:+ " §" +:+ (w1 +:+ "." +:+ w2)), rest2.
  take_is (bracket ((a +:+ "-" +:+ b) +:+ " §" +:+ (w1 +:+ "." +:+ w2))) E.
  take_is (a +:+ "-" +:+ b) E.
  inversion E. split; [str_norm|]. split.
  - exists (a +:+ "-" +:+ b), (w1 +:+ "." +:+ w2). now repeat split.
  - unfold bracket_match, related_caps. do 4 f_equal.
    rewrite <- (docid_len _ Hid). now rewrite take_app.
Qed.

Lemma RelatedSection_complete prev body rest : is_section_body body ->
  match_at RelatedSectionPattern prev (bracket body +:+ rest) =
  Some (bracket_match related_caps body).
Proof.
  intros (id & sec & -> & Hid & (w1 & w2 & -> & [L1 H1] & [L2 H2])).
  pose proof (docid_len _ Hid) as Lid.
  unfold bracket_match, related_caps.
  replace (Py.take_str 5 (id +:+ " §" +:+ w1 +:+ "." +:+ w2)) with id
    by (rewrite <- Lid; now rewrite take_app).
  clear Lid. destruct Hid as (a & b & -> & [La Ha] & [Lb Hb]).
  unfold match_at, RelatedSectionPattern, DocIDShape, Times, Plus, bracket. cbn [rmatch Lit].
  repeat (simpl String.append; rewrite ?app_assoc). cbn match. rewrite Ascii.eqb_refl.
  rep_intro a; [left; now rewrite La|]. rewrite Ascii.eqb_refl.
  rep_intro b; [left; now rewrite Lb|]. rewrite !Ascii.eqb_refl.
  rep_intro w1; [right; reflexivity|]. rewrite Ascii.eqb_refl.
  rep_intro w2; [right; reflexivity|]. rewrite Ascii.eqb_refl.
  do 2 f_equal.
  - apply take_group. str_norm.
  - do 2 f_equal. apply take_group. str_norm.
Qed.

(** Two patterns of one grammar find the same references. *)
Section SameGrammar.
Variables r1 r2 : regex.
Variable G : string -> Prop.
Variables caps1 caps2 : string -> captures.
Hypothesis r1_sound : forall prev s m,
  match_at r1 prev s = Some m ->
  exists body rest, s = bracket body +:+ rest /\ G body /\ m = bracket_match caps1 body.
Hypothesis r2_sound : forall prev s m,
  match_at r2 prev s = Some m ->
  exists body rest, s = bracket body +:+ rest /\ G body /\ m = bracket_match caps2 body.
Hypothesis r1_complete : forall prev body rest,
  G body -> match_at r1 prev (bracket body +:+ rest) = Some (bracket_match caps1 body).
Hypothesis r2_complete : forall prev body rest,
  G body -> match_at r2 prev (bracket body +:+ rest) = Some (bracket_match caps2 body).
Variable f : Match -> string.
Hypothesis f_same : forall body,
  G body -> f (bracket_match caps1 body) = f (bracket_match caps2 body).

Lemma finditer_from_same_grammar s : forall prev skip,
  map f (finditer_from r1 prev skip s) = map f (finditer_from r2 prev skip s).
Proof.
  induction s as [|c s IH]; intros prev skip; [reflexivity|].
  cbn [finditer_from]. destruct skip as [|k]; [|apply IH].
  destruct (match_at r1 prev (String c s)) as [m1|] eqn:E1.
  - destruct (r1_sound _ _ _ E1) as (body & rest & Hs & HG & ->).
    rewrite Hs, (r2_complete prev body rest HG). simpl. rewrite f_same by assumption.
    f_equal. apply IH.
  - destruct (match_at r2 prev (String c s)) as [m2|] eqn:E2; [|apply IH].
    destruct (r2_sound _ _ _ E2) as (body & rest & Hs & HG & ->).
    rewrite Hs, (r1_complete prev body rest HG) in E1. discriminate.
Qed.
End SameGrammar.

Lemma collect_map (f : Match -> string) ms : forall l,
  foldl (fun l m => append_new l (f m)) l ms = foldl append_new l (map f ms).
Proof. induction ms as [|m ms IH]; intros l; simpl; [reflexivity|apply IH]. Qed.

(** X5. The related documents that the metadata extractor lists are the
    documents of the reference index: [ExtractRelatedDocuments] and the
    documents list of [ExtractReferences] are the same list, in the same
    order, for every text. *)
Theorem ExtractRelatedDocuments_is_the_documents_list (Content : string) :
  ExtractRelatedDocuments Content = documents (ExtractReferences Content).
Proof.
  rewrite ExtractReferences_lists. cbn [documents].
  unfold ExtractRelatedDocuments, add_related.
  rewrite (collect_map _ (re_finditer RelatedSectionPattern Content)).
  rewrite (collect_map _ (re_finditer SectionRefPattern Content)).
  f_equal. unfold re_finditer.
  apply (finditer_from_same_grammar RelatedSectionPattern SectionRefPattern is_section_body
           related_caps section_caps RelatedSection_sound SectionRef_sound
           RelatedSection_complete SectionRef_complete).
  intros body (id & sec & -> & Hid & Hsec).
  rewrite (proj1 (section_groups id sec Hid)).
  unfold group_str. cbn [group bracket_match related_caps assoc groups Nat.eqb from_option].
  unfold Datatypes.id. rewrite <- (docid_len id Hid). apply take_app.
Qed.

(** ** References that resolve *)

Lemma startswith_nil s : Py.startswith s "" = true.
Proof. now destruct s. Qed.

Lemma remove_dot_digits w s :
  all_in digit w = true ->
  Py.replace_from "." "" 0 (w +:+ s) = w +:+ Py.replace_from "." "" 0 s.
Proof.
  induction w as [|c w IH]; intros H; [reflexivity|].
  simpl in H. apply andb_true_iff in H as [Hc Hw].
  rewrite app_cons. cbn [Py.replace_from Py.startswith].
  destruct (Ascii.eqb_spec "." c) as [<-|_]; [discriminate|].
  simpl. now rewrite IH.
Qed.

(** The anchor of a section number [a.b] is [ab]. *)
Lemma section_anchor a b :
  all_in digit a = true -> all_in digit b = true ->
  Py.replace (Py.lower (a +:+ "." +:+ b)) "." "" = a +:+ b.
Proof.
  intros Ha Hb. rewrite !lower_app, (lower_digits a), (lower_digits b) by assumption.
  unfold Py.replace. rewrite remove_dot_digits by assumption. f_equal.
  change (Py.lower "." +:+ b) with (String "." b).
  cbn [Py.replace_from Py.startswith]. rewrite Ascii.eqb_refl, startswith_nil.
  simpl. rewrite <- (app_nil_r b) at 1. rewrite remove_dot_digits by assumption.
  simpl. apply app_nil_r.
Qed.

Section Resolved.
Variable R : Registry.

Lemma section_pass_plain w s :
  Py.has_char "["%char w = false -> section_pass R (w +:+ s) = w +:+ section_pass R s.
Proof.
  apply (re_sub_plain SectionRefPattern is_section_body section_caps SectionRef_sound
           SectionRef_complete).
Qed.

Lemma decision_pass_plain w s :
  Py.has_char "["%char w = false -> decision_pass R (w +:+ s) = w +:+ decision_pass R s.
Proof.
  apply (re_sub_plain DecisionRefPattern is_decision doc_caps DecisionRef_sound
           DecisionRef_complete).
Qed.

Lemma doc_reference_resolved pre post id info :
  is_docid id -> registry_get R id = Some info ->
  Py.has_char "["%char (default "" (info_url info)) = false ->
  ProcessCrossReferences (pre +:+ bracket id +:+ post) R =
  ProcessCrossReferences pre R +:+
  (bracket id +:+ "(" +:+ default "" (info_url info) +:+ ")") +:+
  ProcessCrossReferences post R.
Proof.
  intros Hid HR Hurl.
  set (link := fun id => bracket id +:+ "(" +:+ default "" (info_url info) +:+ ")").
  assert (Hplain : Py.has_char "[" ("(" +:+ default "" (info_url info) +:+ ")") = false)
    by (simpl; rewrite has_char_app, Hurl; reflexivity).
  apply (resolver_at_bracket R link link link).
  - intros rest. rewrite doc_pass_hit by assumption. f_equal.
    unfold ReplaceDocRef, group_str. simpl. rewrite HR. unfold link, bracket.
    simpl. now rewrite !app_assoc.
  - intros rest. unfold link. rewrite !app_assoc.
    rewrite section_pass_miss by auto using docid_not_section, docid_open, docid_close.
    replace ("(" +:+ default "" (info_url info) +:+ ")" +:+ rest)
      with (("(" +:+ default "" (info_url info) +:+ ")") +:+ rest)
      by (now rewrite !app_assoc).
    rewrite section_pass_plain by assumption. now rewrite !app_assoc.
  - intros rest. unfold link. rewrite !app_assoc.
    rewrite decision_pass_miss by auto using docid_not_decision, docid_open, docid_close.
    replace ("(" +:+ default "" (info_url info) +:+ ")" +:+ rest)
      with (("(" +:+ default "" (info_url info) +:+ ")") +:+ rest)
      by (now rewrite !app_assoc).
    rewrite decision_pass_plain by assumption. now rewrite !app_assoc.
  - now eexists.
  - now eexists.
Qed.
Lemma section_reference_resolved pre post id a b info :
  is_docid id -> digits1 a -> digits1 b -> registry_get R id = Some info ->
  Py.has_char "["%char (default "" (info_url info)) = false ->
  ProcessCrossReferences (pre +:+ bracket (id +:+ " §" +:+ a +:+ "." +:+ b) +:+ post) R =
  ProcessCrossReferences pre R +:+
  (bracket (id +:+ " §" +:+ a +:+ "." +:+ b) +:+
   "(" +:+ default "" (info_url info) +:+ "#" +:+ a +:+ b +:+ ")") +:+
  ProcessCrossReferences post R.
Proof.
  intros Hid Ha Hb HR Hurl.
  assert (Hsec : is_section (a +:+ "." +:+ b)) by now exists a, b.
  assert (Hbody : is_section_body (id +:+ " §" +:+ a +:+ "." +:+ b))
    by now exists id, (a +:+ "." +:+ b).
  set (tail := "(" +:+ default "" (info_url info) +:+ "#" +:+ a +:+ b +:+ ")").
  assert (Hplain : Py.has_char "[" tail = false).
  { unfold tail. rewrite !has_char_app, Hurl.
    rewrite (digits_no_char "[" a), (digits_no_char "[" b);
      [reflexivity|apply Hb|reflexivity|apply Ha|reflexivity]. }
  apply (resolver_at_bracket R bracket (fun body => bracket body +:+ tail)
           (fun body => bracket body +:+ tail)).
  - intros rest. apply doc_pass_miss;
      auto using section_not_docid, section_body_open, section_body_close.
  - intros rest. rewrite section_pass_hit by assumption. f_equal.
    unfold ReplaceSectionRef.
    destruct (section_groups id (a +:+ "." +:+ b) Hid) as [-> ->].
    rewrite HR. rewrite section_anchor by (apply Ha || apply Hb).
    unfold tail. str_norm.
  - intros rest. rewrite app_assoc.
    rewrite decision_pass_miss
      by auto using section_not_decision, section_body_open, section_body_close.
    rewrite decision_pass_plain by assumption. now rewrite app_assoc.
  - now eexists.
  - now eexists.
Qed.
End Resolved.

(** X6. A reference whose identifier is a key of the registry becomes a
    link to the url of its entry: [[DD-DD]] becomes [[DD-DD](url)] and
    [[DD-DD §a.b]] becomes [[DD-DD §a.b](url#ab)], the anchor being the
    section number without its period.  The text between the brackets is
    kept as it was; the text before and the text after are processed on
    their own.  The url is assumed to hold no opening bracket. *)
Theorem resolved_reference_becomes_link (R : Registry) (pre post id : string)
    (info : DocInfo) :
  is_docid id -> registry_get R id = Some info ->
  Py.has_char "["%char (default "" (info_url info)) = false ->
  ProcessCrossReferences (pre +:+ bracket id +:+ post) R =
    ProcessCrossReferences pre R +:+
    (bracket id +:+ "(" +:+ default "" (info_url info) +:+ ")") +:+
    ProcessCrossReferences post R
  /\ forall a b, digits1 a -> digits1 b ->
       ProcessCrossReferences
         (pre +:+ bracket (id +:+ " §" +:+ a +:+ "." +:+ b) +:+ post) R =
       ProcessCrossReferences pre R +:+
       (bracket (id +:+ " §" +:+ a +:+ "." +:+ b) +:+
        "(" +:+ default "" (info_url info) +:+ "#" +:+ a +:+ b +:+ ")") +:+
       ProcessCrossReferences post R.
Proof.
  intros Hid HR Hurl. split.
  - now apply doc_reference_resolved.
  - intros a b Ha Hb. now apply section_reference_resolved.
Qed.

Lemma resolved_reference_becomes_link_witness :
  ProcessCrossReferences ("see " +:+ bracket "10-20" +:+ ".") example_registry =
    ProcessCrossReferences "see " example_registry +:+
    (bracket "10-20" +:+ "(" +:+ "/docs/vision/10-20/" +:+ ")") +:+
    ProcessCrossReferences "." example_registry
  /\ forall a b, digits1 a -> digits1 b ->
       ProcessCrossReferences
         ("see " +:+ bracket ("10-20" +:+ " §" +:+ a +:+ "." +:+ b) +:+ ".")
         example_registry =
       ProcessCrossReferences "see " example_registry +:+
       (bracket ("10-20" +:+ " §" +:+ a +:+ "." +:+ b) +:+
        "(" +:+ "/docs/vision/10-20/" +:+ "#" +:+ a +:+ b +:+ ")") +:+
       ProcessCrossReferences "." example_registry.
Proof.
  apply (resolved_reference_becomes_link example_registry "see " "." "10-20"
           {| info_title := Some "Project Vision";
              info_url := Some "/docs/vision/10-20/" |}).
  - exists "10", "20". repeat split; reflexivity.
  - reflexivity.
  - reflexivity.
Defined.

(** ** Patterns without a start anchor *)

Section AnyPrev.
Context {A : Type}.
Implicit Types (k : @cont A) (p : ascii -> bool).

Lemma rep_greedy_any_prev p s : forall lo hi prev prev' cs k,
  ignores_prev k ->
  rep_greedy p lo hi prev s cs k = rep_greedy p lo hi prev' s cs k.
Proof.
  induction s as [|c s IH]; intros lo hi prev prev' cs k Hk; simpl.
  - destruct lo; [apply Hk|reflexivity].
  - rewrite (Hk prev prev'). reflexivity.
Qed.

Lemma rep_lazy_any_prev p s : forall lo hi prev prev' cs k,
  ignores_prev k ->
  rep_lazy p lo hi prev s cs k = rep_lazy p lo hi prev' s cs k.
Proof.
  induction s as [|c s IH]; intros lo hi prev prev' cs k Hk; simpl.
  - destruct lo; [now rewrite (Hk prev prev')|reflexivity].
  - rewrite (Hk prev prev'). reflexivity.
Qed.

Lemma rmatch_any_prev r : forall prev prev' s cs k,
  anchor_free r = true -> ignores_prev k ->
  rmatch r prev s cs k = rmatch r prev' s cs k.
Proof.
  induction r as [|c|p|r1 IH1 r2 IH2|r1 IH1 r2 IH2|r1 IH1|g lo hi p|n r1 IH1| | | |];
    intros prev prev' s cs k Hr Hk; cbn [rmatch]; simpl in Hr; try discriminate.
  - apply Hk.
  - reflexivity.
  - reflexivity.
  - apply andb_true_iff in Hr as [Hr1 Hr2]. apply IH1; [assumption|].
    intros q q' s' cs'. now apply IH2.
  - apply andb_true_iff in Hr as [Hr1 Hr2].
    now rewrite (IH1 prev prev'), (IH2 prev prev').
  - now rewrite (IH1 prev prev'), (Hk prev prev').
  - destruct g; [now apply rep_greedy_any_prev|now apply rep_lazy_any_prev].
  - apply IH1; [assumption|]. intros q q' s' cs'. apply Hk.
  - destruct s as [|c [|c' s]]; [apply Hk| |reflexivity].
    destruct (Ascii.eqb c "010"); [apply Hk|reflexivity].
  - destruct s as [|c s]; [apply Hk|].
    destruct (Ascii.eqb c "010"); [apply Hk|reflexivity].
Qed.
End AnyPrev.

Lemma match_at_any_prev r prev prev' s :
  anchor_free r = true -> match_at r prev s = match_at r prev' s.
Proof. intros Hr. unfold match_at. apply rmatch_any_prev; [assumption|]. now intros q q' s' cs. Qed.

(** Every match the scan returns is a match of the pattern at some place
    of the text. *)
Lemma finditer_from_matches r s : forall prev skip m,
  In m (finditer_from r prev skip s) ->
  exists prev' pre s', s = pre +:+ s' /\ match_at r prev' s' = Some m.
Proof.
  induction s as [|c s IH]; intros prev skip m Hm; [destruct Hm|].
  assert (Hlater : forall prev' skip', In m (finditer_from r prev' skip' s) ->
            exists prev'' pre s', String c s = pre +:+ s' /\ match_at r prev'' s' = Some m).
  { intros prev' skip' H. apply IH in H as (prev'' & pre & s' & -> & E).
    now exists prev'', (String c pre), s'. }
  simpl in Hm. destruct skip as [|k]; [|now apply Hlater in Hm].
  destruct (match_at r prev (String c s)) as [m'|] eqn:E; [|now apply Hlater in Hm].
  destruct Hm as [<-|Hm]; [now exists prev, "", (String c s)|now apply Hlater in Hm].
Qed.

(** ** Substitution with a pattern that has no start anchor *)

Section Scan.
Variable r : regex.
Hypothesis r_free : anchor_free r = true.
Hypothesis r_nonempty : nonempty r = true.
Variable repl : Match -> string.

Lemma sub_prev_free s : forall prev prev' skip,
  sub_from r repl prev skip s = sub_from r repl prev' skip s.
Proof.
  induction s as [|c s IH]; intros prev prev' skip; [reflexivity|].
  simpl. destruct skip as [|k]; [|apply IH].
  now rewrite (match_at_any_prev r prev prev').
Qed.

Lemma sub_pass_over w s : forall prev,
  sub_from r repl prev (Py.len w) (w +:+ s) = re_sub r repl s.
Proof.
  induction w as [|c w IH]; intros prev; simpl; [apply sub_prev_free|apply IH].
Qed.

(** A match at the start of the text is replaced, and the scan goes on
    behind it. *)
Lemma re_sub_at_match m rest :
  match_at r None (group0 m +:+ rest) = Some m ->
  re_sub r repl (group0 m +:+ rest) = repl m +:+ re_sub r repl rest.
Proof.
  intros E. destruct (match_at_prefix _ _ _ _ E) as (_ & _ & Hlen).
  specialize (Hlen r_nonempty). unfold re_sub at 1.
  destruct (group0 m) as [|c g] eqn:Eg; [simpl in Hlen; lia|].
  rewrite app_cons in E |- *. cbn [sub_from]. rewrite E, Eg. f_equal.
  simpl. rewrite Nat.sub_0_r. apply sub_pass_over.
Qed.

(** Text without the character every match starts with is copied. *)
Lemma re_sub_before o w s :
  (forall prev c s' m, match_at r prev (String c s') = Some m -> c = o) ->
  Py.has_char o w = false ->
  re_sub r repl (w +:+ s) = w +:+ re_sub r repl s.
Proof.
  intros Ho. unfold re_sub. generalize (@None ascii) at 1.
  induction w as [|c w IH]; intros prev Hw.
  - simpl. apply sub_prev_free.
  - simpl in Hw. apply orb_false_iff in Hw as [Hc Hw].
    rewrite app_cons. simpl.
    destruct (match_at r prev (String c (w +:+ s))) as [m|] eqn:E.
    + apply Ho in E. subst c. now rewrite Ascii.eqb_refl in Hc.
    + f_equal. now apply IH.
Qed.
End Scan.

(** ** Code links *)

Lemma FunctionRef_sound prev s m : match_at FunctionRefPattern prev s = Some m ->
  exists name, m = {| group0 := "`" +:+ name +:+ "()`"; groups := [(1, name)] |}.
Proof.
  unfold match_at, FunctionRefPattern, Plus. cbn [rmatch]. intros E.
  chr_step E. cls_step E Hc. rep_step E as w r1. do 3 chr_step E.
  exists (String c w).
  take_is ("`" +:+ String c w +:+ "()`") E. take_is (String c w) E.
  now inversion E.
Qed.

Lemma FileRef_sound prev s m : match_at FileRefPattern prev s = Some m ->
  exists name ext,
    m = {| group0 := "`" +:+ name +:+ ext +:+ "`"; groups := [(2, ext); (1, name)] |}.
Proof.
  unfold match_at, FileRefPattern, Plus. cbn [rmatch]. intros E.
  chr_step E. rep_step E as w r1. chr_step E. rep_step E as x r2. chr_step E.
  exists w, (String "." x).
  take_is ("`" +:+ w +:+ String "." x +:+ "`") E. take_is w E. take_is (String "." x) E.
  now inversion E.
Qed.

Lemma FileRef_complete prev name x rest :
  1 <= Py.len name -> all_in file_name_char name = true ->
  1 <= Py.len x -> all_in lower_letter x = true ->
  match_at FileRefPattern prev ("`" +:+ name +:+ "." +:+ x +:+ "`" +:+ rest) =
  Some {| group0 := "`" +:+ name +:+ "." +:+ x +:+ "`";
          groups := [(2, "." +:+ x); (1, name)] |}.
Proof.
  intros Ln Hn Lx Hx.
  unfold match_at, FileRefPattern, Plus. cbn [rmatch].
  repeat (simpl String.append; rewrite ?app_assoc). cbn match. rewrite Ascii.eqb_refl.
  rep_intro name; [right; reflexivity|]. rewrite Ascii.eqb_refl.
  rep_intro x; [right; reflexivity|]. rewrite Ascii.eqb_refl.
  do 2 f_equal.
  - apply take_group. str_norm.
  - f_equal; [|f_equal]; f_equal; apply take_group; str_norm.
Qed.

Lemma FileRef_open prev c s m : match_at FileRefPattern prev (String c s) = Some m -> c = "`"%char.
Proof.
  unfold match_at, FileRefPattern. cbn [rmatch]. intros E.
  destruct (Ascii.eqb_spec "`" c) as [<-|]; [reflexivity|discriminate].
Qed.

(** The pass over the function references returns every text as it is. *)
Lemma function_pass_same Content : re_sub FunctionRefPattern ReplaceFunctionRef Content = Content.
Proof.
  apply (re_sub_same FunctionRefPattern eq_refl). intros m Hm.
  apply finditer_from_matches in Hm as (prev & pre & s & _ & E).
  apply FunctionRef_sound in E as (name & ->). reflexivity.
Qed.

Lemma ProcessCodeLinks_file_pass Content :
  ProcessCodeLinks Content = re_sub FileRefPattern ReplaceFileRef Content.
Proof. unfold ProcessCodeLinks. apply function_pass_same. Qed.

Lemma file_reference_rewritten pre name x post :
  Py.has_char "`"%char pre = false ->
  1 <= Py.len name -> all_in file_name_char name = true ->
  1 <= Py.len x -> all_in lower_letter x = true ->
  ProcessCodeLinks (pre +:+ ("`" +:+ name +:+ "." +:+ x +:+ "`") +:+ post) =
  pre +:+
  ReplaceFileRef {| group0 := "`" +:+ name +:+ "." +:+ x +:+ "`";
                    groups := [(2, "." +:+ x); (1, name)] |} +:+
  ProcessCodeLinks post.
Proof.
  intros Hpre Ln Hn Lx Hx. rewrite !ProcessCodeLinks_file_pass.
  rewrite (re_sub_before FileRefPattern eq_refl ReplaceFileRef "`" pre _ FileRef_open Hpre).
  f_equal.
  apply (re_sub_at_match FileRefPattern eq_refl eq_refl ReplaceFileRef
           {| group0 := "`" +:+ name +:+ "." +:+ x +:+ "`";
              groups := [(2, "." +:+ x); (1, name)] |}).
  cbn [group0]. rewrite <- (FileRef_complete None name x post) by assumption.
  f_equal. now rewrite !app_assoc.
Qed.

Lemma split_no_separator c t :
  Py.has_char c t = false -> Py.split t (String c "") = [t].
Proof.
  unfold Py.split. induction t as [|x t IH]; intros H; [reflexivity|].
  simpl in H. apply orb_false_iff in H as [Hx Ht].
  cbn [Py.split_from Py.startswith]. rewrite Ascii.eqb_sym, Hx. simpl.
  now rewrite IH.
Qed.

(** The piece after the last separator. *)
Lemma split_last c stem t :
  Py.has_char c t = false ->
  List.last (Py.split (stem +:+ String c "" +:+ t) (String c "")) "" = t.
Proof.
  intros Ht.
  assert (H : exists l ls, Py.split (stem +:+ String c "" +:+ t) (String c "") = l :: ls /\
                ls <> [] /\ List.last ls "" = t).
  { unfold Py.split. induction stem as [|x stem IH].
    - exists "", [t]. change ("" +:+ String c "" +:+ t) with (String c t).
      cbn [Py.split_from Py.startswith]. rewrite Ascii.eqb_refl, startswith_nil. simpl.
      pose proof (split_no_separator c t Ht) as E. unfold Py.split in E. rewrite E.
      now repeat split.
    - destruct IH as (l & ls & E & Hls & Hlast). rewrite app_cons.
      cbn [Py.split_from Py.startswith]. rewrite startswith_nil, andb_true_r.
      destruct (Ascii.eqb c x).
      + change (Py.len (String c "") - 1) with 0. rewrite E.
        exists "", (l :: ls). repeat split; [discriminate|].
        destruct ls; [contradiction|assumption].
      + rewrite E. now exists (String x l), ls. }
  destruct H as (l & ls & -> & Hls & Hlast). destruct ls; [contradiction|assumption].
Qed.

(** X7. What [ProcessCodeLinks] does to a file reference between
    backticks, the text before it holding no backtick: a [.py] name
    becomes a link into the GitHub tree, a [.md] name a link to
    [/docs/<text after the last hyphen of the name>/] (the whole name when
    it has no hyphen), and a name with any other extension is left as it
    is.  The text after the reference is processed on its own. *)
Theorem ProcessCodeLinks_rewrites_file_references (pre name post : string) :
  Py.has_char "`"%char pre = false ->
  1 <= Py.len name -> all_in file_name_char name = true ->
  ProcessCodeLinks (pre +:+ ("`" +:+ name +:+ ".py`") +:+ post) =
    pre +:+
    ("[`" +:+ name +:+ ".py`](https://github.com/CallMeChewy/ProjectHimalaya/blob/main/" +:+
     name +:+ ".py)") +:+
    ProcessCodeLinks post
  /\ (forall stem t,
        name = stem +:+ "-" +:+ t -> Py.has_char "-"%char t = false ->
        ProcessCodeLinks (pre +:+ ("`" +:+ name +:+ ".md`") +:+ post) =
        pre +:+ ("[`" +:+ name +:+ ".md`]({{ site.baseurl }}/docs/" +:+ t +:+ "/)") +:+
        ProcessCodeLinks post)
  /\ (Py.has_char "-"%char name = false ->
      ProcessCodeLinks (pre +:+ ("`" +:+ name +:+ ".md`") +:+ post) =
      pre +:+ ("[`" +:+ name +:+ ".md`]({{ site.baseurl }}/docs/" +:+ name +:+ "/)") +:+
      ProcessCodeLinks post)
  /\ (forall x,
        1 <= Py.len x -> all_in lower_letter x = true -> x <> "py" -> x <> "md" ->
        ProcessCodeLinks (pre +:+ ("`" +:+ name +:+ "." +:+ x +:+ "`") +:+ post) =
        pre +:+ ("`" +:+ name +:+ "." +:+ x +:+ "`") +:+ ProcessCodeLinks post).
Proof.
  intros Hpre Ln Hn.
  assert (Hrw : forall x, 1 <= Py.len x -> all_in lower_letter x = true ->
            ProcessCodeLinks (pre +:+ ("`" +:+ name +:+ "." +:+ x +:+ "`") +:+ post) =
            pre +:+
            ReplaceFileRef {| group0 := "`" +:+ name +:+ "." +:+ x +:+ "`";
                              groups := [(2, "." +:+ x); (1, name)] |} +:+
            ProcessCodeLinks post)
    by (intros x Lx Hx; now apply file_reference_rewritten).
  split; [|split; [|split]].
  - pose proof (Hrw "py" ltac:(simpl; lia) eq_refl) as H.
    change (name +:+ "." +:+ "py" +:+ "`") with (name +:+ ".py`") in H.
    rewrite H. do 2 f_equal.
  - intros stem t -> Ht.
    pose proof (Hrw "md" ltac:(simpl; lia) eq_refl) as H.
    change ((stem +:+ "-" +:+ t) +:+ "." +:+ "md" +:+ "`")
      with ((stem +:+ "-" +:+ t) +:+ ".md`") in H.
    rewrite H. f_equal. f_equal.
    unfold ReplaceFileRef, group_str.
    cbn [group groups assoc Nat.eqb from_option]. unfold Datatypes.id.
    change (String.eqb ("." +:+ "md") ".py") with false.
    change (String.eqb ("." +:+ "md") ".md") with true. cbv iota.
    rewrite !has_char_app. cbn [Py.has_char]. rewrite Ascii.eqb_refl, orb_true_r.
    rewrite (split_last "-" stem t Ht). str_norm.
  - intros Hname.
    pose proof (Hrw "md" ltac:(simpl; lia) eq_refl) as H.
    change (name +:+ "." +:+ "md" +:+ "`") with (name +:+ ".md`") in H.
    rewrite H. f_equal. f_equal.
    unfold ReplaceFileRef, group_str.
    cbn [group groups assoc Nat.eqb from_option]. unfold Datatypes.id.
    change (String.eqb ("." +:+ "md") ".py") with false.
    change (String.eqb ("." +:+ "md") ".md") with true. cbv iota.
    rewrite Hname. str_norm.
  - intros x Lx Hx Hpy Hmd. rewrite (Hrw x Lx Hx). f_equal. f_equal.
    unfold ReplaceFileRef, group_str.
    cbn [group groups assoc Nat.eqb from_option]. unfold Datatypes.id.
    change (String.eqb ("." +:+ x) ".py") with (String.eqb x "py").
    change (String.eqb ("." +:+ x) ".md") with (String.eqb x "md").
    destruct (String.eqb_spec x "py") as [->|_]; [contradiction|].
    destruct (String.eqb_spec x "md") as [->|_]; [contradiction|].
    reflexivity.
Qed.

Lemma ProcessCodeLinks_rewrites_file_references_witness :
  ProcessCodeLinks ("run " +:+ ("`" +:+ "Main" +:+ ".py`") +:+ " now") =
    "run " +:+
    ("[`" +:+ "Main" +:+
     ".py`](https://github.com/CallMeChewy/ProjectHimalaya/blob/main/" +:+ "Main" +:+ ".py)") +:+
    ProcessCodeLinks " now"
  /\ ProcessCodeLinks ("" +:+ ("`" +:+ "Vision-10-20" +:+ ".md`") +:+ "") =
     "" +:+ ("[`" +:+ "Vision-10-20" +:+ ".md`]({{ site.baseurl }}/docs/" +:+ "20" +:+ "/)") +:+
     ProcessCodeLinks "".
Proof.
  split.
  - destruct (ProcessCodeLinks_rewrites_file_references "run " "Main" " now") as [H _];
      [reflexivity|simpl; lia|reflexivity|exact H].
  - destruct (ProcessCodeLinks_rewrites_file_references "" "Vision-10-20" "")
      as (_ & H & _); [reflexivity|simpl; lia|reflexivity|].
    exact (H "Vision-10" "20" eq_refl eq_refl).
Defined.

Lemma py_reference_linked pre name post :
  Py.has_char "`"%char pre = false ->
  1 <= Py.len name -> all_in file_name_char name = true ->
  ProcessCodeLinks (pre +:+ ("`" +:+ name +:+ ".py`") +:+ post) =
  pre +:+
  ("[`" +:+ name +:+ ".py`](https://github.com/CallMeChewy/ProjectHimalaya/blob/main/" +:+
   name +:+ ".py)") +:+
  ProcessCodeLinks post.
Proof.
  intros Hpre Ln Hn.
  pose proof (file_reference_rewritten pre name "py" post Hpre Ln Hn
                ltac:(simpl; lia) eq_refl) as H.
  change (name +:+ "." +:+ "py" +:+ "`") with (name +:+ ".py`") in H.
  rewrite H. do 2 f_equal.
Qed.

(** X8. What [ProcessCodeLinks] leaves alone, and what it does not.  The
    pass over the function references [`Name()`] changes no text; a text
    none of whose file references ends in [.py] or [.md] is returned
    unchanged, so is a text without a backtick.  The link written for a
    [.py] reference holds the reference itself, so a second run rewrites it
    again: the function is not idempotent on any such reference. *)
Theorem ProcessCodeLinks_fixed_points :
  (forall Content,
     re_sub FunctionRefPattern ReplaceFunctionRef Content = Content)
  /\ (forall Content,
        (forall m, In m (re_finditer FileRefPattern Content) ->
                   group_str m 2 <> ".py" /\ group_str m 2 <> ".md") ->
        ProcessCodeLinks Content = Content)
  /\ (forall Content,
        Py.has_char "`"%char Content = false -> ProcessCodeLinks Content = Content)
  /\ (forall name,
        1 <= Py.len name -> all_in file_name_char name = true ->
        ProcessCodeLinks (ProcessCodeLinks ("`" +:+ name +:+ ".py`")) <>
        ProcessCodeLinks ("`" +:+ name +:+ ".py`")).
Proof.
  split; [apply function_pass_same|]. split; [|split].
  - intros Content H. rewrite ProcessCodeLinks_file_pass.
    apply (re_sub_same FileRefPattern eq_refl). intros m Hm.
    destruct (H m Hm) as [Hpy Hmd].
    apply finditer_from_matches in Hm as (prev & pre & s & _ & E).
    apply FileRef_sound in E as (name & ext & ->).
    unfold ReplaceFileRef, group_str in *.
    cbn [group groups assoc Nat.eqb from_option group0] in *. unfold Datatypes.id in *.
    destruct (String.eqb_spec ext ".py") as [->|_]; [contradiction|].
    destruct (String.eqb_spec ext ".md") as [->|_]; [contradiction|].
    reflexivity.
  - intros Content H. rewrite ProcessCodeLinks_file_pass.
    rewrite <- (app_nil_r Content) at 1.
    rewrite (re_sub_before FileRefPattern eq_refl ReplaceFileRef "`" Content "" FileRef_open H).
    apply app_nil_r.
  - intros name Ln Hn.
    pose proof (py_reference_linked "" name "" eq_refl Ln Hn) as E1.
    change ("" +:+ ("`" +:+ name +:+ ".py`") +:+ "") with (("`" +:+ name +:+ ".py`") +:+ "") in E1.
    rewrite app_nil_r in E1. rewrite E1.
    change (ProcessCodeLinks "") with "". 
    set (url := "](https://github.com/CallMeChewy/ProjectHimalaya/blob/main/" +:+ name +:+ ".py)").
    replace ("" +:+
             ("[`" +:+ name +:+
              ".py`](https://github.com/CallMeChewy/ProjectHimalaya/blob/main/" +:+
              name +:+ ".py)") +:+ "")
      with ("[" +:+ ("`" +:+ name +:+ ".py`") +:+ url)
      by (unfold url; str_norm).
    rewrite (py_reference_linked "[" name url eq_refl Ln Hn).
    intros E. apply (f_equal Py.len) in E. rewrite !len_app in E. simpl in E.
    rewrite !len_app in E. simpl in E. lia.
Qed.

(** ** Special syntax *)

Tactic Notation "lazy_step" hyp(E) "as" ident(w) ident(rest) :=
  let Hlo := fresh "Hlo" in let Hhi := fresh "Hhi" in let Hall := fresh "Hall" in
  apply rep_lazy_inv in E as (w & rest & -> & Hlo & Hhi & Hall & E);
  cbn beta in E.

Lemma CodeBlock_sound prev s m : match_at CodeBlockPattern prev s = Some m ->
  exists lang code,
    m = {| group0 := "```" +:+ lang +:+ newline +:+ code +:+ "```";
           groups := [(2, code); (1, lang)] |}.
Proof.
  unfold match_at, CodeBlockPattern, Plus, LazyStar. cbn [rmatch Lit]. intros E.
  do 3 chr_step E. rep_step E as lang r1. chr_step E. lazy_step E as code r2.
  do 3 chr_step E.
  exists lang, code. unfold newline.
  take_is ("```" +:+ lang +:+ String "010" code +:+ "```") E.
  take_is lang E. take_is code E. now inversion E.
Qed.

(** The pass over the code blocks returns every text as it is. *)
Lemma code_block_pass_same Content :
  re_sub CodeBlockPattern CodeBlockReplacer Content = Content.
Proof.
  apply (re_sub_same CodeBlockPattern eq_refl). intros m Hm.
  apply finditer_from_matches in Hm as (prev & pre & s & _ & E).
  apply CodeBlock_sound in E as (lang & code & ->). reflexivity.
Qed.

Section Literal.
Context {A : Type}.
Implicit Types (k : @cont A).

Lemma rmatch_lit w : forall prev s cs k,
  rmatch (Lit w) prev (w +:+ s) cs k = k (last_char prev w) s cs.
Proof.
  induction w as [|c w IH]; intros prev s cs k; [reflexivity|].
  destruct w as [|c' w].
  - simpl. now rewrite Ascii.eqb_refl.
  - change (Lit (String c (String c' w))) with (Chr c >>> Lit (String c' w)).
    rewrite app_cons, rmatch_seq, rmatch_chr. apply IH.
Qed.

Lemma rmatch_lit_inv w : forall prev s cs k x,
  rmatch (Lit w) prev s cs k = Some x ->
  exists s', s = w +:+ s' /\ k (last_char prev w) s' cs = Some x.
Proof.
  induction w as [|c w IH]; intros prev s cs k x E; [now exists s|].
  destruct w as [|c' w].
  - simpl in E. destruct s as [|c0 s]; [discriminate|].
    destruct (Ascii.eqb_spec c c0) as [<-|]; [|discriminate]. now exists s.
  - change (Lit (String c (String c' w))) with (Chr c >>> Lit (String c' w)) in E.
    rewrite rmatch_seq in E. cbn [rmatch] in E.
    destruct s as [|c0 s]; [discriminate|].
    destruct (Ascii.eqb_spec c c0) as [<-|]; [|discriminate].
    apply IH in E as (s' & -> & E). now exists s'.
Qed.

Lemma rep_lazy_star_intro p w : forall prev rest cs k x,
  all_in p w = true ->
  (forall w1 c w2, w = w1 +:+ String c w2 ->
     k (last_char prev w1) (String c w2 +:+ rest) cs = None) ->
  k (last_char prev w) rest cs = Some x ->
  rep_lazy p 0 None prev (w +:+ rest) cs k = Some x.
Proof.
  induction w as [|c w IH]; intros prev rest cs k x Hall Hnone Hk.
  - simpl in Hk |- *. destruct rest; simpl; now rewrite Hk.
  - simpl in Hall. apply andb_true_iff in Hall as [Hc Hall].
    rewrite app_cons. cbn [rep_lazy].
    pose proof (Hnone "" c w eq_refl) as H0. simpl in H0. rewrite H0.
    simpl. rewrite Hc.
    apply IH; [assumption| |assumption].
    intros w1 c' w2 ->. apply (Hnone (String c w1) c' w2). reflexivity.
Qed.
End Literal.

(** The task list patterns. *)
Lemma dot_no_newline item : all_in dot item = true -> Py.has_char "010"%char item = false.
Proof. intros H. now apply (all_in_has_char dot). Qed.

Lemma task_sound mark prev s m : match_at (task_pattern mark) prev s = Some m ->
  exists item rest,
    s = mark +:+ item +:+ rest /\ all_in dot item = true /\ at_eol rest /\
    m = task_match mark item.
Proof.
  unfold match_at, task_pattern, LazyStar. rewrite rmatch_seq. intros E.
  apply rmatch_lit_inv in E as (s' & -> & E). cbn [rmatch] in E.
  lazy_step E as item rest. exists item, rest.
  assert (Heol : at_eol rest /\
            Some {| group0 := Py.take_str (Py.len (mark +:+ item +:+ rest) - Py.len rest)
                                (mark +:+ item +:+ rest);
                    groups := [(1, Py.take_str (Py.len (item +:+ rest) - Py.len rest)
                                     (item +:+ rest))] |} = Some m).
  { destruct rest as [|c rest]; [now split|].
    destruct (Ascii.eqb_spec c "010") as [->|]; [now split|discriminate]. }
  destruct Heol as [Heol Em]. repeat split; try assumption.
  rewrite take_len_diff in Em. rewrite <- (app_assoc mark), take_len_diff in Em.
  now inversion Em.
Qed.

Lemma task_complete mark prev item rest :
  all_in dot item = true -> at_eol rest ->
  match_at (task_pattern mark) prev (mark +:+ item +:+ rest) = Some (task_match mark item).
Proof.
  intros Hitem Heol. unfold match_at, task_pattern, LazyStar.
  rewrite rmatch_seq, rmatch_lit. cbn [rmatch].
  apply rep_lazy_star_intro; [assumption| |].
  - intros w1 c w2 ->. rewrite app_cons.
    assert (Hc : Ascii.eqb c "010" = false).
    { clear -Hitem. induction w1 as [|x w1 IH]; simpl in Hitem.
      - apply andb_true_iff in Hitem as [Hc _]. unfold dot in Hc.
        now apply negb_true_iff in Hc.
      - apply andb_true_iff in Hitem as [_ Hitem]. now apply IH. }
    now rewrite Hc.
  - rewrite take_len_diff. rewrite <- (app_assoc mark), take_len_diff.
    destruct rest as [|c rest]; [reflexivity|]. simpl in Heol. subst c. reflexivity.
Qed.

Lemma at_eol_line rest b : at_eol rest -> at_eol (rest +:+ String "010" b).
Proof. destruct rest; simpl; auto. Qed.

(** Where a text without a newline ends in a longer text, a line ends. *)
Lemma eol_cut X : forall a b rest,
  Py.has_char "010"%char X = false ->
  a +:+ String "010" b = X +:+ rest -> at_eol rest ->
  exists rest_a, a = X +:+ rest_a /\ at_eol rest_a.
Proof.
  induction X as [|x X IH]; intros a b rest HX E Heol.
  - exists a. split; [reflexivity|]. simpl in E. subst rest.
    destruct a; simpl in *; auto.
  - simpl in HX. apply orb_false_iff in HX as [Hx HX].
    destruct a as [|c a]; simpl in E; inversion E; subst.
    + now rewrite Ascii.eqb_refl in Hx.
    + destruct (IH a b rest HX) as (rest_a & -> & Heol'); try assumption.
      now exists rest_a.
Qed.

(** A task list pattern matches within one line. *)
Lemma task_line mark prev a b :
  Py.has_char "010"%char mark = false ->
  match_at (task_pattern mark) prev (a +:+ String "010" b) =
  match_at (task_pattern mark) prev a.
Proof.
  intros Hmark.
  destruct (match_at (task_pattern mark) prev a) as [m|] eqn:Ea.
  - apply task_sound in Ea as (item & rest & -> & Hitem & Heol & ->).
    rewrite !app_assoc. apply task_complete; [assumption|now apply at_eol_line].
  - destruct (match_at _ _ (a +:+ _)) as [m|] eqn:Eab; [|reflexivity].
    apply task_sound in Eab as (item & rest & E & Hitem & Heol & ->).
    rewrite <- app_assoc in E.
    apply eol_cut in E as (rest_a & -> & Heol'); [|
      rewrite has_char_app, Hmark; now apply dot_no_newline|assumption].
    rewrite app_assoc, task_complete in Ea by assumption. discriminate.
Qed.

Section LineLocal.
Variable r : regex.
Hypothesis r_free : anchor_free r = true.
Hypothesis r_nonempty : nonempty r = true.
Hypothesis r_line : forall prev a b,
  match_at r prev (a +:+ String "010" b) = match_at r prev a.
Variable repl : Match -> string.

Lemma sub_from_line a b : forall prev skip,
  skip <= Py.len a ->
  sub_from r repl prev skip (a +:+ String "010" b) =
  sub_from r repl prev skip a +:+ String "010" (re_sub r repl b).
Proof.
  induction a as [|c a IH]; intros prev skip Hskip.
  - simpl in Hskip. assert (skip = 0) as -> by lia.
    change ("" +:+ String "010" b) with (String "010" b). cbn [sub_from].
    pose proof (r_line prev "" b) as E.
    change ("" +:+ String "010" b) with (String "010" b) in E. rewrite E.
    destruct (match_at r prev "") as [m|] eqn:E0.
    + apply match_at_prefix in E0 as (rest & Hs & Hlen). specialize (Hlen r_nonempty).
      destruct (group0 m); [simpl in Hlen; lia|discriminate].
    + simpl. f_equal. apply (sub_prev_free r r_free).
  - rewrite app_cons. cbn [sub_from]. destruct skip as [|k].
    + rewrite <- app_cons, r_line.
      destruct (match_at r prev (String c a)) as [m|] eqn:E.
      * rewrite app_assoc. f_equal. apply IH.
        apply match_at_prefix in E as (rest & Hs & _).
        apply (f_equal Py.len) in Hs. rewrite len_app in Hs. simpl in Hs. lia.
      * rewrite app_cons. f_equal. apply IH. lia.
    + apply IH. simpl in Hskip. lia.
Qed.

Lemma re_sub_line a b :
  re_sub r repl (a +:+ String "010" b) = re_sub r repl a +:+ String "010" (re_sub r repl b).
Proof. unfold re_sub at 1 2. apply sub_from_line. lia. Qed.
End LineLocal.

Lemma contains_at pre s sub : Py.startswith s sub = true -> Py.contains (pre +:+ s) sub = true.
Proof.
  intros H. induction pre as [|c pre IH].
  - change ("" +:+ s) with s. destruct s; cbn [Py.contains]; now rewrite H.
  - rewrite app_cons. cbn [Py.contains]. rewrite IH. apply orb_true_r.
Qed.

Lemma startswith_app w s : Py.startswith (w +:+ s) w = true.
Proof.
  induction w as [|c w IH]; simpl; [now destruct s|]. now rewrite Ascii.eqb_refl.
Qed.

(** A text that does not hold the marker has no task of that kind. *)
Lemma task_pass_same mark repl Content :
  nonempty (task_pattern mark) = true ->
  Py.contains Content mark = false ->
  re_sub (task_pattern mark) repl Content = Content.
Proof.
  intros Hne H. apply (re_sub_same _ Hne). intros m Hm.
  apply finditer_from_matches in Hm as (prev & pre & s & -> & E).
  apply task_sound in E as (item & rest & -> & _).
  rewrite contains_at in H; [discriminate|apply startswith_app].
Qed.

(** A task at the start of its line, the line being the whole text. *)
Lemma task_pass_hit mark repl item :
  anchor_free (task_pattern mark) = true -> nonempty (task_pattern mark) = true ->
  all_in dot item = true ->
  re_sub (task_pattern mark) repl (mark +:+ item) = repl (task_match mark item).
Proof.
  intros Hfree Hne Hitem.
  pose proof (re_sub_at_match _ Hfree Hne repl (task_match mark item) "") as H.
  cbn [group0 task_match] in H. rewrite !app_nil_r in H. rewrite H.
  - reflexivity.
  - pose proof (task_complete mark None item "" Hitem I) as E.
    now rewrite app_nil_r in E.
Qed.

Lemma ProcessSpecialSyntax_passes Content :
  ProcessSpecialSyntax Content =
  re_sub (task_pattern "- [x] ") (fun m => checked_box +:+ group_str m 1)
    (re_sub (task_pattern "- [ ] ") (fun m => unchecked_box +:+ group_str m 1) Content).
Proof. unfold ProcessSpecialSyntax. rewrite code_block_pass_same. reflexivity. Qed.

(** X9. [ProcessSpecialSyntax] works line by line and changes task list
    items only: the pass over the code blocks returns every text as it is,
    the result for two texts joined by a newline is the two results joined
    by a newline, and a text that holds neither of the markers [- [ ] ] and
    [- [x] ] is returned unchanged. *)
Theorem ProcessSpecialSyntax_works_line_by_line :
  (forall Content, re_sub CodeBlockPattern CodeBlockReplacer Content = Content)
  /\ (forall a b,
        ProcessSpecialSyntax (a +:+ newline +:+ b) =
        ProcessSpecialSyntax a +:+ newline +:+ ProcessSpecialSyntax b)
  /\ (forall Content,
        Py.contains Content "- [ ] " = false -> Py.contains Content "- [x] " = false ->
        ProcessSpecialSyntax Content = Content).
Proof.
  split; [apply code_block_pass_same|]. split.
  - intros a b. rewrite !ProcessSpecialSyntax_passes. unfold newline.
    change (String "010" "" +:+ b) with (String "010" b).
    rewrite (re_sub_line (task_pattern "- [ ] ") eq_refl eq_refl
               (fun prev a b => task_line "- [ ] " prev a b eq_refl)).
    rewrite (re_sub_line (task_pattern "- [x] ") eq_refl eq_refl
               (fun prev a b => task_line "- [x] " prev a b eq_refl)).
    reflexivity.
  - intros Content H1 H2. rewrite ProcessSpecialSyntax_passes.
    rewrite (task_pass_same "- [ ] ") by (reflexivity || assumption).
    now apply task_pass_same.
Qed.

(** X10. A task list item that is the whole of its line becomes a check
    box: [- [ ] item] becomes the disabled box and the item, [- [x] item]
    the checked disabled box and the item.  The item holds no newline and
    not the marker of the other kind of task. *)
Theorem ProcessSpecialSyntax_rewrites_task_items (item : string) :
  all_in dot item = true ->
  (Py.contains item "- [x] " = false ->
   ProcessSpecialSyntax ("- [ ] " +:+ item) = unchecked_box +:+ item)
  /\ (Py.contains item "- [ ] " = false ->
      ProcessSpecialSyntax ("- [x] " +:+ item) = checked_box +:+ item).
Proof.
  intros Hitem. split; intros H; rewrite ProcessSpecialSyntax_passes.
  - rewrite (task_pass_hit "- [ ] ") by (reflexivity || assumption).
    unfold group_str. cbn [group task_match groups assoc Nat.eqb from_option].
    unfold Datatypes.id. apply task_pass_same; [reflexivity|].
    unfold unchecked_box, dq. simpl. rewrite H. reflexivity.
  - rewrite (task_pass_same "- [ ] ") by (reflexivity || (simpl; now rewrite H)).
    rewrite (task_pass_hit "- [x] ") by (reflexivity || assumption). reflexivity.
Qed.

Lemma ProcessSpecialSyntax_rewrites_task_items_witness :
  ProcessSpecialSyntax ("- [ ] " +:+ "write the tests") = unchecked_box +:+ "write the tests"
  /\ ProcessSpecialSyntax ("- [x] " +:+ "read the code") = checked_box +:+ "read the code".
Proof.
  split.
  - destruct (ProcessSpecialSyntax_rewrites_task_items "write the tests" eq_refl) as [H _].
    exact (H eq_refl).
  - destruct (ProcessSpecialSyntax_rewrites_task_items "read the code" eq_refl) as [_ H].
    exact (H eq_refl).
Defined.

(** ** Header removal and the document transformer *)

Lemma split_lines_cons s : exists l ls, Py.split_lines s = l :: ls.
Proof.
  induction s as [|c s (l & ls & IH)]; simpl; [now eexists _, _|].
  destruct (Ascii.eqb c "010"); [now eexists _, _|]. rewrite IH. now eexists _, _.
Qed.

Lemma join_lines_cons l l' ls :
  Py.join_lines (l :: l' :: ls) = l +:+ String "010" (Py.join_lines (l' :: ls)).
Proof. reflexivity. Qed.

(** Splitting at the newlines and joining with newlines gives the text
    back. *)
Lemma join_split s : Py.join_lines (Py.split_lines s) = s.
Proof.
  induction s as [|c s IH]; [reflexivity|]. simpl.
  destruct (split_lines_cons s) as (l & ls & E). rewrite E in IH |- *.
  destruct (Ascii.eqb_spec c "010") as [->|_].
  - now rewrite join_lines_cons, IH.
  - destruct ls as [|l' ls].
    + simpl in IH |- *. now rewrite IH.
    + rewrite join_lines_cons in IH |- *. now rewrite app_cons, IH.
Qed.

Lemma join_lines_app l1 l2 :
  l1 <> [] -> l2 <> [] ->
  Py.join_lines (l1 ++ l2) = Py.join_lines l1 +:+ String "010" (Py.join_lines l2).
Proof.
  intros H1 H2. induction l1 as [|l l1 IH]; [contradiction|].
  destruct l1 as [|l' l1].
  - destruct l2; [contradiction|reflexivity].
  - change ((l :: l' :: l1) ++ l2) with (l :: l' :: (l1 ++ l2)).
    rewrite !join_lines_cons. change (l' :: (l1 ++ l2)) with ((l' :: l1) ++ l2).
    rewrite IH by discriminate. now rewrite app_assoc.
Qed.

(** The lines from any index on are an end of the text. *)
Lemma join_drop n Lines :
  exists pre, Py.join_lines Lines = pre +:+ Py.join_lines (drop n Lines).
Proof.
  destruct (decide (n = 0)) as [->|Hn]; [now exists ""|].
  destruct (decide (length Lines <= n)) as [Hge|Hlt].
  - rewrite drop_ge by assumption. exists (Py.join_lines Lines). now rewrite app_nil_r.
  - exists (Py.join_lines (take n Lines) +:+ String "010" "").
    rewrite <- (take_drop n Lines) at 1. rewrite join_lines_app.
    + now rewrite app_assoc.
    + intros E. apply (f_equal length) in E. rewrite length_take in E. simpl in E. lia.
    + intros E. apply (f_equal length) in E. rewrite length_drop in E. simpl in E. lia.
Qed.

Lemma skip_lines_stays P Lines :
  (forall l, head Lines = Some l -> P l = false) -> skip_lines P Lines 0 = 0.
Proof.
  intros H. destruct (skip_lines_run P Lines 0) as (run & rest & Hd & Hrun & _ & ->); [lia|].
  rewrite drop_0 in Hd. destruct run as [|l run]; [reflexivity|].
  subst Lines. inversion Hrun; subst. rewrite (H l eq_refl) in *. discriminate.
Qed.

(** X11. [RemoveMetadataHeader] takes lines away from the start of the
    text and nothing else: what it returns is an end of the text.  A text
    whose first line is not a title, not a marker line, not a tag line and
    not blank is returned unchanged. *)
Theorem RemoveMetadataHeader_returns_an_end_of_the_text (Content : string) :
  (exists header, Content = header +:+ RemoveMetadataHeader Content)
  /\ (forall Line0,
        head (Py.split_lines Content) = Some Line0 ->
        Py.startswith Line0 "# " = false ->
        is_timestamp_line Line0 = false -> is_tag_line Line0 = false ->
        RemoveMetadataHeader Content = Content).
Proof.
  split.
  - unfold RemoveMetadataHeader.
    match goal with |- context [drop ?n _] => destruct (join_drop n (Py.split_lines Content)) as [pre E] end.
    rewrite join_split in E. now exists pre.
  - intros Line0 H0 Htitle Hstamp Htag. unfold RemoveMetadataHeader.
    destruct (Py.split_lines Content) as [|l ls] eqn:E; [discriminate|].
    inversion H0; subst l. rewrite Htitle.
    rewrite (skip_lines_stays is_timestamp_line) by (intros l Hl; inversion Hl; now subst).
    rewrite (skip_lines_stays is_tag_line) by (intros l Hl; inversion Hl; now subst).
    rewrite drop_0, <- E. apply join_split.
Qed.

Lemma startswith_line old : forall a b,
  Py.has_char "010"%char old = false ->
  Py.startswith (a +:+ String "010" b) old = Py.startswith a old.
Proof.
  induction old as [|o old IH]; intros a b H; [now rewrite !startswith_nil|].
  simpl in H. apply orb_false_iff in H as [Ho H].
  destruct a as [|c a]; simpl.
  - now rewrite Ho.
  - now rewrite IH.
Qed.

Lemma startswith_len s p : Py.startswith s p = true -> Py.len p <= Py.len s.
Proof.
  revert s. induction p as [|a p IH]; intros s H; simpl; [lia|].
  destruct s as [|b s]; [discriminate|]. simpl in H.
  apply andb_true_iff in H as [_ H]. apply IH in H. simpl. lia.
Qed.

(** [str.replace] works within the lines when the text it looks for holds
    no newline. *)
Lemma replace_from_line old new a b : forall skip,
  old <> "" -> Py.has_char "010"%char old = false -> skip <= Py.len a ->
  Py.replace_from old new skip (a +:+ String "010" b) =
  Py.replace_from old new skip a +:+ String "010" (Py.replace_from old new 0 b).
Proof.
  intros skip Hne Hold. revert skip. induction a as [|c a IH]; intros skip Hskip.
  - simpl in Hskip. assert (skip = 0) as -> by lia.
    change ("" +:+ String "010" b) with (String "010" b). cbn [Py.replace_from].
    pose proof (startswith_line old "" b Hold) as E.
    change ("" +:+ String "010" b) with (String "010" b) in E. rewrite E.
    destruct old as [|o old]; [contradiction|]. reflexivity.
  - rewrite app_cons. cbn [Py.replace_from]. destruct skip as [|k].
    + rewrite <- app_cons, startswith_line by assumption.
      destruct (Py.startswith (String c a) old) eqn:E.
      * rewrite app_assoc. f_equal. apply IH.
        apply startswith_len in E. simpl in E. lia.
      * rewrite app_cons. f_equal. apply IH. lia.
    + apply IH. simpl in Hskip. lia.
Qed.

Lemma replace_line old new a b :
  old <> "" -> Py.has_char "010"%char old = false ->
  Py.replace (a +:+ String "010" b) old new =
  Py.replace a old new +:+ String "010" (Py.replace b old new).
Proof. intros Hne H. unfold Py.replace. apply replace_from_line; [assumption..|lia]. Qed.

Lemma replace_same old new s :
  Py.contains s old = false -> Py.replace s old new = s.
Proof.
  unfold Py.replace. induction s as [|c s IH]; intros H; [reflexivity|].
  cbn [Py.contains] in H. apply orb_false_iff in H as [H1 H2].
  cbn [Py.replace_from]. rewrite H1. f_equal. now apply IH.
Qed.

Lemma escaping_line a b :
  ProcessJekyllIncompatibleContent (a +:+ String "010" b) =
  ProcessJekyllIncompatibleContent a +:+ String "010" (ProcessJekyllIncompatibleContent b).
Proof.
  unfold ProcessJekyllIncompatibleContent.
  now rewrite !replace_line by (discriminate || reflexivity).
Qed.

(** X12. After the header has been removed, [ProcessDocument] works line
    by line: where the text without its header is two texts joined by a
    newline, the result is the escaping and the special syntax applied to
    each of them, joined by a newline.  A text without a header that holds
    none of the eight markers the two steps look for is returned
    unchanged. *)
Theorem ProcessDocument_works_line_by_line (Content : string) :
  (forall a b,
     RemoveMetadataHeader Content = a +:+ newline +:+ b ->
     ProcessDocument Content =
     ProcessSpecialSyntax (ProcessJekyllIncompatibleContent a) +:+ newline +:+
     ProcessSpecialSyntax (ProcessJekyllIncompatibleContent b))
  /\ (RemoveMetadataHeader Content = Content ->
      Forall (fun marker => Py.contains Content marker = false)
        ["{% "; "{{ "; " }}"; " %}"; "{{{"; "}}}"; "- [ ] "; "- [x] "] ->
      ProcessDocument Content = Content).
Proof.
  split.
  - intros a b E. unfold ProcessDocument. rewrite E. unfold newline.
    change (String "010" "" +:+ b) with (String "010" b). rewrite escaping_line.
    rewrite ProcessSpecialSyntax_passes.
    rewrite (re_sub_line (task_pattern "- [ ] ") eq_refl eq_refl
               (fun prev a b => task_line "- [ ] " prev a b eq_refl)).
    rewrite (re_sub_line (task_pattern "- [x] ") eq_refl eq_refl
               (fun prev a b => task_line "- [x] " prev a b eq_refl)).
    now rewrite !ProcessSpecialSyntax_passes.
  - intros E H. unfold ProcessDocument. rewrite E.
    repeat match goal with
           | H : Forall _ (_ :: _) |- _ =>
               let H1 := fresh "Hm" in apply Forall_cons in H as [H1 H]
           end.
    unfold ProcessJekyllIncompatibleContent.
    rewrite (replace_same "{% " _ Content), (replace_same "{{ " _ Content),
      (replace_same " }}" _ Content), (replace_same " %}" _ Content),
      (replace_same "{{{" _ Content), (replace_same "}}}" _ Content) by assumption.
    rewrite ProcessSpecialSyntax_passes.
    rewrite (task_pass_same "- [ ] ") by (reflexivity || assumption).
    now apply task_pass_same.
Qed.

(** ** Identifiers and categories *)

Lemma search_from_match r s : forall prev m,
  search_from r prev s = Some m -> exists prev' s', match_at r prev' s' = Some m.
Proof.
  induction s as [|c s IH]; intros prev m E; simpl in E.
  - destruct (match_at r prev "") eqn:E0; [|discriminate]. inversion E; subst. eauto.
  - destruct (match_at r prev (String c s)) eqn:E0; [inversion E; subst; eauto|eauto].
Qed.

Lemma PrefixPattern_group prev s m :
  match_at PrefixPattern prev s = Some m -> is_docid (group_str m 1).
Proof.
  unfold match_at, PrefixPattern, DocIDShape, Times. cbn [rmatch]. intros E.
  destruct prev; [discriminate|].
  rep_step E as a r1. chr_step E. rep_step E as b r2. cls_step E Hc.
  take_is (a +:+ "-" +:+ b) E. inversion E. unfold group_str. simpl.
  exists a, b. simpl in *. repeat split; try assumption; lia.
Qed.

Lemma StemPattern_group prev s m :
  match_at StemPattern prev s = Some m -> is_docid (group_str m 1).
Proof.
  unfold match_at, StemPattern, DocIDShape, Times. cbn [rmatch Lit]. intros E.
  destruct prev; [discriminate|].
  rep_step E as a r1. chr_step E. rep_step E as b r2. do 3 chr_step E.
  take_is (a +:+ "-" +:+ b) E.
  assert (Hid : is_docid (a +:+ "-" +:+ b))
    by (exists a, b; simpl in *; repeat split; try assumption; lia).
  eos_step E; inversion E; exact Hid.
Qed.

Lemma SuffixPattern_group prev s m :
  match_at SuffixPattern prev s = Some m -> is_docid (group_str m 1).
Proof.
  unfold match_at, SuffixPattern, DocIDShape, Times. cbn [rmatch Lit]. intros E.
  chr_step E. rep_step E as a r1. chr_step E. rep_step E as b r2. do 3 chr_step E.
  take_is (a +:+ "-" +:+ b) E.
  assert (Hid : is_docid (a +:+ "-" +:+ b))
    by (exists a, b; simpl in *; repeat split; try assumption; lia).
  eos_step E; inversion E; exact Hid.
Qed.

Lemma GetDocumentID_shape Filename :
  GetDocumentID Filename = "" \/ is_docid (GetDocumentID Filename).
Proof.
  unfold GetDocumentID, Patterns, first_search.
  destruct (re_search PrefixPattern Filename) as [m|] eqn:E1.
  { right. apply search_from_match in E1 as (prev & s & E). eapply PrefixPattern_group, E. }
  destruct (re_search StemPattern Filename) as [m|] eqn:E2.
  { right. apply search_from_match in E2 as (prev & s & E). eapply StemPattern_group, E. }
  destruct (re_search SuffixPattern Filename) as [m|] eqn:E3.
  { right. apply search_from_match in E3 as (prev & s & E). eapply SuffixPattern_group, E. }
  now left.
Qed.

Lemma GetCategory_prefix a b M :
  Py.has_char "-"%char a = false ->
  GetCategory (a +:+ "-" +:+ b) M = default "" (M !! a).
Proof.
  intros Ha. unfold GetCategory.
  assert (String.eqb (a +:+ "-" +:+ b) "" = false) as ->
    by (apply String.eqb_neq; destruct a; discriminate).
  rewrite has_char_app. cbn [Py.has_char String.append]. rewrite Ascii.eqb_refl, orb_true_r.
  change (String "-" b) with (String "-" "" +:+ b).
  rewrite (split_head "-" "" a b Ha). simpl. now destruct (M !! a).
Qed.

(** X13. The category of a document is decided by the text of its
    identifier before the first hyphen: [GetCategory] of [a-b] is the entry
    of the mappings for [a], and the empty string when there is none; the
    empty identifier has the empty category whatever the mappings hold. *)
Theorem GetCategory_reads_the_text_before_the_hyphen (a b : string)
    (CategoryMappings : gmap string string) :
  Py.has_char "-"%char a = false ->
  GetCategory (a +:+ "-" +:+ b) CategoryMappings = default "" (CategoryMappings !! a)
  /\ GetCategory "" CategoryMappings = "".
Proof. intros Ha. split; [now apply GetCategory_prefix|reflexivity]. Qed.

Lemma GetCategory_reads_the_text_before_the_hyphen_witness :
  GetCategory ("10" +:+ "-" +:+ "20") {[ "10" := "vision" ]} =
    default "" (({[ "10" := "vision" ]} : gmap string string) !! "10")
  /\ GetCategory "" {[ "10" := "vision" ]} = "".
Proof.
  exact (GetCategory_reads_the_text_before_the_hyphen "10" "20" {[ "10" := "vision" ]} eq_refl).
Defined.

(** X14. [GetDocumentID] returns the empty string or an identifier of the
    shape DD-DD, for every file name whose characters all stand before
    U+0660 (there the digits of the patterns are 0-9); the category of that
    identifier is the entry of the mappings for its first two digits. *)
Theorem GetDocumentID_returns_an_identifier_or_nothing (Filename : string) :
  below_0660 Filename = true ->
  GetDocumentID Filename = "" \/
  exists a b,
    GetDocumentID Filename = a +:+ "-" +:+ b /\ digits 2 a /\ digits 2 b /\
    forall CategoryMappings,
      GetCategory (GetDocumentID Filename) CategoryMappings =
      default "" (CategoryMappings !! a).
Proof.
  intros _.
  destruct (GetDocumentID_shape Filename) as [H|(a & b & E & Ha & Hb)]; [now left|].
  right. exists a, b. repeat split; try assumption; try apply Ha; try apply Hb.
  intros M. rewrite E. apply GetCategory_prefix.
  apply (digits_no_char "-" a); [apply Ha|reflexivity].
Qed.

Lemma GetDocumentID_returns_an_identifier_or_nothing_witness :
  GetDocumentID "Vision-10-20.md" = "" \/
  exists a b,
    GetDocumentID "Vision-10-20.md" = a +:+ "-" +:+ b /\ digits 2 a /\ digits 2 b /\
    forall CategoryMappings,
      GetCategory (GetDocumentID "Vision-10-20.md") CategoryMappings =
      default "" (CategoryMappings !! a).
Proof. exact (GetDocumentID_returns_an_identifier_or_nothing "Vision-10-20.md" eq_refl). Defined.

(** ** The document registry *)

Lemma registry_set_get R k v : registry_get (registry_set R k v) k = Some v.
Proof.
  induction R as [|[k' v'] R IH]; simpl; [now rewrite String.eqb_refl|].
  destruct (String.eqb_spec k' k) as [->|Hne]; simpl.
  - now rewrite String.eqb_refl.
  - apply String.eqb_neq in Hne. now rewrite Hne.
Qed.

Lemma registry_set_other R k v k' :
  k' <> k -> registry_get (registry_set R k v) k' = registry_get R k'.
Proof.
  intros Hne. induction R as [|[k0 v0] R IH]; simpl.
  - apply not_eq_sym, String.eqb_neq in Hne. now rewrite Hne.
  - destruct (String.eqb_spec k0 k) as [->|Hk]; simpl.
    + apply not_eq_sym, String.eqb_neq in Hne. now rewrite Hne.
    + now rewrite IH.
Qed.

Lemma registry_set_keys R k v :
  NoDup (map fst R) ->
  NoDup (map fst (registry_set R k v)) /\
  forall k', In k' (map fst (registry_set R k v)) <-> In k' (map fst R) \/ k' = k.
Proof.
  induction R as [|[k0 v0] R IH]; intros H; simpl.
  - split; [repeat constructor; apply not_elem_of_nil|]. intuition.
  - apply NoDup_cons in H as [H0 H]. destruct (IH H) as [IH1 IH2].
    destruct (String.eqb_spec k0 k) as [->|Hk]; simpl.
    + split; [now apply NoDup_cons|]. intuition.
    + split.
      * apply NoDup_cons. split; [|assumption].
        rewrite list_elem_of_In, IH2. rewrite list_elem_of_In in H0. intuition.
      * intros k'. rewrite IH2. intuition.
Qed.

Section Builder.
Variable BaseURL : string.
Variable CategoryMappings : gmap string string.

Lemma register_document_built files R F :
  registry_built BaseURL CategoryMappings files R ->
  registry_built BaseURL CategoryMappings (files ++ [F])
    (register_document BaseURL CategoryMappings R F).
Proof.
  intros [Hnd H].
  assert (Hold : registry_built BaseURL CategoryMappings (files ++ [F]) R).
  { split; [assumption|]. intros k info Hk.
    destruct (H k info Hk) as (Hid & Hurl & F' & c & HF & Hload & Hname).
    repeat split; try assumption. exists F', c. rewrite in_app_iff. auto. }
  unfold register_document. destruct (file_load F) as [Content|e] eqn:Hload; [|exact Hold].
  rewrite ExtractMetadata_run.
  destruct (String.eqb_spec (GetDocumentID (file_name F)) "") as [E|Hne]; [exact Hold|].
  destruct (GetDocumentID_shape (file_name F)) as [E|Hid]; [contradiction|].
  split; [now apply registry_set_keys|].
  intros k info Hk.
  destruct (String.eqb_spec k (GetDocumentID (file_name F))) as [->|Hk'].
  - rewrite registry_set_get in Hk. inversion Hk; subst info. cbn [info_url].
    repeat split; try assumption. exists F, Content. rewrite in_app_iff. simpl. auto.
  - rewrite registry_set_other in Hk by assumption. now apply Hold.
Qed.

Lemma register_documents_built files' : forall files R,
  registry_built BaseURL CategoryMappings files R ->
  registry_built BaseURL CategoryMappings (files ++ files')
    (foldl (register_document BaseURL CategoryMappings) R files').
Proof.
  induction files' as [|F files' IH]; intros files R H; simpl.
  - now rewrite List.app_nil_r.
  - replace (files ++ F :: files') with ((files ++ [F]) ++ files')
      by now rewrite <- List.app_assoc.
    apply IH. now apply register_document_built.
Qed.

(** A key that is in the registry stays. *)
Lemma register_document_keeps R F k :
  registry_get R k <> None ->
  registry_get (register_document BaseURL CategoryMappings R F) k <> None.
Proof.
  intros H. unfold register_document. destruct (file_load F); [|assumption].
  destruct (ExtractMetadata _); [|assumption].
  destruct (String.eqb _ ""); [assumption|].
  destruct (String.eqb_spec k (GetDocumentID (file_name F))) as [->|Hk].
  - now rewrite registry_set_get.
  - now rewrite registry_set_other.
Qed.

Lemma register_documents_keep files : forall R k,
  registry_get R k <> None ->
  registry_get (foldl (register_document BaseURL CategoryMappings) R files) k <> None.
Proof.
  induction files as [|F files IH]; intros R k H; simpl; [assumption|].
  apply IH. now apply register_document_keeps.
Qed.

Lemma registered files : forall R F Content,
  In F files -> file_load F = Returns Content -> GetDocumentID (file_name F) <> "" ->
  registry_get (foldl (register_document BaseURL CategoryMappings) R files)
    (GetDocumentID (file_name F)) <> None.
Proof.
  induction files as [|F' files IH]; intros R F Content HF Hload Hne; [destruct HF|].
  simpl. destruct HF as [->|HF]; [|now apply (IH _ F Content)].
  apply register_documents_keep. unfold register_document.
  rewrite Hload, ExtractMetadata_run.
  apply String.eqb_neq in Hne. rewrite Hne. now rewrite registry_set_get.
Qed.

Lemma BuildDocumentRegistry_built files :
  registry_built BaseURL CategoryMappings files
    (_BuildDocumentRegistry BaseURL CategoryMappings files).
Proof.
  apply (register_documents_built files [] []). split; [constructor|].
  intros k info Hk. discriminate.
Qed.

Lemma BuildDocumentRegistry_entry files F Content :
  In F files -> file_load F = Returns Content -> GetDocumentID (file_name F) <> "" ->
  exists info,
    registry_get (_BuildDocumentRegistry BaseURL CategoryMappings files)
      (GetDocumentID (file_name F)) = Some info /\
    info_url info =
    Some (page_url BaseURL (GetCategory (GetDocumentID (file_name F)) CategoryMappings)
            (GetDocumentID (file_name F))).
Proof.
  intros HF Hload Hne.
  pose proof (registered files [] F Content HF Hload Hne) as H.
  fold (_BuildDocumentRegistry BaseURL CategoryMappings files) in H.
  destruct (registry_get _ _) as [info|] eqn:E; [|contradiction].
  exists info. split; [reflexivity|].
  now destruct (proj2 (BuildDocumentRegistry_built files) _ _ E) as (_ & Hurl & _).
Qed.
End Builder.

(** X15. The registry that [_BuildDocumentRegistry] builds.  No key is
    there twice.  Every key is the identifier of the name of a file that
    could be loaded, an identifier of the shape DD-DD when the characters
    of that name all stand before U+0660, and its entry's url is
    [BaseURL/docs/<category of the key>/<key>/].  Every file that could be
    loaded and whose name gives an identifier has an entry under that
    identifier. *)
Theorem BuildDocumentRegistry_registers_the_identified_files (BaseURL : string)
    (CategoryMappings : gmap string string) (MarkdownFiles : list SourceFile) :
  let R := _BuildDocumentRegistry BaseURL CategoryMappings MarkdownFiles in
  NoDup (map fst R)
  /\ (forall k info,
        registry_get R k = Some info ->
        k <> "" /\
        info_url info = Some (page_url BaseURL (GetCategory k CategoryMappings) k) /\
        exists F Content,
          In F MarkdownFiles /\ file_load F = Returns Content /\
          GetDocumentID (file_name F) = k /\
          (below_0660 (file_name F) = true -> is_docid k))
  /\ (forall F Content,
        In F MarkdownFiles -> file_load F = Returns Content ->
        GetDocumentID (file_name F) <> "" ->
        exists info, registry_get R (GetDocumentID (file_name F)) = Some info).
Proof.
  intros R. destruct (BuildDocumentRegistry_built BaseURL CategoryMappings MarkdownFiles)
    as [Hnd H].
  split; [exact Hnd|]. split.
  - intros k info Hk. destruct (H k info Hk) as (Hid & Hurl & F & Content & HF & HL & E).
    split; [|split; [exact Hurl|]].
    + destruct Hid as (a & b & -> & _). destruct a; discriminate.
    + exists F, Content. repeat split; try assumption. intros _. exact Hid.
  - intros F Content HF Hload Hne.
    destruct (BuildDocumentRegistry_entry BaseURL CategoryMappings MarkdownFiles F Content
                HF Hload Hne) as (info & E & _).
    now exists info.
Qed.

(** X16. From the file to the link.  When a file that could be loaded has
    a name that gives the identifier DD-DD, every reference [[DD-DD]] in a
    text processed against the registry built from the files becomes a
    link to [BaseURL/docs/<category>/DD-DD/].  The base url and the
    category name are assumed to hold no opening bracket. *)
Theorem reference_to_a_converted_file_is_linked (BaseURL : string)
    (CategoryMappings : gmap string string) (MarkdownFiles : list SourceFile)
    (F : SourceFile) (Content pre post : string) :
  let R := _BuildDocumentRegistry BaseURL CategoryMappings MarkdownFiles in
  let id := GetDocumentID (file_name F) in
  let Category := GetCategory id CategoryMappings in
  In F MarkdownFiles -> file_load F = Returns Content -> id <> "" ->
  Py.has_char "["%char BaseURL = false -> Py.has_char "["%char Category = false ->
  ProcessCrossReferences (pre +:+ bracket id +:+ post) R =
  ProcessCrossReferences pre R +:+
  (bracket id +:+ "(" +:+ page_url BaseURL Category id +:+ ")") +:+
  ProcessCrossReferences post R.
Proof.
  intros R id Category HF Hload Hne HB HC.
  destruct (BuildDocumentRegistry_entry BaseURL CategoryMappings MarkdownFiles F Content
              HF Hload Hne) as (info & E & Hurl).
  fold id in E, Hurl. fold R in E. fold Category in Hurl.
  destruct (GetDocumentID_shape (file_name F)) as [E0|Hid]; [contradiction|].
  fold id in Hid.
  pose proof (doc_reference_resolved R pre post id info Hid E) as H.
  rewrite Hurl in H. apply H. simpl. unfold page_url.
  rewrite !has_char_app, HB, HC, (docid_open id Hid). reflexivity.
Qed.

Lemma reference_to_a_converted_file_is_linked_witness :
  let F := {| file_name := "10-20-Vision.md"; file_stem := "10-20-Vision";
              file_load := Returns "# Project Vision" |} in
  let R := _BuildDocumentRegistry "/site" {[ "10" := "vision" ]} [F] in
  ProcessCrossReferences ("see " +:+ bracket (GetDocumentID (file_name F)) +:+ ".") R =
  ProcessCrossReferences "see " R +:+
  (bracket (GetDocumentID (file_name F)) +:+ "(" +:+
   page_url "/site" (GetCategory (GetDocumentID (file_name F)) {[ "10" := "vision" ]})
     (GetDocumentID (file_name F)) +:+ ")") +:+
  ProcessCrossReferences "." R.
Proof.
  intros F R.
  exact (reference_to_a_converted_file_is_linked "/site" {[ "10" := "vision" ]} [F] F
           "# Project Vision" "see " "." (or_introl eq_refl) eq_refl
           ltac:(discriminate) eq_refl eq_refl).
Defined.

(** ** Table rows *)

Lemma split_piece c a s :
  Py.has_char c a = false ->
  Py.split (a +:+ String c "" +:+ s) (String c "") = a :: Py.split s (String c "").
Proof.
  unfold Py.split. induction a as [|x a IH]; intros Ha.
  - change ("" +:+ String c "" +:+ s) with (String c s).
    cbn [Py.split_from Py.startswith]. now rewrite Ascii.eqb_refl, startswith_nil.
  - simpl in Ha. apply orb_false_iff in Ha as [Hx Ha]. rewrite app_cons.
    cbn [Py.split_from Py.startswith]. rewrite Ascii.eqb_sym, Hx. cbn [andb].
    now rewrite IH.
Qed.

Lemma join_cons sep l l' ls :
  Py.join sep (l :: l' :: ls) = l +:+ sep +:+ Py.join sep (l' :: ls).
Proof. reflexivity. Qed.

(** Joining with a separator and splitting at it gives the pieces back,
    when no piece holds the separator. *)
Lemma split_join c cols :
  cols <> [] -> Forall (fun col => Py.has_char c col = false) cols ->
  Py.split (Py.join (String c "") cols) (String c "") = cols.
Proof.
  induction cols as [|col cols IH]; intros Hne H; [contradiction|].
  apply Forall_cons in H as [Hcol H]. destruct cols as [|col' cols].
  - simpl. now apply split_no_separator.
  - rewrite join_cons, split_piece by assumption. f_equal. now apply IH.
Qed.

Lemma rstrip_chars_keep chars a w :
  all_in (none_of chars) a = true ->
  Py.rstrip_chars chars (a +:+ w) = a +:+ Py.rstrip_chars chars w.
Proof.
  induction a as [|x a IH]; intros H; [reflexivity|].
  simpl in H. apply andb_true_iff in H as [Hx H]. unfold none_of in Hx.
  apply negb_true_iff in Hx.
  rewrite app_cons. cbn [Py.rstrip_chars]. rewrite IH by assumption.
  rewrite Hx, (app_cons x a). now destruct (a +:+ Py.rstrip_chars chars w).
Qed.

Lemma no_pipe col : Py.has_char "|"%char col = false -> all_in (none_of "|") col = true.
Proof.
  induction col as [|x col IH]; simpl; [reflexivity|]. intros H.
  apply orb_false_iff in H as [Hx H]. rewrite IH by assumption.
  unfold none_of. cbn [Py.has_char]. rewrite (Ascii.eqb_sym "|" x), Hx. reflexivity.
Qed.

Lemma rstrip_row cols :
  Forall (fun col => Py.has_char "|"%char col = false) cols -> List.last cols "" <> "" ->
  Py.rstrip_chars "|" (Py.join "|" cols +:+ "|") = Py.join "|" cols /\
  Py.join "|" cols <> "".
Proof.
  induction cols as [|col cols IH]; intros H Hlast; [contradiction|].
  apply Forall_cons in H as [Hcol H]. destruct cols as [|col' cols].
  - simpl in Hlast |- *. split; [|assumption].
    rewrite rstrip_chars_keep by now apply no_pipe. simpl. apply app_nil_r.
  - destruct (IH H Hlast) as [IH1 IH2]. rewrite join_cons. split.
    + rewrite !app_assoc. rewrite rstrip_chars_keep by now apply no_pipe. f_equal.
      change ("|" +:+ Py.join "|" (col' :: cols) +:+ "|")
        with (String "|" (Py.join "|" (col' :: cols) +:+ "|")).
      cbn [Py.rstrip_chars]. rewrite IH1.
      destruct (Py.join "|" (col' :: cols)); [contradiction|reflexivity].
    + destruct col; discriminate.
Qed.

(** X17. A table row is read back column by column: the row written as a
    pipe, the columns joined by pipes and a pipe gives, through
    [_ParseTableRow], the columns with the white space around each taken
    off.  No column holds a pipe, and the first and the last column are
    not empty (an empty one would be taken off with the pipes). *)
Theorem ParseTableRow_reads_the_columns_back (cols : list string) :
  Forall (fun col => Py.has_char "|"%char col = false) cols ->
  hd "" cols <> "" -> List.last cols "" <> "" ->
  _ParseTableRow ("|" +:+ Py.join "|" cols +:+ "|") = map Py.strip cols.
Proof.
  intros H Hhd Hlast. unfold _ParseTableRow, Py.strip_chars.
  destruct (rstrip_row cols H Hlast) as [Hr Hne].
  assert (Hl : Py.lstrip_chars "|" ("|" +:+ Py.join "|" cols +:+ "|") =
               Py.join "|" cols +:+ "|").
  { change ("|" +:+ Py.join "|" cols +:+ "|") with (String "|" (Py.join "|" cols +:+ "|")).
    cbn [Py.lstrip_chars Py.has_char]. rewrite Ascii.eqb_refl. cbn [orb].
    destruct cols as [|col cols]; [contradiction|]. simpl in Hhd.
    apply Forall_cons in H as [Hcol _]. destruct col as [|x col]; [contradiction|].
    simpl in Hcol. apply orb_false_iff in Hcol as [Hx _].
    assert (Hx' : Py.has_char x "|" = false)
      by (cbn [Py.has_char]; now rewrite Ascii.eqb_sym, Hx).
    assert (Hj : exists tail, Py.join "|" (String x col :: cols) = String x tail)
      by (destruct cols; [now exists col|rewrite join_cons; now eexists]).
    destruct Hj as [tail ->]. rewrite app_cons. cbn [Py.lstrip_chars].
    now rewrite Hx'. }
  rewrite Hl, Hr. f_equal. apply split_join; [|assumption].
  destruct cols; [contradiction|discriminate].
Qed.

Lemma ParseTableRow_reads_the_columns_back_witness :
  _ParseTableRow ("|" +:+ Py.join "|" [" Name "; " "; " Status "] +:+ "|") =
  map Py.strip [" Name "; " "; " Status "].
Proof.
  apply (ParseTableRow_reads_the_columns_back [" Name "; " "; " Status "]).
  - repeat constructor.
  - discriminate.
  - discriminate.
Defined.

(** ** Timestamps and validation *)

Lemma datetime_new_outcome Y M D h mi :
  (forall e, datetime_new Y M D h mi = Raises e -> e = ValueError) /\
  (forall dt, datetime_new Y M D h mi = Returns dt -> valid_datetime dt).
Proof.
  unfold datetime_new. destruct (_ && _)%bool eqn:E; split; intros x Hx;
    inversion Hx; subst; try reflexivity.
  repeat (apply andb_true_iff in E as [E ?]).
  unfold valid_datetime. simpl. lia.
Qed.

Lemma strptime_outcome s f :
  (forall e, strptime s f = Raises e -> e = ValueError) /\
  (forall dt, strptime s f = Returns dt -> valid_datetime dt).
Proof.
  unfold strptime.
  destruct (TimeRE_pattern false f) as [r|]; [|split; intros x Hx; now inversion Hx].
  destruct (re_match r s) as [found|]; [|split; intros x Hx; now inversion Hx].
  destruct (negb _); [split; intros x Hx; now inversion Hx|].
  apply datetime_new_outcome.
Qed.

Lemma try_formats_outcome s Fs o :
  try_formats s Fs = Some o -> exists dt, o = Returns dt /\ valid_datetime dt.
Proof.
  induction Fs as [|F Fs IH]; simpl; [discriminate|].
  destruct (strptime_outcome s F) as [He Hd].
  destruct (strptime s F) as [dt|e]; [intros E; inversion E; subst; eauto|].
  rewrite (He e eq_refl). assumption.
Qed.

Lemma ParseTimestamp_outcome s :
  (forall e, ParseTimestamp s = Raises e -> e = ValueError) /\
  (forall dt, ParseTimestamp s = Returns dt -> valid_datetime dt).
Proof.
  unfold ParseTimestamp. destruct (try_formats s Formats) as [o|] eqn:E.
  - apply try_formats_outcome in E as (dt & -> & Hdt).
    split; intros x Hx; inversion Hx; now subst.
  - destruct (re_match FlexiblePattern s) as [m|]; [|split; intros x Hx; now inversion Hx].
    destruct (MonthNum _) as [mn|]; [|split; intros x Hx; now inversion Hx].
    match goal with |- context [datetime_new ?Y ?M ?D ?h ?mi] =>
      destruct (datetime_new_outcome Y M D h mi) as [He Hd];
      destruct (datetime_new Y M D h mi) as [dt|e]
    end; split; intros x Hx; inversion Hx; subst; auto.
Qed.

(** X18. [ParseTimestamp] fails with [ValueError] and with nothing else,
    and what it returns is a date of the calendar: the year from 1 to
    9999, the month from 1 to 12, the day within the month (leap years
    counted), the hour from 0 to 23 and the minute from 0 to 59. *)
Theorem ParseTimestamp_returns_a_calendar_date (TimestampStr : string) :
  (forall e, ParseTimestamp TimestampStr = Raises e -> e = ValueError)
  /\ (forall dt, ParseTimestamp TimestampStr = Returns dt -> valid_datetime dt).
Proof. apply ParseTimestamp_outcome. Qed.

Lemma Version_sound v m : re_match VersionPattern v = Some m -> is_version v.
Proof.
  unfold re_match, match_at, VersionPattern, Plus. cbn [rmatch]. intros E.
  rep_step E as a r1. chr_step E. rep_step E as b tail.
  exists a, b, tail. repeat split; try assumption.
  unfold newline. eos_step E; auto.
Qed.

Lemma Version_complete v : is_version v -> exists m, re_match VersionPattern v = Some m.
Proof.
  intros (a & b & tail & -> & [La Ha] & [Lb Hb] & Htail).
  unfold re_match, match_at, VersionPattern, Plus. cbn [rmatch].
  eexists. rep_intro a; [right; reflexivity|].
  simpl String.append. cbn match. rewrite Ascii.eqb_refl.
  rep_intro b; [destruct Htail as [-> | ->]; right; simpl; auto|].
  destruct Htail as [-> | ->]; reflexivity.
Qed.

Lemma append_not_nil {A} (l : list A) x : l ++ [x] <> [].
Proof. destruct l; discriminate. Qed.

(** X19. [ValidateMetadata] raises nothing, and its flag tells whether the
    list of errors is empty.  It accepts a dictionary, returning no error,
    exactly when the title is there and is not empty, each of created_at
    and modified_at, when there and not empty, is a text that
    [ParseTimestamp] parses, and the version, when there and not empty, is
    digits, a period and digits, with at most a final newline after
    them.  The timestamps and the version of the dictionary are ASCII, so
    that the digits, the white space and the letters read are those that
    Python reads. *)
Theorem ValidateMetadata_accepts (md : Metadata) :
  (forall k v, In k ["created_at"; "modified_at"; "version"] ->
               md !! k = Some v -> Py.isascii v = true) ->
  (exists Errors, ValidateMetadata md = Returns (Nat.eqb (length Errors) 0, Errors))
  /\ (ValidateMetadata md = Returns (true, []) <->
      truthy_field md "title" <> None
      /\ (forall v, truthy_field md "created_at" = Some v ->
                    exists dt, ParseTimestamp v = Returns dt)
      /\ (forall v, truthy_field md "modified_at" = Some v ->
                    exists dt, ParseTimestamp v = Returns dt)
      /\ (forall v, truthy_field md "version" = Some v -> is_version v)).
Proof.
  intros _. unfold ValidateMetadata. cbn [foldl]. unfold check_required.
  assert (Hdate : forall k Errors,
            exists Errors',
              check_date md (Returns Errors) k = Returns Errors' /\
              ((Errors' = Errors /\
                forall v, truthy_field md k = Some v -> exists dt, ParseTimestamp v = Returns dt)
               \/ (Errors' = Errors ++ [InvalidDate k] /\
                   exists v, truthy_field md k = Some v /\
                             ParseTimestamp v = Raises ValueError))).
  { intros k Errors. unfold check_date.
    destruct (truthy_field md k) as [v|]; [|exists Errors; split; [reflexivity|left]].
    - destruct (ParseTimestamp_outcome v) as [He _].
      destruct (ParseTimestamp v) as [dt|e] eqn:P.
      + exists Errors. split; [reflexivity|left]. split; [reflexivity|].
        intros v' E. inversion E; subst. eauto.
      + rewrite (He e eq_refl) in *. exists (Errors ++ [InvalidDate k]).
        split; [reflexivity|right]. split; [reflexivity|]. eauto.
    - split; [reflexivity|]. discriminate. }
  set (E0 := match truthy_field md "title" with
             | Some _ => []
             | None => [] ++ [MissingField "title"]
             end).
  destruct (Hdate "created_at" E0) as (E1 & -> & H1).
  destruct (Hdate "modified_at" E1) as (E2 & -> & H2).
  set (E3 := match truthy_field md "version" with
             | Some v => match re_match VersionPattern v with
                         | Some _ => E2
                         | None => E2 ++ [InvalidVersion v]
                         end
             | None => E2
             end).
  split; [now exists E3|].
  assert (Hflag : (Nat.eqb (length E3) 0, E3) = (true, []) <-> E3 = []).
  { split; [now inversion 1|]. now intros ->. }
  assert (H3 : E3 = [] <-> E2 = [] /\ forall v, truthy_field md "version" = Some v -> is_version v).
  { subst E3. destruct (truthy_field md "version") as [v|].
    - destruct (re_match VersionPattern v) as [m|] eqn:Ev.
      + split; [intros ->; split; [reflexivity|]|tauto].
        intros v' E. inversion E; subst. now apply (Version_sound _ m).
      + split; [intros E; now apply append_not_nil in E|].
        intros [_ H]. destruct (Version_complete v (H v eq_refl)) as [m Em]. congruence.
    - split; [intros ->; split; [reflexivity|discriminate]|tauto]. }
  assert (H0 : E0 = [] <-> truthy_field md "title" <> None).
  { subst E0. destruct (truthy_field md "title"); split; try discriminate; tauto. }
  split.
  - intros E. assert (HE : E3 = []) by (apply Hflag; congruence).
    apply H3 in HE as [HE2 Hv].
    destruct H2 as [[-> H2]|[-> _]]; [|now apply append_not_nil in HE2].
    destruct H1 as [[-> H1]|[-> _]]; [|now apply append_not_nil in HE2].
    apply H0 in HE2. split; [assumption|]. split; [assumption|]. split; assumption.
  - intros (Ht & Hc & Hm & Hv). f_equal. apply Hflag, H3. split; [|assumption].
    destruct H2 as [[-> _]|[_ (v & Ev & P)]];
      [|destruct (Hm v Ev) as [dt Hdt]; congruence].
    destruct H1 as [[-> _]|[_ (v & Ev & P)]];
      [|destruct (Hc v Ev) as [dt Hdt]; congruence].
    now apply H0.
Qed.

Lemma ValidateMetadata_accepts_witness :
  ValidateMetadata {[ "title" := "Vision"; "version" := "1.0" ]} = Returns (true, []).
Proof.
  destruct (ValidateMetadata_accepts {[ "title" := "Vision"; "version" := "1.0" ]})
    as [_ H].
  - intros k v [<-|[<-|[<-|[]]]] E; vm_compute in E; inversion E; reflexivity.
  - apply H. split; [vm_compute; discriminate|].
    split; [intros v E; vm_compute in E; discriminate|].
    split; [intros v E; vm_compute in E; discriminate|].
    intros v E. vm_compute in E. inversion E.
    exists "1", "0", "". repeat split; simpl; lia || reflexivity || auto.
Defined.

(** ** The reverse index *)

Lemma add_reference_fold D X rs : forall M : RefMap,
  foldl (add_reference D) M rs !! X =
  (fun l => l ++ map (fun _ => D) (List.filter (String.eqb X) rs)) <$> M !! X.
Proof.
  induction rs as [|r rs IH]; intros M; simpl.
  - destruct (M !! X); simpl; [now rewrite List.app_nil_r|reflexivity].
  - rewrite IH. unfold add_reference.
    destruct (String.eqb_spec X r) as [<-|Hne].
    + destruct (M !! X) as [l|] eqn:E; [|now rewrite E].
      rewrite lookup_insert_eq. simpl. now rewrite <- List.app_assoc.
    + destruct (M !! r); [|reflexivity]. now rewrite lookup_insert_ne.
Qed.

Lemma add_references_fold X R : forall M : RefMap,
  foldl add_references M R !! X = (fun l => l ++ referencing X R) <$> M !! X.
Proof.
  induction R as [|[D refs] R IH]; intros M; simpl.
  - destruct (M !! X); simpl; [now rewrite List.app_nil_r|reflexivity].
  - rewrite IH. unfold referencing. simpl. destruct refs as [rs|]; simpl.
    + rewrite add_reference_fold. destruct (M !! X); simpl; [|reflexivity].
      now rewrite <- List.app_assoc.
    + reflexivity.
Qed.

Lemma init_fold X (R : ReferenceRegistry) : forall M : RefMap,
  foldl (fun M entry => <[fst entry := []]> M) M R !! X =
  if bool_decide (X ∈ map fst R) then Some [] else M !! X.
Proof.
  induction R as [|[k refs] R IH]; intros M; simpl; [reflexivity|].
  rewrite IH. destruct (decide (X = k)) as [->|Hne].
  - rewrite lookup_insert_eq. rewrite (bool_decide_eq_true_2 (k ∈ k :: _)) by left.
    now destruct (bool_decide _).
  - rewrite lookup_insert_ne by congruence.
    destruct (bool_decide (X ∈ map fst R)) eqn:E.
    + apply bool_decide_eq_true in E. rewrite bool_decide_eq_true_2; [reflexivity|now right].
    + apply bool_decide_eq_false in E. rewrite bool_decide_eq_false_2; [reflexivity|].
      intros H. apply elem_of_cons in H as [H|H]; contradiction.
Qed.

(** X20. [CreateReferenceMap] is the reverse index of the registry: its
    keys are the keys of the registry, and under a key [X] it holds the
    documents whose references name [X], in the order of the registry, a
    document once for each time it names [X].  A reference to an
    identifier that is no key is dropped. *)
Theorem CreateReferenceMap_is_the_reverse_index (R : ReferenceRegistry) (X : string) :
  CreateReferenceMap R !! X =
    (if bool_decide (X ∈ map fst R) then Some (referencing X R) else None)
  /\ forall l D,
       CreateReferenceMap R !! X = Some l ->
       (In D l <-> exists refs, In (D, Some refs) R /\ In X refs).
Proof.
  assert (E : CreateReferenceMap R !! X =
              if bool_decide (X ∈ map fst R) then Some (referencing X R) else None).
  { unfold CreateReferenceMap. rewrite add_references_fold, init_fold.
    now destruct (bool_decide _). }
  split; [exact E|]. intros l D Hl. rewrite E in Hl.
  destruct (bool_decide _); [|discriminate]. inversion Hl; subst l. clear.
  unfold referencing. rewrite in_flat_map. split.
  - intros ([D' refs] & Hin & HD). simpl in HD. destruct refs as [rs|]; [|destruct HD].
    apply in_map_iff in HD as (x & -> & Hx). apply filter_In in Hx as [Hx E].
    apply String.eqb_eq in E. subst x. now exists rs.
  - intros (rs & Hin & HX). exists (D, Some rs). split; [assumption|]. simpl.
    apply in_map_iff. exists X. split; [reflexivity|].
    apply filter_In. split; [assumption|apply String.eqb_refl].
Qed.

Lemma section_lines l : forall acc,
  foldl (fun ReferenceSection DocID => ReferenceSection +:+ referenced_by_line DocID) acc l =
  acc +:+ Py.join "" (map referenced_by_line l).
Proof.
  induction l as [|D l IH]; intros acc; simpl; [now rewrite app_nil_r|].
  rewrite IH, app_assoc. f_equal. destruct l; [now rewrite app_nil_r|reflexivity].
Qed.

Lemma sorted_permutation l l' : l ≡ₚ l' -> Py.sorted l = Py.sorted l'.
Proof.
  intros H. unfold Py.sorted. apply (Sorted_unique String.le).
  - apply Sorted_merge_sort. apply _.
  - apply Sorted_merge_sort. apply _.
  - now rewrite !merge_sort_Permutation.
Qed.

Lemma sorted_sorted l : Sorted String.le l -> Py.sorted l = l.
Proof.
  intros H. unfold Py.sorted. apply (Sorted_unique String.le).
  - apply Sorted_merge_sort. apply _.
  - assumption.
  - apply merge_sort_Permutation.
Qed.

Lemma UpdateReferenceLinks_section Content id (M : RefMap) D l :
  M !! id = Some (D :: l) ->
  UpdateReferenceLinks Content id M =
  Content +:+ referenced_by_heading +:+
  Py.join "" (map referenced_by_line (Py.sorted (D :: l))).
Proof. intros E. unfold UpdateReferenceLinks. rewrite E. now rewrite section_lines. Qed.

(** X21. [UpdateReferenceLinks] returns the text unchanged when the
    document is no key of the map or is referenced by none.  Otherwise it
    puts the heading and one line for each referencing document after the
    text, the lines in ascending order of the identifiers whatever their
    order in the map: two maps that hold the same documents under the key,
    in any order, give the same text. *)
Theorem UpdateReferenceLinks_lists_the_referencing_documents (Content id : string)
    (M : RefMap) :
  (M !! id = None \/ M !! id = Some [] -> UpdateReferenceLinks Content id M = Content)
  /\ (forall l, M !! id = Some l -> l <> [] -> Sorted String.le l ->
        UpdateReferenceLinks Content id M =
        Content +:+ referenced_by_heading +:+ Py.join "" (map referenced_by_line l))
  /\ (forall (M' : RefMap) l l',
        M !! id = Some l -> M' !! id = Some l' -> l ≡ₚ l' ->
        UpdateReferenceLinks Content id M = UpdateReferenceLinks Content id M').
Proof.
  split; [|split].
  - unfold UpdateReferenceLinks. now intros [-> | ->].
  - intros l E Hne Hs. destruct l as [|D l]; [contradiction|].
    rewrite (UpdateReferenceLinks_section _ _ _ D l E). now rewrite sorted_sorted.
  - intros M' l l' E E' Hp. destruct l as [|D l].
    + apply Permutation_nil_l in Hp. subst l'.
      unfold UpdateReferenceLinks. now rewrite E, E'.
    + destruct l' as [|D' l']; [now apply Permutation_nil_r in Hp|].
      rewrite (UpdateReferenceLinks_section _ _ _ D l E),
        (UpdateReferenceLinks_section _ _ _ D' l' E').
      now rewrite (sorted_permutation _ _ Hp).
Qed.

(** X22. With a registry none of whose entries has a references key, as
    the registry builder writes them, the reverse index holds an empty
    list under every key and [UpdateReferenceLinks] adds nothing to any
    text. *)
Theorem no_references_no_section (R : ReferenceRegistry) (Content id : string) :
  (forall k refs, In (k, refs) R -> refs = None) ->
  UpdateReferenceLinks Content id (CreateReferenceMap R) = Content.
Proof.
  intros H. unfold UpdateReferenceLinks, CreateReferenceMap.
  rewrite add_references_fold, init_fold.
  assert (E : referencing id R = []).
  { unfold referencing. induction R as [|[k refs] R IH]; [reflexivity|]. simpl.
    rewrite (H k refs) by now left. simpl. apply IH.
    intros k' refs' Hin. apply (H k'). now right. }
  rewrite E. now destruct (bool_decide _).
Qed.

Lemma no_references_no_section_witness :
  UpdateReferenceLinks "text" "10-20" (CreateReferenceMap [("10-20", None); ("10-30", None)]) =
  "text".
Proof.
  apply (no_references_no_section [("10-20", None); ("10-30", None)] "text" "10-20").
  intros k refs [E|[E|[]]]; now inversion E.
Defined.

(** ** The date format read back *)

Lemma digit_cases x :
  digit x = true ->
  In x ["0"; "1"; "2"; "3"; "4"; "5"; "6"; "7"; "8"; "9"]%char.
Proof.
  destruct x as [[] [] [] [] [] [] [] []]; intros H; try discriminate H;
    simpl; repeat ((left; reflexivity) || right).
Qed.

(** A text that starts with a digit is none of the three formats that
    start with the name of a month. *)
Lemma named_formats_reject_digit x s F :
  digit x = true ->
  In F ["%B %d, %Y %I:%M %p"; "%B %d, %Y  %I:%M%p"; "%B %d, %Y  %I:%M %p"] ->
  strptime (String x s) F = Raises ValueError.
Proof.
  intros Hx HF. apply digit_cases in Hx. simpl in Hx, HF.
  repeat match goal with
         | H : _ \/ _ |- _ => destruct H as [H|H]
         | H : False |- _ => destruct H
         end; subst; vm_compute; reflexivity.
Qed.

Lemma date_pattern : TimeRE_pattern false "%Y-%m-%d" = Some (date_re Eps).
Proof. reflexivity. Qed.

Lemma date_time_pattern : TimeRE_pattern false "%Y-%m-%d %H:%M" = Some (date_re time_re).
Proof. reflexivity. Qed.

Lemma year_step {A} y1 y2 y3 y4 r2 prev s cs (k : @cont A) :
  digit y1 = true -> digit y2 = true -> digit y3 = true -> digit y4 = true ->
  rmatch (year_re >>> r2) prev (String y1 (String y2 (String y3 (String y4 s)))) cs k =
  rmatch r2 (Some y4) s
    ((key "Y", String y1 (String y2 (String y3 (String y4 "")))) :: cs) k.
Proof.
  intros H1 H2 H3 H4. unfold year_re. cbn [rmatch]. rewrite H1, H2, H3, H4.
  match goal with
  | |- context [Py.take_str ?n ?X] =>
      replace (Py.take_str n X) with (String y1 (String y2 (String y3 (String y4 ""))))
        by (symmetry; apply (take_len_diff (String y1 (String y2 (String y3 (String y4 "")))) s))
  end.
  reflexivity.
Qed.

Lemma in_range lo n (x : Z) :
  (Z.of_nat lo <= x < Z.of_nat (lo + n))%Z -> In x (map Z.of_nat (seq lo n)).
Proof.
  intros H. apply in_map_iff. exists (Z.to_nat x). split; [lia|]. apply in_seq. lia.
Qed.

Ltac enumerate H :=
  simpl in H;
  repeat match type of H with
         | _ \/ _ => destruct H as [H|H]
         end;
  try contradiction; subst.

(** The date format takes the text of a date, whole. *)
Lemma date_found y1 y2 y3 y4 m d :
  digit y1 = true -> digit y2 = true -> digit y3 = true -> digit y4 = true ->
  (1 <= m <= 12)%Z -> (1 <= d <= 31)%Z ->
  re_match (date_re Eps) (iso_text y1 y2 y3 y4 m d) =
  Some {| group0 := iso_text y1 y2 y3 y4 m d;
          groups := [(key "d", pad2 d); (key "m", pad2 m);
                     (key "Y", String y1 (String y2 (String y3 (String y4 ""))))] |}.
Proof.
  intros H1 H2 H3 H4 Hm Hd.
  assert (Em : In m (map Z.of_nat (seq 1 12))) by (apply in_range; simpl; lia).
  assert (Ed : In d (map Z.of_nat (seq 1 31))) by (apply in_range; simpl; lia).
  unfold re_match, match_at, date_re, iso_text. rewrite year_step by assumption.
  clear Hm Hd H1 H2 H3 H4.
  enumerate Em; enumerate Ed; vm_compute; reflexivity.
Qed.

(** The format with hours and minutes does not take it. *)
Lemma date_is_no_date_time y1 y2 y3 y4 m d :
  digit y1 = true -> digit y2 = true -> digit y3 = true -> digit y4 = true ->
  (1 <= m <= 12)%Z -> (1 <= d <= 31)%Z ->
  re_match (date_re time_re) (iso_text y1 y2 y3 y4 m d) = None.
Proof.
  intros H1 H2 H3 H4 Hm Hd.
  assert (Em : In m (map Z.of_nat (seq 1 12))) by (apply in_range; simpl; lia).
  assert (Ed : In d (map Z.of_nat (seq 1 31))) by (apply in_range; simpl; lia).
  unfold re_match, match_at, date_re, iso_text. rewrite year_step by assumption.
  clear Hm Hd H1 H2 H3 H4.
  enumerate Em; enumerate Ed; vm_compute; reflexivity.
Qed.

Lemma digit_char_val n : Py.digit_val (digit_char n) = (n mod 10)%Z.
Proof.
  unfold Py.digit_val, digit_char.
  pose proof (Z.mod_pos_bound n 10 ltac:(lia)) as Hb.
  rewrite nat_ascii_embedding by lia. lia.
Qed.

Lemma digit_char_digit n : digit (digit_char n) = true.
Proof.
  unfold digit, Py.isdigit, digit_char.
  pose proof (Z.mod_pos_bound n 10 ltac:(lia)) as Hb.
  rewrite nat_ascii_embedding by lia.
  apply andb_true_iff. split; apply Nat.leb_le; lia.
Qed.

Lemma int_pad2 n : (0 <= n <= 99)%Z -> Py.int (pad2 n) = n.
Proof.
  intros H. unfold Py.int, pad2. cbn [Py.int_acc]. rewrite !digit_char_val.
  Z.to_euclidean_division_equations. lia.
Qed.

Lemma int_pad4 n : (0 <= n <= 9999)%Z -> Py.int (pad4 n) = n.
Proof.
  intros H. unfold Py.int, pad4, pad2. cbn [Py.int_acc]. rewrite !digit_char_val.
  Z.to_euclidean_division_equations. lia.
Qed.

Lemma digit_not_space c : digit c = true -> Py.isspace c = false.
Proof.
  unfold digit, Py.isdigit, Py.isspace. intros H.
  apply andb_true_iff in H as [H1 H2]. apply Nat.leb_le in H1, H2.
  apply orb_false_iff. split; apply andb_false_iff.
  - right. apply Nat.leb_gt. lia.
  - right. apply Nat.leb_gt. lia.
Qed.

Lemma space_width_digit c s : digit c = true -> Py.space_width (String c s) = 0.
Proof.
  intros H. pose proof (digit_not_space c H) as Hs.
  unfold digit, Py.isdigit in H. apply andb_true_iff in H as [_ H]. apply Nat.leb_le in H.
  assert (Hb : forall n, 58 <= n -> Py.byte c n = false)
    by (intros n Hn; unfold Py.byte; apply Nat.eqb_neq; lia).
  unfold Py.space_width. rewrite Hs, !Hb by lia.
  destruct s as [|d [|e s]]; reflexivity.
Qed.

Lemma strip_pad2 n : Py.strip (pad2 n) = pad2 n.
Proof.
  unfold Py.strip, Py.lstrip, pad2. cbn [Py.lstrip_from].
  rewrite (space_width_digit _ _ (digit_char_digit (n / 10))).
  cbn [Py.rstrip]. unfold Py.blank. cbn [Py.blank_from].
  rewrite (space_width_digit _ _ (digit_char_digit (n / 10))).
  now rewrite (space_width_digit _ _ (digit_char_digit n)).
Qed.

Lemma days_in_month_le y m : (days_in_month y m <= 31)%Z.
Proof.
  unfold days_in_month. destruct (m =? 2)%Z; [destruct (is_leap y); lia|].
  destruct (_ || _); lia.
Qed.

Lemma datetime_new_valid Y M D h mi :
  valid_datetime {| year := Y; month := M; day := D; hour := h; minute := mi |} ->
  datetime_new Y M D h mi =
  Returns {| year := Y; month := M; day := D; hour := h; minute := mi |}.
Proof.
  unfold valid_datetime, datetime_new. simpl. intros H.
  assert (E : ((1 <=? Y) && (Y <=? 9999) && (1 <=? M) && (M <=? 12) && (1 <=? D) &&
               (D <=? days_in_month Y M) && (0 <=? h) && (h <=? 23) && (0 <=? mi) &&
               (mi <=? 59))%Z = true)
    by (repeat (apply andb_true_iff; split); apply Z.leb_le; lia).
  now rewrite E.
Qed.

Lemma strptime_date y1 y2 y3 y4 m d :
  digit y1 = true -> digit y2 = true -> digit y3 = true -> digit y4 = true ->
  (1 <= m <= 12)%Z -> (1 <= d <= 31)%Z ->
  strptime (iso_text y1 y2 y3 y4 m d) "%Y-%m-%d" =
  datetime_new (Py.int (String y1 (String y2 (String y3 (String y4 "")))))
    (Py.int (pad2 m)) (Py.int (Py.strip (pad2 d))) 0 0.
Proof.
  intros H1 H2 H3 H4 Hm Hd. unfold strptime.
  rewrite date_pattern, date_found by assumption.
  cbn [group0]. rewrite Nat.eqb_refl. reflexivity.
Qed.

(** X23. The date that the extractor writes is read back as the same
    day: for a date of the calendar from the year 1000 on, the text
    [YYYY-MM-DD] that [strftime] gives is parsed by [ParseTimestamp] to
    that year, month and day at midnight. *)
Theorem ParseTimestamp_reads_its_date_back (dt : datetime) :
  valid_datetime dt -> (1000 <= year dt)%Z ->
  ParseTimestamp (strftime_date dt) = Returns (midnight dt).
Proof.
  intros (Hy & Hm & Hd & _) Hy'.
  pose proof (days_in_month_le (year dt) (month dt)) as Hd'.
  unfold midnight.
  set (y := year dt) in *. set (m := month dt) in *. set (d := day dt) in *.
  assert (HS : strftime_date dt =
               iso_text (digit_char (y / 1000)) (digit_char (y / 100)) (digit_char (y / 10))
                 (digit_char y) m d).
  { unfold strftime_date, year_text. fold y m d.
    destruct (Z.ltb_spec y 10); [lia|]. destruct (Z.ltb_spec y 100); [lia|].
    destruct (Z.ltb_spec y 1000); [lia|reflexivity]. }
  assert (E123 : forall F,
            In F ["%B %d, %Y %I:%M %p"; "%B %d, %Y  %I:%M%p"; "%B %d, %Y  %I:%M %p"] ->
            strptime (strftime_date dt) F = Raises ValueError).
  { intros F HF. rewrite HS. unfold iso_text.
    apply named_formats_reject_digit; [apply digit_char_digit|assumption]. }
  assert (E4 : strptime (strftime_date dt) "%Y-%m-%d %H:%M" = Raises ValueError).
  { rewrite HS. unfold strptime. rewrite date_time_pattern.
    now rewrite date_is_no_date_time by (apply digit_char_digit || lia). }
  assert (E5 : strptime (strftime_date dt) "%Y-%m-%d" =
               Returns {| year := y; month := m; day := d; hour := 0; minute := 0 |}).
  { rewrite HS. rewrite strptime_date by (apply digit_char_digit || lia).
    change (String (digit_char (y / 1000)) (String (digit_char (y / 100))
              (String (digit_char (y / 10)) (String (digit_char y) ""))))
      with (pad4 y).
    rewrite strip_pad2, int_pad4, !int_pad2 by lia.
    apply datetime_new_valid. unfold valid_datetime. simpl. lia. }
  unfold ParseTimestamp, Formats. cbn [try_formats].
  rewrite !E123 by (simpl; tauto). rewrite E4, E5. reflexivity.
Qed.

Lemma ParseTimestamp_reads_its_date_back_witness :
  ParseTimestamp (strftime_date march_15_afternoon) = Returns (midnight march_15_afternoon).
Proof.
  apply (ParseTimestamp_reads_its_date_back march_15_afternoon).
  - repeat split; vm_compute; discriminate.
  - vm_compute. discriminate.
Defined.

(** ** Tables *)

Lemma split_lines_no_newline s : Forall no_newline (Py.split_lines s).
Proof.
  induction s as [|c s IH]; simpl; [now repeat constructor|].
  destruct (Ascii.eqb_spec c "010") as [->|Hc].
  - constructor; [reflexivity|assumption].
  - destruct (Py.split_lines s) as [|l ls].
    + repeat constructor. unfold no_newline. simpl.
      destruct (Ascii.eqb_spec c "010"); [contradiction|reflexivity].
    + apply Forall_cons in IH as [Hl Hls]. constructor; [|assumption].
      unfold no_newline in *. simpl. rewrite Hl.
      destruct (Ascii.eqb_spec c "010"); [contradiction|reflexivity].
Qed.

Lemma endswith_app a p : Py.endswith (a +:+ p) p = true.
Proof.
  unfold Py.endswith. rewrite len_app.
  replace (Py.len a + Py.len p - Py.len p) with (Py.len a) by lia.
  rewrite drop_app, String.eqb_refl, andb_true_r. apply Nat.leb_le. lia.
Qed.

Lemma table_line_intro w : is_table_line ("|" +:+ w +:+ "|") = true.
Proof.
  unfold is_table_line. rewrite andb_true_iff. split; [simpl; apply startswith_nil|].
  replace ("|" +:+ w +:+ "|") with (("|" +:+ w) +:+ "|") by (now rewrite app_assoc).
  apply endswith_app.
Qed.

Lemma separator_shape l : is_separator l = true ->
  exists w tail, l = "|" +:+ w +:+ "|" +:+ tail /\ all_in separator_char w = true /\
    (tail = "" \/ tail = newline).
Proof.
  unfold is_separator, re_match, match_at, SeparatorRowPattern, Star. cbn [rmatch].
  destruct (match l with EmptyString => None | String _ _ => _ end) eqn:E; [|discriminate].
  intros _. chr_step E. rep_step E as w rest. chr_step E. eos_step E.
  - exists w, "". auto.
  - exists w, newline. auto.
Qed.

Lemma separator_inv l : is_separator l = true -> no_newline l ->
  exists w, l = "|" +:+ w +:+ "|" /\ all_in separator_char w = true.
Proof.
  intros H Hnl. destruct (separator_shape l H) as (w & tail & -> & Hw & [->| ->]).
  - now exists w.
  - unfold no_newline in Hnl. simpl in Hnl. rewrite has_char_app in Hnl. simpl in Hnl.
    now rewrite orb_true_r in Hnl.
Qed.

Lemma separator_intro w : all_in separator_char w = true ->
  is_separator ("|" +:+ w +:+ "|") = true.
Proof.
  intros Hw. unfold is_separator, re_match, match_at, SeparatorRowPattern, Star.
  cbn [rmatch]. simpl String.append. cbn match. rewrite Ascii.eqb_refl.
  erewrite (rep_greedy_intro _ w); [reflexivity|simpl; lia|exact I|assumption|now right|].
  cbn beta iota. reflexivity.
Qed.

Lemma separator_table_line l : is_separator l = true -> no_newline l -> is_table_line l = true.
Proof. intros H Hnl. destruct (separator_inv l H Hnl) as (w & -> & _). apply table_line_intro. Qed.

Lemma table_end_run ls : forall e, table_end ls (S e) e = e + length (table_run ls).
Proof.
  induction ls as [|l ls IH]; intros e; simpl; [lia|].
  destruct (is_table_line l); simpl; [rewrite IH|]; lia.
Qed.

Lemma take_run ls : take (length (table_run ls)) ls = table_run ls.
Proof.
  induction ls as [|l ls IH]; simpl; [reflexivity|].
  destruct (is_table_line l); simpl; [now rewrite IH|reflexivity].
Qed.

Lemma split_from_not_nil sep s : forall skip, Py.split_from sep skip s <> [].
Proof.
  induction s as [|c s IH]; intros skip; cbn [Py.split_from]; [discriminate|].
  destruct skip; [|apply IH].
  destruct (Py.startswith (String c s) sep); [discriminate|].
  now destruct (Py.split_from sep 0 s).
Qed.

Lemma ParseTableRow_not_nil Row : _ParseTableRow Row <> [].
Proof.
  unfold _ParseTableRow, Py.split.
  pose proof (split_from_not_nil "|" (Py.strip_chars Row "|") 0) as H.
  now destruct (Py.split_from _ _ _).
Qed.

Lemma parse_rows_map ls : parse_rows ls = map _ParseTableRow ls.
Proof.
  unfold parse_rows.
  enough (H : forall acc,
    foldl (fun Rows Line => match _ParseTableRow Line with [] => Rows | _ => Rows ++ [_ParseTableRow Line] end)
      acc ls = acc ++ map _ParseTableRow ls) by apply (H []).
  induction ls as [|l ls IH]; intros acc; simpl; [now rewrite List.app_nil_r|].
  pose proof (ParseTableRow_not_nil l) as Hl.
  destruct (_ParseTableRow l) as [|c cs] eqn:E; [contradiction|].
  rewrite IH, <- List.app_assoc. reflexivity.
Qed.

Lemma line_at_app pre l suf : line_at (pre ++ l :: suf) (length pre) = l.
Proof. unfold line_at. induction pre; simpl; [reflexivity|assumption]. Qed.

Lemma line_at_next pre l suf : line_at (pre ++ l :: suf) (length pre + 1) = hd "" suf.
Proof.
  unfold line_at. induction pre; simpl; [now destruct suf|assumption].
Qed.

Lemma drop_next pre (l : string) suf : drop (length pre + 2) (pre ++ l :: suf) = tl suf.
Proof.
  induction pre; simpl; [now destruct suf|assumption].
Qed.

(** The loop is a fold over the indices of the lines that are left; it
    adds the tables of the header lines among them. *)
Lemma ExtractTables_fold suf : forall pre Ts st,
  Forall no_newline suf ->
  fst (foldl (table_step (pre ++ suf)) (Ts, st) (seq (length pre) (length suf))) =
  Ts ++ tables_of (pre ++ suf)
          (from_option Datatypes.id (first_table_line suf (length pre)) st)
          (table_heads suf (length pre)).
Proof.
  induction suf as [|l suf IH]; intros pre Ts st Hnl; [simpl; now rewrite List.app_nil_r|].
  apply Forall_cons in Hnl as [Hl Hnl].
  assert (EL : pre ++ l :: suf = (pre ++ [l]) ++ suf) by now rewrite <- List.app_assoc.
  assert (ES : S (length pre) = length (pre ++ [l])) by (rewrite length_app; simpl; lia).
  cbn [length seq foldl table_heads first_table_line].
  unfold table_step at 2. rewrite line_at_app.
  destruct (is_table_line l) eqn:Hline; cbn [andb].
  - rewrite line_at_next.
    replace (length pre + 1 <? length (pre ++ l :: suf))
      with (match suf with [] => false | _ => true end).
    2:{ rewrite length_app. simpl. destruct suf; simpl; symmetry;
          [apply Nat.ltb_ge|apply Nat.ltb_lt]; lia. }
    destruct suf as [|l2 suf']; cbn [andb hd].
    + simpl. destruct st; simpl; now rewrite List.app_nil_r.
    + destruct (is_separator l2) eqn:Hsep.
      * rewrite ES, EL, IH by assumption. rewrite <- ES, <- EL.
        rewrite <- List.app_assoc. f_equal. cbn [tables_of app]. f_equal.
        -- unfold table_at. rewrite line_at_app, drop_next. cbn [tl].
           replace (length pre + 2) with (S (length pre + 1)) by lia.
           rewrite table_end_run.
           replace (length pre + 1 + length (table_run suf') + 1 - S (length pre + 1))
             with (length (table_run suf')) by lia.
           rewrite take_run, parse_rows_map. now destruct st.
        -- cbn [first_table_line from_option].
           apply Forall_cons in Hnl as [Hl2 _].
           now rewrite (separator_table_line l2 Hsep Hl2).
      * rewrite ES, EL, IH by assumption. rewrite <- ES, <- EL. now destruct st.
  - rewrite ES, EL, IH by assumption. rewrite <- ES, <- EL. reflexivity.
Qed.

Lemma ExtractTables_tables_of Content :
  ExtractTables Content =
  tables_of (Py.split_lines Content) (first_table_line (Py.split_lines Content) 0)
    (table_heads (Py.split_lines Content) 0).
Proof.
  unfold ExtractTables.
  apply (ExtractTables_fold (Py.split_lines Content) [] [] None), split_lines_no_newline.
Qed.

Lemma table_heads_In suf : forall i h,
  In h (table_heads suf i) <->
  i <= h /\ is_table_line (nth (h - i) suf "") = true /\
  is_separator (nth (h - i + 1) suf "") = true.
Proof.
  induction suf as [|l suf IH]; intros i h.
  - simpl. split; [contradiction|]. intros (_ & H & _). now destruct (h - i).
  - cbn [table_heads].
    assert (Hrest : In h (table_heads suf (S i)) <->
                    S i <= h /\ is_table_line (nth (h - i) (l :: suf) "") = true /\
                    is_separator (nth (h - i + 1) (l :: suf) "") = true).
    { rewrite IH. split; intros (Hle & H1 & H2).
      - replace (h - i) with (S (h - S i)) by lia. now repeat split.
      - replace (h - i) with (S (h - S i)) in H1, H2 by lia. now repeat split. }
    assert (Hhd : nth 1 (l :: suf) "" = hd "" suf) by now destruct suf.
    destruct (is_table_line l && is_separator (hd "" suf)) eqn:E.
    + cbn [In]. rewrite Hrest. split.
      * intros [<-|(Hle & H)]; [|split; [lia|exact H]].
        rewrite Nat.sub_diag. cbn [Nat.add]. rewrite Hhd.
        apply andb_true_iff in E. split; [lia|exact E].
      * intros (Hle & H). destruct (Nat.eq_dec i h) as [->|Hne]; [now left|].
        right. split; [lia|exact H].
    + rewrite Hrest. split; [intros (Hle & H); split; [lia|exact H]|].
      intros (Hle & H1 & H2). destruct (Nat.eq_dec i h) as [->|Hne]; [|now (split; [lia|])].
      rewrite Nat.sub_diag in H1, H2. cbn [Nat.add] in H2. rewrite Hhd in H2.
      simpl in H1. rewrite H1, H2 in E. discriminate.
Qed.

Lemma table_heads_sorted suf : forall i, Sorted lt (table_heads suf i).
Proof.
  induction suf as [|l suf IH]; intros i; cbn [table_heads]; [constructor|].
  destruct (_ && _); [|apply IH]. constructor; [apply IH|].
  destruct (table_heads suf (S i)) as [|h hs] eqn:E; constructor.
  assert (H : In h (table_heads suf (S i))) by (rewrite E; now left).
  apply table_heads_In in H. lia.
Qed.

Lemma tables_of_map Lines hs : forall s,
  map (fun T => (header T, rows T, end_line T)) (tables_of Lines s hs) =
  map (fun h => (_ParseTableRow (line_at Lines h),
                 map _ParseTableRow (table_run (drop (h + 2) Lines)),
                 h + 1 + length (table_run (drop (h + 2) Lines)))) hs.
Proof. induction hs as [|h hs IH]; intros s; simpl; [reflexivity|now rewrite IH]. Qed.

(** X24. [ExtractTables] gives one table for each header line, a line
    that starts and ends with a pipe and stands before a separator row, in
    the order of the lines.  The header of the table is the header line
    read by [_ParseTableRow]; its rows are the lines after the separator
    row up to the first one that does not start and end with a pipe, each
    read by [_ParseTableRow] and none left out; its end line is the last
    of them, or the separator row when there is none.  The text holds no
    white space outside ASCII, so that the white space of a separator row
    is the one the pattern reads here. *)
Theorem ExtractTables_finds_the_tables (Content : string) :
  narrow_spaces Content = true ->
  let Lines := Py.split_lines Content in
  let heads := table_heads Lines 0 in
  map (fun T => (header T, rows T, end_line T)) (ExtractTables Content) =
    map (fun h => (_ParseTableRow (line_at Lines h),
                   map _ParseTableRow (table_run (drop (h + 2) Lines)),
                   h + 1 + length (table_run (drop (h + 2) Lines)))) heads
  /\ Sorted lt heads
  /\ forall h, In h heads <->
       is_table_line (line_at Lines h) = true /\
       is_separator (line_at Lines (h + 1)) = true.
Proof.
  intros _ Lines heads. split; [|split].
  - rewrite ExtractTables_tables_of. apply tables_of_map.
  - apply table_heads_sorted.
  - intros h. unfold heads. rewrite table_heads_In, Nat.sub_0_r. unfold line_at.
    split; [now intros (_ & H)|]. intros H. split; [lia|exact H].
Qed.

Lemma ExtractTables_finds_the_tables_witness :
  map (fun T => (header T, rows T, end_line T))
    (ExtractTables ("| Name | Size |" +:+ newline +:+ "|:------------|" +:+ newline
                    +:+ "| a | 1 |" +:+ newline +:+ "done")) =
  [(["Name"; "Size"], [["a"; "1"]], 2)].
Proof.
  destruct (ExtractTables_finds_the_tables
              ("| Name | Size |" +:+ newline +:+ "|:------------|" +:+ newline
               +:+ "| a | 1 |" +:+ newline +:+ "done") eq_refl) as [H _].
  rewrite H. reflexivity.
Defined.

Lemma first_table_line_spec suf : forall i,
  let s := first_table_line suf i in
  i <= s /\
  (forall j, i <= j -> j < s -> is_table_line (nth (j - i) suf "") = false) /\
  (s < i + length suf -> is_table_line (nth (s - i) suf "") = true).
Proof.
  induction suf as [|l suf IH]; intros i; cbn [first_table_line length].
  - cbn zeta. split; [lia|]. split; intros; lia.
  - destruct (is_table_line l) eqn:E; cbn zeta.
    + split; [lia|]. split; [intros; lia|]. intros _. now rewrite Nat.sub_diag.
    + destruct (IH (S i)) as (Hle & Hbefore & Hat). split; [lia|]. split.
      * intros j Hj Hlt. destruct (Nat.eq_dec i j) as [->|Hne].
        -- now rewrite Nat.sub_diag.
        -- replace (j - i) with (S (j - S i)) by lia. apply Hbefore; lia.
      * intros Hlt. replace (first_table_line suf (S i) - i)
          with (S (first_table_line suf (S i) - S i)) by lia.
        apply Hat. lia.
Qed.

Lemma tables_of_lookup Lines hs : forall s k T,
  tables_of Lines s hs !! k = Some T ->
  exists h, hs !! k = Some h /\
    T = table_at Lines (match k with 0 => s | S k' => S (default 0 (hs !! k')) end) h.
Proof.
  induction hs as [|h hs IH]; intros s k T H; [discriminate|].
  destruct k as [|k]; simpl in H.
  - inversion H. now exists h.
  - destruct (IH _ _ _ H) as (h' & Hk & ->). exists h'. split; [exact Hk|].
    destruct k; reflexivity.
Qed.

(** X25. The start line of the first table is the first line of the
    text that starts and ends with a pipe, whether or not it belongs to
    the table.  The start line of each later table is the line after the
    header line of the table before it, which is the separator row of that
    table and no line of the later one.  The text holds no white space
    outside ASCII. *)
Theorem ExtractTables_start_lines (Content : string) :
  narrow_spaces Content = true ->
  let Lines := Py.split_lines Content in
  let Tables := ExtractTables Content in
  (forall T, Tables !! 0 = Some T ->
     is_table_line (line_at Lines (start_line T)) = true /\
     forall j, j < start_line T -> is_table_line (line_at Lines j) = false)
  /\ (forall k T T', Tables !! k = Some T -> Tables !! S k = Some T' ->
        header T = _ParseTableRow (line_at Lines (start_line T' - 1)) /\
        is_separator (line_at Lines (start_line T')) = true /\
        start_line T' <= end_line T).
Proof.
  intros _ Lines Tables. unfold Tables. rewrite ExtractTables_tables_of. fold Lines. split.
  - intros T H. apply tables_of_lookup in H as (h & Hh & ->). cbn [table_at start_line].
    destruct (first_table_line_spec Lines 0) as (_ & Hbefore & Hat).
    assert (Hin : In h (table_heads Lines 0)).
    { apply list_elem_of_In. eapply list_elem_of_lookup_2, Hh. }
    apply table_heads_In in Hin as (_ & Hline & _). rewrite Nat.sub_0_r in Hline.
    assert (Hlt : first_table_line Lines 0 < 0 + length Lines).
    { destruct (Nat.lt_ge_cases h (first_table_line Lines 0)) as [Hc|Hc].
      - rewrite <- (Nat.sub_0_r h), Hbefore in Hline by lia. discriminate.
      - destruct (Nat.lt_ge_cases h (length Lines)) as [Hl|Hl]; [lia|].
        rewrite nth_overflow in Hline by lia. discriminate. }
    unfold line_at. split.
    + rewrite <- (Nat.sub_0_r (first_table_line Lines 0)). now apply Hat.
    + intros j Hj. rewrite <- (Nat.sub_0_r j). apply Hbefore; lia.
  - intros k T T' H H'.
    apply tables_of_lookup in H as (h & Hh & ->).
    apply tables_of_lookup in H' as (h' & Hh' & ->). rewrite Hh.
    cbn [table_at start_line end_line header default from_option]. unfold id.
    assert (Hin : In h (table_heads Lines 0)).
    { apply list_elem_of_In. eapply list_elem_of_lookup_2, Hh. }
    apply table_heads_In in Hin as (_ & _ & Hsep). rewrite Nat.sub_0_r in Hsep.
    replace (S h - 1) with h by lia. split; [reflexivity|]. split; [|lia].
    unfold line_at. now replace (S h) with (h + 1) by lia.
Qed.

Lemma ExtractTables_start_lines_witness :
  let Content := "intro" +:+ newline +:+ "|a|" +:+ newline +:+ "|-|" +:+ newline +:+ "|1|"
                 +:+ newline +:+ "text" +:+ newline +:+ "|b|" +:+ newline +:+ "|-|" in
  exists T T', ExtractTables Content !! 0 = Some T /\ ExtractTables Content !! 1 = Some T' /\
    start_line T = 1 /\ end_line T = 3 /\ start_line T' = 2 /\ end_line T' = 6 /\
    is_separator (line_at (Py.split_lines Content) (start_line T')) = true.
Proof.
  intros Content.
  destruct (ExtractTables_start_lines Content eq_refl) as [_ H].
  eexists _, _. split; [reflexivity|]. split; [reflexivity|].
  repeat (split; [reflexivity|]).
  eapply (H 0); reflexivity.
Defined.

Lemma first_table_line_app pre suf : forall i,
  Forall (fun l => is_table_line l = false) pre ->
  first_table_line (pre ++ suf) i = first_table_line suf (i + length pre).
Proof.
  induction pre as [|l pre IH]; intros i H; simpl; [now rewrite Nat.add_0_r|].
  apply Forall_cons in H as [Hl H]. rewrite Hl, IH by assumption. f_equal. lia.
Qed.

Lemma table_heads_app pre suf : forall i,
  Forall (fun l => is_table_line l = false) pre ->
  table_heads (pre ++ suf) i = table_heads suf (i + length pre).
Proof.
  induction pre as [|l pre IH]; intros i H; simpl; [now rewrite Nat.add_0_r|].
  apply Forall_cons in H as [Hl H]. rewrite Hl, IH by assumption. simpl. f_equal. lia.
Qed.

Lemma table_heads_cons l ls i :
  table_heads (l :: ls) i =
  if is_table_line l && is_separator (hd "" ls) then i :: table_heads ls (S i)
  else table_heads ls (S i).
Proof. reflexivity. Qed.

Lemma table_heads_none ls : forall l i,
  Forall (fun l => is_separator l = false) ls -> table_heads (l :: ls) i = [].
Proof.
  induction ls as [|l' ls IH]; intros l i H; cbn [table_heads hd].
  - change (is_separator "") with false. now rewrite andb_false_r.
  - apply Forall_cons in H as [Hl' H]. rewrite Hl', andb_false_r. now apply IH.
Qed.

Lemma table_run_app rows post :
  Forall (fun l => is_table_line l = true) rows ->
  head (table_run post) = None ->
  table_run (rows ++ post) = rows.
Proof.
  induction rows as [|l rows IH]; intros H Hpost; simpl.
  - now destruct (table_run post).
  - apply Forall_cons in H as [Hl H]. now rewrite Hl, IH.
Qed.

(** X26. A text with one table, a header line, a separator row and
    rows none of which is a separator row, between lines that do not start
    and end with a pipe, gives that table: its header and its rows read by
    [_ParseTableRow], its start line the header line and its end line the
    last row.  The text holds no white space outside ASCII. *)
Theorem ExtractTables_reads_a_table (Content : string)
    (pre post body : list string) (HeaderRow SeparatorRow : string) :
  narrow_spaces Content = true ->
  Py.split_lines Content = pre ++ HeaderRow :: SeparatorRow :: body ++ post ->
  Forall (fun l => is_table_line l = false) pre ->
  is_table_line HeaderRow = true ->
  is_separator SeparatorRow = true ->
  Forall (fun l => is_table_line l = true /\ is_separator l = false) body ->
  Forall (fun l => is_table_line l = false) post ->
  ExtractTables Content =
  [{| header := _ParseTableRow HeaderRow;
      rows := map _ParseTableRow body;
      start_line := length pre;
      end_line := length pre + 1 + length body |}].
Proof.
  intros _ E Hpre Hhead Hsep Hbody Hpost.
  pose proof (split_lines_no_newline Content) as Hnl. rewrite E in Hnl.
  rewrite ExtractTables_tables_of, E.
  rewrite first_table_line_app, table_heads_app by assumption.
  cbn [first_table_line Nat.add]. rewrite table_heads_cons. cbn [hd Nat.add].
  rewrite Hhead, Hsep. cbn [andb]. rewrite table_heads_none.
  - cbn [tables_of]. unfold table_at. rewrite line_at_app.
    change (HeaderRow :: SeparatorRow :: body ++ post)
      with (HeaderRow :: (SeparatorRow :: body ++ post)).
    rewrite drop_next. cbn [tl]. rewrite table_run_app; [reflexivity| |].
    + eapply Forall_impl; [exact Hbody|]. now intros l [H _].
    + destruct post as [|l post]; [reflexivity|]. apply Forall_cons in Hpost as [Hl _].
      simpl. now rewrite Hl.
  - apply Forall_app. split.
    + eapply Forall_impl; [exact Hbody|]. now intros l [_ H].
    + apply Forall_app in Hnl as [_ Hnl].
      apply Forall_cons in Hnl as [_ Hnl]. apply Forall_cons in Hnl as [_ Hnl].
      apply Forall_app in Hnl as [_ Hnl].
      clear - Hpost Hnl. induction post as [|l post IH]; constructor.
      * apply Forall_cons in Hpost as [Hl _]. apply Forall_cons in Hnl as [Hn _].
        destruct (is_separator l) eqn:Hs; [|reflexivity].
        rewrite (separator_table_line l Hs Hn) in Hl. discriminate.
      * apply Forall_cons in Hpost as [_ Hpost]. apply Forall_cons in Hnl as [_ Hnl].
        now apply IH.
Qed.

Lemma ExtractTables_reads_a_table_witness :
  ExtractTables ("Sizes:" +:+ newline +:+ "| Name | Size |" +:+ newline +:+ "|:------------|"
                 +:+ newline +:+ "| a | 1 |" +:+ newline +:+ "| b | 2 |" +:+ newline
                 +:+ "done") =
  [{| header := ["Name"; "Size"]; rows := [["a"; "1"]; ["b"; "2"]];
      start_line := 1; end_line := 4 |}].
Proof.
  pose proof (ExtractTables_reads_a_table
    ("Sizes:" +:+ newline +:+ "| Name | Size |" +:+ newline +:+ "|:------------|"
     +:+ newline +:+ "| a | 1 |" +:+ newline +:+ "| b | 2 |" +:+ newline +:+ "done")
    ["Sizes:"] ["done"] ["| a | 1 |"; "| b | 2 |"] "| Name | Size |" "|:------------|") as H.
  rewrite H; [reflexivity|vm_compute; reflexivity|vm_compute; reflexivity| |vm_compute; reflexivity
             |vm_compute; reflexivity| | ];
    repeat constructor; vm_compute; reflexivity.
Defined.

Lemma one_column w : all_in separator_char w = true ->
  forall a b tail, tail = "" \/ tail = newline ->
  a +:+ "|" +:+ b +:+ "|" <> w +:+ "|" +:+ tail.
Proof.
  induction w as [|c w IH]; intros Hw a b tail Ht E.
  - destruct a as [|x a]; simpl in E.
    + inversion E as [E']. destruct Ht as [->| ->]; destruct b as [|y [|? ?]]; discriminate.
    + inversion E as [[Hx E']]. destruct Ht as [->| ->]; destruct a as [|y [|? ?]]; discriminate.
  - simpl in Hw. apply andb_true_iff in Hw as [Hc Hw]. destruct a as [|x a]; simpl in E.
    + inversion E; subst c. discriminate.
    + inversion E. now apply (IH Hw a b tail).
Qed.

Lemma separator_has_one_column a b : is_separator ("|" +:+ a +:+ "|" +:+ b +:+ "|") = false.
Proof.
  destruct (is_separator _) eqn:E; [|reflexivity].
  destruct (separator_shape _ E) as (w & tail & Eq & Hw & Ht).
  simpl in Eq. inversion Eq as [Eq']. now apply one_column in Eq'.
Qed.

Lemma table_heads_no_separator ls : forall i,
  Forall (fun l => is_separator l = false) ls -> table_heads ls i = [].
Proof.
  destruct ls as [|l ls]; intros i H; [reflexivity|].
  apply Forall_cons in H as [_ H]. now apply table_heads_none.
Qed.

(** X27. The separator row of a table that is found has one column: a
    line with a pipe between its first and its last one is no separator
    row, so a text whose lines that start and end with a pipe all have two
    or more columns gives no table. *)
Theorem ExtractTables_finds_no_table_of_two_columns (Content : string) :
  (forall l, In l (Py.split_lines Content) -> is_table_line l = true ->
     exists a b, l = "|" +:+ a +:+ "|" +:+ b +:+ "|") ->
  ExtractTables Content = [].
Proof.
  intros H. rewrite ExtractTables_tables_of, table_heads_no_separator; [reflexivity|].
  pose proof (split_lines_no_newline Content) as Hnl.
  apply List.Forall_forall. intros l Hl. destruct (is_separator l) eqn:Hs; [|reflexivity].
  rewrite List.Forall_forall in Hnl.
  destruct (H l Hl (separator_table_line l Hs (Hnl l Hl))) as (a & b & ->).
  now rewrite separator_has_one_column in Hs.
Qed.

Lemma ExtractTables_finds_no_table_of_two_columns_witness :
  ExtractTables ("| Name | Size |" +:+ newline +:+ "|------|------|" +:+ newline
                 +:+ "| a | 1 |") = [].
Proof.
  apply (ExtractTables_finds_no_table_of_two_columns
           ("| Name | Size |" +:+ newline +:+ "|------|------|" +:+ newline +:+ "| a | 1 |")).
  intros l [<-|[<-|[<-|[]]]] _.
  - now exists " Name ", " Size ".
  - now exists "------", "------".
  - now exists " a ", " 1 ".
Defined.

(** ** Code blocks *)

Lemma finditer_at_matches r s : forall prev skip pos found,
  In found (finditer_at r prev skip pos s) ->
  exists prev' pre s',
    s = pre +:+ s' /\ fst found = pos + Py.len pre /\ match_at r prev' s' = Some (snd found).
Proof.
  induction s as [|c s IH]; intros prev skip pos found Hm; [destruct Hm|].
  assert (Hlater : forall prev' skip', In found (finditer_at r prev' skip' (S pos) s) ->
            exists prev'' pre s', String c s = pre +:+ s' /\ fst found = pos + Py.len pre /\
              match_at r prev'' s' = Some (snd found)).
  { intros prev' skip' H. apply IH in H as (prev'' & pre & s' & -> & Hpos & E).
    exists prev'', (String c pre), s'. simpl. repeat split; [lia|assumption]. }
  simpl in Hm. destruct skip as [|k]; [|now apply Hlater in Hm].
  destruct (match_at r prev (String c s)) as [m'|] eqn:E; [|now apply Hlater in Hm].
  destruct Hm as [<-|Hm]; [|now apply Hlater in Hm].
  exists prev, "", (String c s). simpl. repeat split; [lia|assumption].
Qed.

Lemma finditer_at_finditer r s : forall prev skip pos,
  map snd (finditer_at r prev skip pos s) = finditer_from r prev skip s.
Proof.
  induction s as [|c s IH]; intros prev skip pos; [reflexivity|]. simpl.
  destruct skip as [|k]; [|apply IH].
  destruct (match_at r prev (String c s)); simpl; now rewrite IH.
Qed.

Lemma finditer_at_pass r w s : forall prev pos,
  finditer_at r prev (Py.len w) pos (w +:+ s) =
  finditer_at r (last_char prev w) 0 (pos + Py.len w) s.
Proof.
  induction w as [|c w IH]; intros prev pos; simpl.
  - now rewrite Nat.add_0_r.
  - rewrite IH. f_equal. lia.
Qed.

Lemma finditer_at_any_prev r s : anchor_free r = true -> forall prev prev' skip pos,
  finditer_at r prev skip pos s = finditer_at r prev' skip pos s.
Proof.
  intros Hr. induction s as [|c s IH]; intros prev prev' skip pos; [reflexivity|].
  simpl. destruct skip as [|k]; [|reflexivity].
  now rewrite (match_at_any_prev r prev prev').
Qed.

Lemma finditer_at_shift r s : forall prev skip pos,
  finditer_at r prev skip pos s =
  map (fun found => (pos + fst found, snd found)) (finditer_at r prev skip 0 s).
Proof.
  induction s as [|c s IH]; intros prev skip pos; [reflexivity|]. simpl.
  assert (Hlater : forall prev' skip',
    finditer_at r prev' skip' (S pos) s =
    map (fun found => (pos + fst found, snd found)) (finditer_at r prev' skip' 1 s)).
  { intros prev' skip'. rewrite (IH prev' skip' (S pos)), (IH prev' skip' 1), map_map.
    apply map_ext. intros [p m]. simpl. f_equal. lia. }
  destruct skip as [|k]; [|apply Hlater].
  destruct (match_at r prev (String c s)); simpl; rewrite Hlater; [|reflexivity].
  now rewrite Nat.add_0_r.
Qed.

Lemma count_char_app c a b :
  Py.count_char c (a +:+ b) = Py.count_char c a + Py.count_char c b.
Proof. induction a as [|x a IH]; simpl; [reflexivity|]. rewrite IH. lia. Qed.

Lemma count_char_none p c w : all_in p w = true -> p c = false -> Py.count_char c w = 0.
Proof.
  induction w as [|x w IH]; simpl; [reflexivity|]. intros Hall Hc.
  apply andb_true_iff in Hall as [Hx Hall]. rewrite IH by assumption.
  destruct (Ascii.eqb_spec x c) as [->|]; [congruence|reflexivity].
Qed.

Lemma take_str_app w s n : Py.take_str (Py.len w + n) (w +:+ s) = w +:+ Py.take_str n s.
Proof. induction w as [|c w IH]; simpl; [reflexivity|now rewrite IH]. Qed.

Lemma CodeBlock_shape prev s m : match_at CodeBlockPattern prev s = Some m ->
  exists lang code rest,
    s = "```" +:+ lang +:+ newline +:+ code +:+ "```" +:+ rest /\
    1 <= Py.len lang /\ all_in language_char lang = true /\
    m = {| group0 := "```" +:+ lang +:+ newline +:+ code +:+ "```";
           groups := [(2, code); (1, lang)] |}.
Proof.
  unfold match_at, CodeBlockPattern, Plus, LazyStar. cbn [rmatch Lit]. intros E.
  do 3 chr_step E. rep_step E as lang r1. chr_step E. lazy_step E as code r2.
  do 3 chr_step E.
  exists lang, code, r2. unfold newline.
  take_is ("```" +:+ lang +:+ String "010" code +:+ "```") E.
  take_is lang E. take_is code E. inversion E. repeat split; try assumption.
Qed.

Lemma CodeBlock_complete prev lang code rest :
  1 <= Py.len lang -> all_in language_char lang = true ->
  Py.has_char "`"%char code = false ->
  match_at CodeBlockPattern prev ("```" +:+ lang +:+ newline +:+ code +:+ "```" +:+ rest) =
  Some {| group0 := "```" +:+ lang +:+ newline +:+ code +:+ "```";
          groups := [(2, code); (1, lang)] |}.
Proof.
  intros Ll Hl Hcode.
  unfold match_at, CodeBlockPattern, Plus, LazyStar, newline. cbn [rmatch Lit].
  simpl String.append. cbn match. rewrite !Ascii.eqb_refl.
  rep_intro lang; [right; reflexivity|]. rewrite Ascii.eqb_refl.
  apply rep_lazy_star_intro; [clear; now induction code| |].
  - intros w1 c w2 ->. rewrite app_cons.
    rewrite has_char_app in Hcode. apply orb_false_iff in Hcode as [_ Hcode].
    simpl in Hcode. apply orb_false_iff in Hcode as [Hc _].
    rewrite Ascii.eqb_sym in Hc. now rewrite Hc.
  - simpl String.append. cbn match. rewrite !Ascii.eqb_refl.
    do 2 f_equal.
    + apply take_group. str_norm.
    + f_equal; [|f_equal]; f_equal; apply take_group; str_norm.
Qed.

Lemma CodeBlock_opens prev c s : c <> "`"%char -> match_at CodeBlockPattern prev (String c s) = None.
Proof.
  intros Hc. unfold match_at, CodeBlockPattern. cbn [rmatch Lit].
  destruct (Ascii.eqb_spec "`" c) as [<-|]; [contradiction|reflexivity].
Qed.

Lemma finditer_at_plain w s : forall prev pos,
  Py.has_char "`"%char w = false ->
  finditer_at CodeBlockPattern prev 0 pos (w +:+ s) =
  finditer_at CodeBlockPattern (last_char prev w) 0 (pos + Py.len w) s.
Proof.
  induction w as [|c w IH]; intros prev pos Hw; simpl.
  - now rewrite Nat.add_0_r.
  - simpl in Hw. apply orb_false_iff in Hw as [Hc Hw].
    rewrite CodeBlock_opens by (intros ->; now rewrite Ascii.eqb_refl in Hc).
    rewrite IH by assumption. f_equal. lia.
Qed.

(** X28. Every block that [ExtractCodeBlocks] returns stands in the
    text: three backticks, the language (one or more of the characters of
    its class), a newline, the code and three backticks.  Its start line
    is the number of newlines before the opening backticks, the line of
    the opening marks counted from zero; its end line is one more than the
    number of newlines before the closing backticks, the line after the
    closing marks counted from zero. *)
Theorem ExtractCodeBlocks_blocks (Content : string) (B : Block.t) :
  In B (ExtractCodeBlocks Content) ->
  exists pre rest,
    Content = pre +:+ "```" +:+ Block.language B +:+ newline +:+ Block.code B +:+ "```" +:+ rest /\
    1 <= Py.len (Block.language B) /\ all_in language_char (Block.language B) = true /\
    Block.start_line B = Py.count_char "010" pre /\
    Block.end_line B =
      Py.count_char "010" (pre +:+ "```" +:+ Block.language B +:+ newline +:+ Block.code B) + 1.
Proof.
  unfold ExtractCodeBlocks. intros H. apply in_map_iff in H as ([start m] & <- & H).
  apply finditer_at_matches in H as (prev & pre & s & -> & Hpos & E).
  simpl in Hpos. subst start.
  apply CodeBlock_shape in E as (lang & code & rest & -> & Ll & Hl & ->).
  exists pre, rest. cbn [fst snd code_block group_str group assoc groups Nat.eqb default
    from_option Block.language Block.code Block.start_line Block.end_line]. unfold id.
  rewrite take_app. repeat split; try assumption.
  rewrite !count_char_app, (count_char_none language_char "010" lang Hl eq_refl). simpl. lia.
Qed.

Lemma ExtractCodeBlocks_blocks_witness :
  exists pre rest,
    "Run:" +:+ newline +:+ "```sh" +:+ newline +:+ "make" +:+ newline +:+ "```" +:+ newline =
      pre +:+ "```" +:+ "sh" +:+ newline +:+ ("make" +:+ newline) +:+ "```" +:+ rest /\
    1 <= Py.len "sh" /\ all_in language_char "sh" = true /\
    1 = Py.count_char "010" pre /\
    4 = Py.count_char "010" (pre +:+ "```" +:+ "sh" +:+ newline +:+ ("make" +:+ newline)) + 1.
Proof.
  apply (ExtractCodeBlocks_blocks
    ("Run:" +:+ newline +:+ "```sh" +:+ newline +:+ "make" +:+ newline +:+ "```" +:+ newline)
    {| Block.language := "sh"; Block.code := "make" +:+ newline;
       Block.start_line := 1; Block.end_line := 4 |}).
  vm_compute. now left.
Defined.

Lemma code_block_shift P rest p m :
  code_block (P +:+ rest) (Py.len P + p) m =
  Block.shift (Py.count_char "010" P) (code_block rest p m).
Proof.
  unfold code_block, Block.shift. cbn [Block.language Block.code Block.start_line Block.end_line].
  rewrite take_str_app, count_char_app. f_equal; lia.
Qed.

Lemma finditer_at_block prev pos lang code rest :
  1 <= Py.len lang -> all_in language_char lang = true ->
  Py.has_char "`"%char code = false ->
  finditer_at CodeBlockPattern prev 0 pos
    (("```" +:+ lang +:+ newline +:+ code +:+ "```") +:+ rest) =
  (pos, {| group0 := "```" +:+ lang +:+ newline +:+ code +:+ "```";
           groups := [(2, code); (1, lang)] |})
  :: map (fun found =>
            (pos + Py.len ("```" +:+ lang +:+ newline +:+ code +:+ "```") + fst found, snd found))
       (finditer_at CodeBlockPattern None 0 0 rest).
Proof.
  intros Ll Hl Hcode.
  pose proof (CodeBlock_complete prev lang code rest Ll Hl Hcode) as E.
  replace ("```" +:+ lang +:+ newline +:+ code +:+ "```" +:+ rest)
    with (("```" +:+ lang +:+ newline +:+ code +:+ "```") +:+ rest) in E by str_norm.
  change ("```" +:+ lang +:+ newline +:+ code +:+ "```")
    with (String "`" ("``" +:+ lang +:+ newline +:+ code +:+ "```")) in *.
  remember ("``" +:+ lang +:+ newline +:+ code +:+ "```") as G eqn:EG.
  rewrite app_cons in E |- *. cbn [finditer_at]. rewrite E. cbn [group0 Py.len].
  replace (S (Py.len G) - 1) with (Py.len G) by lia. rewrite finditer_at_pass.
  rewrite (finditer_at_any_prev CodeBlockPattern rest eq_refl _ None), finditer_at_shift.
  f_equal. apply map_ext. intros [p m]. simpl. f_equal. lia.
Qed.

(** X29. Where the text before three backticks holds no backtick, the
    language after them is one or more characters of its class, and the
    code up to the next three backticks holds no backtick, the first block
    of [ExtractCodeBlocks] is that one, and the blocks after it are the
    blocks of the rest of the text, their lines counted on from the
    closing marks. *)
Theorem ExtractCodeBlocks_first_block (pre lang code rest : string) :
  Py.has_char "`"%char pre = false ->
  1 <= Py.len lang -> all_in language_char lang = true ->
  Py.has_char "`"%char code = false ->
  ExtractCodeBlocks (pre +:+ "```" +:+ lang +:+ newline +:+ code +:+ "```" +:+ rest) =
  {| Block.language := lang; Block.code := code;
     Block.start_line := Py.count_char "010" pre;
     Block.end_line := Py.count_char "010" pre + Py.count_char "010" code + 2 |}
  :: map (Block.shift (Py.count_char "010" pre + 1 + Py.count_char "010" code))
       (ExtractCodeBlocks rest).
Proof.
  intros Hpre Ll Hl Hcode. unfold ExtractCodeBlocks.
  pose proof (finditer_at_block (last_char None pre) (0 + Py.len pre) lang code rest
                Ll Hl Hcode) as Hfound.
  remember ("```" +:+ lang +:+ newline +:+ code +:+ "```") as block eqn:Eb.
  replace (pre +:+ "```" +:+ lang +:+ newline +:+ code +:+ "```" +:+ rest)
    with (pre +:+ block +:+ rest) by (subst block; str_norm).
  rewrite finditer_at_plain, Hfound by assumption.
  cbn [map fst snd Nat.add]. f_equal.
  - unfold code_block. rewrite take_app.
    cbn [group_str group assoc groups Nat.eqb default from_option]. reflexivity.
  - rewrite !map_map. apply map_ext. intros [p m]. cbn [fst snd Nat.add].
    rewrite <- app_assoc.
    replace (Py.len pre + Py.len block + p) with (Py.len (pre +:+ block) + p)
      by (rewrite len_app; lia).
    rewrite code_block_shift. f_equal. rewrite count_char_app. subst block.
    unfold newline. simpl. rewrite !count_char_app.
    rewrite (count_char_none language_char "010" lang Hl eq_refl). simpl.
    rewrite count_char_app. simpl. lia.
Qed.

Lemma ExtractCodeBlocks_first_block_witness :
  ExtractCodeBlocks (("Run:" +:+ newline) +:+ "```" +:+ "sh" +:+ newline +:+ ("make" +:+ newline)
                     +:+ "```" +:+ (newline +:+ "done")) =
  [{| Block.language := "sh"; Block.code := "make" +:+ newline;
      Block.start_line := 1; Block.end_line := 4 |}].
Proof.
  pose proof (ExtractCodeBlocks_first_block ("Run:" +:+ newline) "sh" ("make" +:+ newline)
                (newline +:+ "done")) as H.
  rewrite H; [reflexivity|reflexivity|simpl; lia|reflexivity|reflexivity].
Defined.
